(** * go-data-transfer: the graphsync transport adapter and the side-channel receiver

    A shallow embedding of [transport/graphsync] (type [Transport], its
    exposed operations and its graphsync hooks) and of [impl.receiver].

    The Go code mutates one shared [*Transport] behind a lock, calls back
    into a [transport.Events] handler and drives a [graphsync.GraphExchange].
    Here every operation is a computation over a world made of the transport
    value, the state of the environment (handler and block transport) and the
    list of calls made so far; a call either returns, panics (nil
    dereference) or blocks on a pending-signal. *)

From stdpp Require Import gmap strings list fin_maps.
From Stdlib Require Import ZArith Lia.

Local Open Scope Z_scope.

(** ** Identifiers *)

(** [peer.ID] is a Go string. *)
Abbreviation peer_ID := string.
(** [graphsync.RequestID] is an int32, [datatransfer.TransferID] a uint64. *)
Abbreviation RequestID := Z.
Abbreviation TransferID := Z.
(** [ipld.Link], [cid.Cid] and [ipld.Node] are opaque to this code. *)
Abbreviation Link := string.
Abbreviation Cid := string.
Abbreviation Node := string.

Definition uint64_mod : Z := 2 ^ 64.

(** [datatransfer.ChannelID], with the two fields this code fills in. *)
Record ChannelID := mkChannelID { Initiator : peer_ID; ID : TransferID }.

#[global] Instance ChannelID_eq_dec : EqDecision ChannelID.
Proof. solve_decision. Defined.

#[global] Instance ChannelID_countable : Countable ChannelID :=
  inj_countable' (fun c => (Initiator c, ID c))
                 (fun p => mkChannelID p.1 p.2)
                 (fun c => match c with mkChannelID _ _ => eq_refl end).

(** [graphsyncKey] *)
Record graphsyncKey := mkKey { requestID : RequestID; p : peer_ID }.

#[global] Instance graphsyncKey_eq_dec : EqDecision graphsyncKey.
Proof. solve_decision. Defined.

#[global] Instance graphsyncKey_countable : Countable graphsyncKey :=
  inj_countable' (fun k => (requestID k, p k))
                 (fun q => mkKey q.1 q.2)
                 (fun k => match k with mkKey _ _ => eq_refl end).

(** [responseProgress]: two uint64 counters. *)
Record responseProgress := mkProgress { currentSent : Z; maximumSent : Z }.

(** ** Errors

    Go compares errors with the sentinels by identity; every error made by
    [errors.New] elsewhere is an [ErrOther] carrying its text. *)
Inductive error :=
| ErrPause
| ErrResume
| ErrChannelNotFound
| ErrHandlerNotSet
| ErrHandlerAlreadySet
| errContextCancelled
| RequestCancelledErr
| ErrOther (text : string).

#[global] Instance error_eq_dec : EqDecision error.
Proof. solve_decision. Defined.

(** ** Messages *)

(** [message.transferResponse] *)
Record transferResponse := mkResponse {
  Acpt : bool;
  Updt : bool;
  XferID : Z;
  VRes : option (list Z);
  VTyp : string
}.

(** Modelled from the spec: [message.transferRequest] is not among the
    sources; its fields are the request rows of the wire layout table. *)
Record transferRequest := mkRequest {
  rqBCid : Cid;
  rqStor : list Z;
  rqVouch : list Z;
  rqVTyp : string;
  rqPart : bool;
  rqPull : bool;
  rqXferID : Z
}.

(** [message.DataTransferMessage]: a request or a response. *)
Inductive Message :=
| MsgRequest (rq : transferRequest)
| MsgResponse (rs : transferResponse).

Definition IsRequest (m : Message) : bool :=
  match m with MsgRequest _ => true | MsgResponse _ => false end.

Definition TransferID_of (m : Message) : TransferID :=
  match m with MsgRequest rq => rqXferID rq | MsgResponse rs => XferID rs end.

Definition IsUpdate (rs : transferResponse) : bool := Updt rs.
Definition Accepted (rs : transferResponse) : bool := Acpt rs.
Definition IsPull (rq : transferRequest) : bool := rqPull rq.
Definition BaseCid (rq : transferRequest) : Cid := rqBCid rq.

(** [graphsync.ExtensionData] *)
Record ExtensionData := mkExt { Name : string; Data : list Z }.

(** Modelled from the spec: the wire extension identifier (section 6). *)
Definition ExtensionDataTransfer : string := "fil/data-transfer".

(** [graphsync.RequestData] and [graphsync.ResponseData], as far as the
    adapter reads them: the request id and the named extensions. *)
Record RequestData := mkRequestData {
  rdID : RequestID;
  rdExtensions : gmap string (list Z)
}.

Inductive ResponseStatusCode :=
| RequestCompletedFull
| RequestCompletedPartial
| RequestCancelled
| RequestFailedUnknown.

#[global] Instance ResponseStatusCode_eq_dec : EqDecision ResponseStatusCode.
Proof. solve_decision. Defined.

Record ResponseData := mkResponseData {
  rsRequestID : RequestID;
  rsStatus : ResponseStatusCode;
  rsExtensions : gmap string (list Z)
}.

(** [graphsync.BlockData] *)
Record BlockData := mkBlock { BlockLink : Link; BlockSize : Z }.

(** The signalling codec ([message.FromNet], [msg.ToNet], the selector
    decoder) is generated code outside the sources: it is a parameter. *)
Class Codec := {
  ToNet : Message -> error + list Z;
  FromNet : list Z -> error + Message;
  DecodeSelector : list Z -> error + Node
}.

(** ** Calls made to the outside, in the order they are made *)
Inductive HookName :=
| IncomingRequestHook | CompletedResponseListener | IncomingBlockHook
| OutgoingBlockHook | OutgoingRequestHook | IncomingResponseHook
| RequestUpdatedHook | RequestorCancelledListener.

Inductive Effect :=
(* transport.Events *)
| EvChannelOpened (chid : ChannelID)
| EvDataReceived (chid : ChannelID) (l : Link) (size : Z)
| EvDataSent (chid : ChannelID) (l : Link) (size : Z)
| EvRequestReceived (chid : ChannelID) (rq : transferRequest)
| EvResponseReceived (chid : ChannelID) (rs : transferResponse)
| EvChannelCompleted (chid : ChannelID) (success : bool)
(* graphsync.GraphExchange *)
| GsRequest (to : peer_ID) (root : Link) (stor : option Node) (ext : ExtensionData)
| GsPauseRequest (id : RequestID)
| GsUnpauseRequest (id : RequestID) (exts : list ExtensionData)
| GsPauseResponse (to : peer_ID) (id : RequestID)
| GsUnpauseResponse (to : peer_ID) (id : RequestID) (exts : list ExtensionData)
| GsCancelResponse (to : peer_ID) (id : RequestID)
| GsRegister (h : HookName)
(* hook actions *)
| HaTerminateWithError (err : option error)
| HaValidateRequest
| HaSendExtensionData (ext : ExtensionData)
| HaUpdateRequestWithExtensions (ext : ExtensionData)
| HaPauseResponse
| HaPauseRequest
(* channels, contexts, goroutines, the log *)
| ClosePending (chid : ChannelID)
| CancelContext (chid : ChannelID)
| GoExecuteGsRequest (chid : ChannelID)
| LogError (err : error)
(* the transport and the network, as the receiver calls them *)
| TrOpenChannel (to : peer_ID) (chid : ChannelID) (root : Link)
                (stor : option Node) (msg : transferResponse)
| TrPauseChannel (chid : ChannelID)
| TrResumeChannel (msg : option transferResponse) (chid : ChannelID)
| TrCloseChannel (chid : ChannelID)
| NetSendMessage (to : peer_ID) (msg : transferResponse).

(** ** The environment: event handler and block transport

    Both are interfaces whose implementations live outside this code.  A
    method takes the environment state and returns its results with the
    next state, so a handler may answer differently from call to call. *)
Record Events {E : Type} := mkEvents {
  OnChannelOpened : ChannelID -> E -> option error * E;
  OnDataReceived : ChannelID -> Link -> Z -> E -> option error * E;
  OnDataSent : ChannelID -> Link -> Z -> E -> (option Message * option error) * E;
  OnRequestReceived :
    ChannelID -> transferRequest -> E -> (option transferResponse * option error) * E;
  OnResponseReceived : ChannelID -> transferResponse -> E -> option error * E;
  OnChannelCompleted : ChannelID -> bool -> E -> option error * E
}.
Arguments Events : clear implicits.

Record GraphExchange {E : Type} := mkGraphExchange {
  PauseRequest : RequestID -> E -> option error * E;
  UnpauseRequest : RequestID -> list ExtensionData -> E -> option error * E;
  PauseResponse : peer_ID -> RequestID -> E -> option error * E;
  UnpauseResponse : peer_ID -> RequestID -> list ExtensionData -> E -> option error * E;
  CancelResponse : peer_ID -> RequestID -> E -> option error * E
}.
Arguments GraphExchange : clear implicits.

(** ** [Transport] *)
Record Transport {E : Type} := mkTransport {
  events : option (Events E);
  gs : GraphExchange E;
  peerID : peer_ID;
  graphsyncRequestMap : gmap graphsyncKey ChannelID;
  channelIDMap : gmap ChannelID graphsyncKey;
  contextCancelMap : gmap ChannelID unit;
  pending : gmap ChannelID unit;
  requestorCancelledMap : gmap ChannelID unit;
  pendingExtensions : gmap ChannelID (list ExtensionData);
  responseProgressMap : gmap ChannelID responseProgress
}.
Arguments Transport : clear implicits.

(** The world a call runs in. *)
Record World {T E : Type} := mkWorld {
  tr : T;
  env : E;
  calls : list Effect
}.
Arguments World : clear implicits.
Arguments mkWorld {T E} _ _ _.

(** How a call ends: it returns, it panics, or it waits on the
    pending-signal of a channel. *)
Inductive Outcome (W A : Type) :=
| Ok (a : A) (w : W)
| Panic
| Blocked (chid : ChannelID).
Arguments Ok {W A} _ _.
Arguments Panic {W A}.
Arguments Blocked {W A} _.

Definition M (W A : Type) : Type := W -> Outcome W A.

Definition ret {W A} (a : A) : M W A := fun w => Ok a w.

Definition bind {W A B} (m : M W A) (k : A -> M W B) : M W B :=
  fun w => match m w with
           | Ok a w' => k a w'
           | Panic => Panic
           | Blocked c => Blocked c
           end.

Declare Scope go_scope.
Delimit Scope go_scope with go.
Notation "x <- m ;; k" := (bind m (fun x => k))
  (at level 100, m at next level, right associativity) : go_scope.
Notation "m ;;; k" := (bind m (fun _ => k))
  (at level 100, right associativity) : go_scope.
Local Open Scope go_scope.

Definition panic {W A} : M W A := fun _ => Panic.
Definition wait {W A} (chid : ChannelID) : M W A := fun _ => Blocked chid.

Definition getT {T E} : M (World T E) T := fun w => Ok (tr w) w.

Definition modifyT {T E} (f : T -> T) : M (World T E) unit :=
  fun w => Ok tt (mkWorld (f (tr w)) (env w) (calls w)).

Definition emit {T E} (e : Effect) : M (World T E) unit :=
  fun w => Ok tt (mkWorld (tr w) (env w) (calls w ++ [e])).

(** A call into the environment, recorded, with its result. *)
Definition call {T E R} (e : Effect) (f : E -> R * E) : M (World T E) R :=
  fun w => let '(r, e') := f (env w) in
           Ok r (mkWorld (tr w) e' (calls w ++ [e])).

Fixpoint forEach {W A} (l : list A) (f : A -> M W unit) : M W unit :=
  match l with
  | [] => ret tt
  | x :: l' => f x ;;; forEach l' f
  end.

(** Field updates of [Transport]. *)
Section Setters.
Context {E : Type}.
Implicit Type t : Transport E.

Definition set_events (v : option (Events E)) t : Transport E :=
  mkTransport E v (gs t) (peerID t) (graphsyncRequestMap t) (channelIDMap t)
    (contextCancelMap t) (pending t) (requestorCancelledMap t)
    (pendingExtensions t) (responseProgressMap t).

Definition set_graphsyncRequestMap (f : gmap graphsyncKey ChannelID -> gmap graphsyncKey ChannelID) t :=
  mkTransport E (events t) (gs t) (peerID t) (f (graphsyncRequestMap t)) (channelIDMap t)
    (contextCancelMap t) (pending t) (requestorCancelledMap t)
    (pendingExtensions t) (responseProgressMap t).

Definition set_channelIDMap (f : gmap ChannelID graphsyncKey -> gmap ChannelID graphsyncKey) t :=
  mkTransport E (events t) (gs t) (peerID t) (graphsyncRequestMap t) (f (channelIDMap t))
    (contextCancelMap t) (pending t) (requestorCancelledMap t)
    (pendingExtensions t) (responseProgressMap t).

Definition set_contextCancelMap (f : gmap ChannelID unit -> gmap ChannelID unit) t :=
  mkTransport E (events t) (gs t) (peerID t) (graphsyncRequestMap t) (channelIDMap t)
    (f (contextCancelMap t)) (pending t) (requestorCancelledMap t)
    (pendingExtensions t) (responseProgressMap t).

Definition set_pending (f : gmap ChannelID unit -> gmap ChannelID unit) t :=
  mkTransport E (events t) (gs t) (peerID t) (graphsyncRequestMap t) (channelIDMap t)
    (contextCancelMap t) (f (pending t)) (requestorCancelledMap t)
    (pendingExtensions t) (responseProgressMap t).

Definition set_requestorCancelledMap (f : gmap ChannelID unit -> gmap ChannelID unit) t :=
  mkTransport E (events t) (gs t) (peerID t) (graphsyncRequestMap t) (channelIDMap t)
    (contextCancelMap t) (pending t) (f (requestorCancelledMap t))
    (pendingExtensions t) (responseProgressMap t).

Definition set_pendingExtensions
    (f : gmap ChannelID (list ExtensionData) -> gmap ChannelID (list ExtensionData)) t :=
  mkTransport E (events t) (gs t) (peerID t) (graphsyncRequestMap t) (channelIDMap t)
    (contextCancelMap t) (pending t) (requestorCancelledMap t)
    (f (pendingExtensions t)) (responseProgressMap t).

Definition set_responseProgressMap
    (f : gmap ChannelID responseProgress -> gmap ChannelID responseProgress) t :=
  mkTransport E (events t) (gs t) (peerID t) (graphsyncRequestMap t) (channelIDMap t)
    (contextCancelMap t) (pending t) (requestorCancelledMap t)
    (pendingExtensions t) (f (responseProgressMap t)).
End Setters.

(** ** The transport adapter ([transport/graphsync]) *)
Section Adapter.
Context {E : Type} `{Codec}.

Abbreviation TWorld := (World (Transport E) E).

(** Modelled from the spec: [extension.ToExtensionData] is not among the
    sources; it encodes the message under the extension name and fails
    when the encoder fails. *)
Definition ToExtensionData (msg : Message) : error + ExtensionData :=
  match ToNet msg with
  | inl err => inl err
  | inr data => inr (mkExt ExtensionDataTransfer data)
  end.

(** Modelled from the spec: [extension.GetTransferData] is not among the
    sources; it gives [(msg, nil)] when the extension is present and parses,
    [(nil, nil)] when it is absent and [(nil, err)] when it is present but
    does not parse (section 4.1). *)
Definition GetTransferData (exts : gmap string (list Z)) : option Message * option error :=
  match exts !! ExtensionDataTransfer with
  | None => (None, None)
  | Some data =>
      match FromNet data with
      | inl err => (None, Some err)
      | inr msg => (Some msg, None)
      end
  end.

Definition NewTransport (peerID : peer_ID) (gs : GraphExchange E) : Transport E :=
  mkTransport E None gs peerID ∅ ∅ ∅ ∅ ∅ ∅ ∅.

(** The handler behind [t.events]; calling a method of a nil interface
    panics. *)
Definition theEvents : M TWorld (Events E) :=
  t <- getT ;;
  match events t with
  | Some ev => ret ev
  | None => panic
  end.

Definition cleanupChannel (chid : ChannelID) (gsKey : graphsyncKey) : M TWorld unit :=
  modifyT (set_channelIDMap (delete chid)) ;;;
  modifyT (set_contextCancelMap (delete chid)) ;;;
  modifyT (set_pending (delete chid)) ;;;
  modifyT (set_graphsyncRequestMap (delete gsKey)) ;;;
  modifyT (set_responseProgressMap (delete chid)) ;;;
  modifyT (set_pendingExtensions (delete chid)) ;;;
  modifyT (set_requestorCancelledMap (delete chid)).

(** [consumeResponses]: the last error read before the error stream
    closes, unless the context ends first. *)
Definition consumeResponses (ctxDone : bool) (errs : list error) : option error :=
  if ctxDone then Some errContextCancelled else last errs.

Definition executeGsRequest (ctxDone : bool) (channelID : ChannelID) (errs : list error)
  : M TWorld unit :=
  let lastError := consumeResponses ctxDone errs in
  (if decide (lastError = Some RequestCancelledErr) then ret tt
   else
     ev <- theEvents ;;
     err <- call (EvChannelCompleted channelID (bool_decide (lastError = None)))
                 (OnChannelCompleted ev channelID (bool_decide (lastError = None))) ;;
     match err with
     | Some e => emit (LogError e)
     | None => ret tt
     end) ;;;
  t <- getT ;;
  let found := channelIDMap t !! channelID in
  modifyT (set_channelIDMap (delete channelID)) ;;;
  modifyT (set_contextCancelMap (delete channelID)) ;;;
  modifyT (set_pending (delete channelID)) ;;;
  match found with
  | Some gsKey => modifyT (set_graphsyncRequestMap (delete gsKey))
  | None => ret tt
  end.

(** [OpenChannel] *)
Definition OpenChannel (dataSender : peer_ID) (channelID : ChannelID)
    (root : Link) (stor : option Node) (msg : Message) : M TWorld (option error) :=
  t <- getT ;;
  match events t with
  | None => ret (Some ErrHandlerNotSet)
  | Some _ =>
      match ToExtensionData msg with
      | inl err => ret (Some err)
      | inr ext =>
          modifyT (set_pending <[channelID := tt]>) ;;;
          modifyT (set_contextCancelMap <[channelID := tt]>) ;;;
          emit (GsRequest dataSender root stor ext) ;;;
          emit (GoExecuteGsRequest channelID) ;;;
          ret None
      end
  end.

(** [gsKeyFromChannelID]: one turn of its loop.  With no binding and a
    pending-signal it waits for the signal or for the end of [ctx]. *)
Definition gsKeyFromChannelID (ctxDone : bool) (chid : ChannelID)
  : M TWorld (error + graphsyncKey) :=
  t <- getT ;;
  match channelIDMap t !! chid with
  | Some gsKey => ret (inr gsKey)
  | None =>
      match pending t !! chid with
      | None => ret (inl ErrChannelNotFound)
      | Some _ => if ctxDone then ret (inl ErrChannelNotFound) else wait chid
      end
  end.

(** [PauseChannel] *)
Definition PauseChannel (ctxDone : bool) (chid : ChannelID) : M TWorld (option error) :=
  t <- getT ;;
  match events t with
  | None => ret (Some ErrHandlerNotSet)
  | Some _ =>
      r <- gsKeyFromChannelID ctxDone chid ;;
      match r with
      | inl err => ret (Some err)
      | inr gsKey =>
          if decide (p gsKey = peerID t) then
            call (GsPauseRequest (requestID gsKey)) (PauseRequest (gs t) (requestID gsKey))
          else
            t <- getT ;;
            match requestorCancelledMap t !! chid with
            | Some _ => ret None
            | None =>
                call (GsPauseResponse (p gsKey) (requestID gsKey))
                     (PauseResponse (gs t) (p gsKey) (requestID gsKey))
            end
      end
  end.

(** [ResumeChannel] *)
Definition ResumeChannel (ctxDone : bool) (msg : option Message) (chid : ChannelID)
  : M TWorld (option error) :=
  t <- getT ;;
  match events t with
  | None => ret (Some ErrHandlerNotSet)
  | Some _ =>
      r <- gsKeyFromChannelID ctxDone chid ;;
      match r with
      | inl err => ret (Some err)
      | inr gsKey =>
          let encoded : error + list ExtensionData :=
            match msg with
            | None => inr []
            | Some m =>
                match ToExtensionData m with
                | inl err => inl err
                | inr msgExt => inr [msgExt]
                end
            end in
          match encoded with
          | inl err => ret (Some err)
          | inr extensions =>
              if decide (p gsKey = peerID t) then
                call (GsUnpauseRequest (requestID gsKey) extensions)
                     (UnpauseRequest (gs t) (requestID gsKey) extensions)
              else
                t <- getT ;;
                match requestorCancelledMap t !! chid with
                | Some _ =>
                    modifyT (set_pendingExtensions
                      (fun m => <[chid := default [] (m !! chid) ++ extensions]> m)) ;;;
                    ret None
                | None =>
                    call (GsUnpauseResponse (p gsKey) (requestID gsKey) extensions)
                         (UnpauseResponse (gs t) (p gsKey) (requestID gsKey) extensions)
                end
          end
      end
  end.

(** [CloseChannel] *)
Definition CloseChannel (ctxDone : bool) (chid : ChannelID) : M TWorld (option error) :=
  t <- getT ;;
  match events t with
  | None => ret (Some ErrHandlerNotSet)
  | Some _ =>
      r <- gsKeyFromChannelID ctxDone chid ;;
      match r with
      | inl err => ret (Some err)
      | inr gsKey =>
          if decide (p gsKey = peerID t) then
            t <- getT ;;
            match contextCancelMap t !! chid with
            | None => ret (Some ErrChannelNotFound)
            | Some _ => emit (CancelContext chid) ;;; ret None
            end
          else
            t <- getT ;;
            match requestorCancelledMap t !! chid with
            | Some _ => cleanupChannel chid gsKey ;;; ret None
            | None =>
                call (GsCancelResponse (p gsKey) (requestID gsKey))
                     (CancelResponse (gs t) (p gsKey) (requestID gsKey))
            end
      end
  end.

(** [CleanupChannel] *)
Definition CleanupChannel (chid : ChannelID) : M TWorld unit :=
  t <- getT ;;
  match channelIDMap t !! chid with
  | Some gsKey => cleanupChannel chid gsKey
  | None => ret tt
  end.

(** [SetEventHandler] *)
Definition SetEventHandler (ev : Events E) : M TWorld (option error) :=
  t <- getT ;;
  match events t with
  | Some _ => ret (Some ErrHandlerAlreadySet)
  | None =>
      modifyT (set_events (Some ev)) ;;;
      emit (GsRegister IncomingRequestHook) ;;;
      emit (GsRegister CompletedResponseListener) ;;;
      emit (GsRegister IncomingBlockHook) ;;;
      emit (GsRegister OutgoingBlockHook) ;;;
      emit (GsRegister OutgoingRequestHook) ;;;
      emit (GsRegister IncomingResponseHook) ;;;
      emit (GsRegister RequestUpdatedHook) ;;;
      emit (GsRegister RequestorCancelledListener) ;;;
      ret None
  end.

(** *** The graphsync hooks *)

(** [gsOutgoingRequestHook] *)
Definition gsOutgoingRequestHook (p : peer_ID) (request : RequestData) : M TWorld unit :=
  let '(message, _) := GetTransferData (rdExtensions request) in
  match message with
  | None => ret tt
  | Some message =>
      t <- getT ;;
      let initiator := if IsRequest message then peerID t else p in
      let chid := mkChannelID initiator (TransferID_of message) in
      ev <- theEvents ;;
      err <- call (EvChannelOpened chid) (OnChannelOpened ev chid) ;;
      match err with
      | None =>
          modifyT (set_graphsyncRequestMap <[mkKey (rdID request) (peerID t) := chid]>) ;;;
          modifyT (set_channelIDMap <[chid := mkKey (rdID request) (peerID t)]>)
      | Some _ => ret tt
      end ;;;
      t <- getT ;;
      match pending t !! chid with
      | Some _ => emit (ClosePending chid) ;;; modifyT (set_pending (delete chid))
      | None => ret tt
      end
  end.

(** [gsIncomingBlockHook] *)
Definition gsIncomingBlockHook (p : peer_ID) (response : ResponseData) (block : BlockData)
  : M TWorld unit :=
  t <- getT ;;
  match graphsyncRequestMap t !! mkKey (rsRequestID response) (peerID t) with
  | None => ret tt
  | Some chid =>
      ev <- theEvents ;;
      err <- call (EvDataReceived chid (BlockLink block) (BlockSize block))
                  (OnDataReceived ev chid (BlockLink block) (BlockSize block)) ;;
      if decide (err <> None /\ err <> Some ErrPause) then
        emit (HaTerminateWithError err)
      else if decide (err = Some ErrPause) then emit HaPauseRequest
      else ret tt
  end.

(** [gsOutgoingBlockHook]; the counters are uint64 and wrap. *)
Definition gsOutgoingBlockHook (p : peer_ID) (request : RequestData) (block : BlockData)
  : M TWorld unit :=
  t <- getT ;;
  match graphsyncRequestMap t !! mkKey (rdID request) p with
  | None => ret tt
  | Some chid =>
      match responseProgressMap t !! chid with
      | None => panic
      | Some rp =>
          let cur := (currentSent rp + BlockSize block) mod uint64_mod in
          modifyT (set_responseProgressMap <[chid := mkProgress cur (maximumSent rp)]>) ;;;
          if decide (cur <= maximumSent rp) then ret tt
          else
            modifyT (set_responseProgressMap <[chid := mkProgress cur cur]>) ;;;
            ev <- theEvents ;;
            r <- call (EvDataSent chid (BlockLink block) (BlockSize block))
                      (OnDataSent ev chid (BlockLink block) (BlockSize block)) ;;
            let '(msg, err) := r in
            if decide (err <> None /\ err <> Some ErrPause) then
              emit (HaTerminateWithError err)
            else
              (if decide (err = Some ErrPause) then emit HaPauseResponse else ret tt) ;;;
              match msg with
              | None => ret tt
              | Some m =>
                  match ToExtensionData m with
                  | inl err' => emit (HaTerminateWithError (Some err'))
                  | inr ext => emit (HaSendExtensionData ext)
                  end
              end
      end
  end.

(** The tail of [gsReqRecdHook], under the lock: flush what was queued
    while the requestor had cancelled, bind, reset the progress. *)
Definition bindIncoming (p : peer_ID) (request : RequestData) (chid : ChannelID)
  : M TWorld unit :=
  let gsKey := mkKey (rdID request) p in
  t <- getT ;;
  match requestorCancelledMap t !! chid with
  | Some _ =>
      modifyT (set_requestorCancelledMap (delete chid)) ;;;
      let extensions := default [] (pendingExtensions t !! chid) in
      modifyT (set_pendingExtensions (delete chid)) ;;;
      forEach extensions (fun ext => emit (HaSendExtensionData ext))
  | None => ret tt
  end ;;;
  modifyT (set_graphsyncRequestMap <[gsKey := chid]>) ;;;
  modifyT (set_channelIDMap <[chid := gsKey]>) ;;;
  t <- getT ;;
  match responseProgressMap t !! chid with
  | Some existing =>
      modifyT (set_responseProgressMap <[chid := mkProgress 0 (maximumSent existing)]>)
  | None => modifyT (set_responseProgressMap <[chid := mkProgress 0 0]>)
  end.

(** [gsReqRecdHook] *)
Definition gsReqRecdHook (p : peer_ID) (request : RequestData) : M TWorld unit :=
  let '(msg, err) := GetTransferData (rdExtensions request) in
  match err with
  | Some _ => emit (HaTerminateWithError err)
  | None =>
      match msg with
      | None => ret tt
      | Some msg =>
          t <- getT ;;
          r <- match msg with
               | MsgRequest rq =>
                   let chid := mkChannelID p (TransferID_of msg) in
                   ev <- theEvents ;;
                   r <- call (EvRequestReceived chid rq) (OnRequestReceived ev chid rq) ;;
                   ret (chid, r.1, r.2)
               | MsgResponse rs =>
                   let chid := mkChannelID (peerID t) (TransferID_of msg) in
                   ev <- theEvents ;;
                   err <- call (EvResponseReceived chid rs) (OnResponseReceived ev chid rs) ;;
                   ret (chid, None, err)
               end ;;
          let '(chid, responseMessage, err) := r in
          let encoded : option (error + ExtensionData) :=
            match responseMessage with
            | None => None
            | Some rm => Some (ToExtensionData (MsgResponse rm))
            end in
          match encoded with
          | Some (inl _) => emit (HaTerminateWithError err)
          | _ =>
              match encoded with
              | Some (inr ext) => emit (HaSendExtensionData ext)
              | _ => ret tt
              end ;;;
              if decide (err <> None /\ err <> Some ErrPause) then
                emit (HaTerminateWithError err)
              else
                (if decide (err = Some ErrPause) then emit HaPauseResponse else ret tt) ;;;
                bindIncoming p request chid ;;;
                emit HaValidateRequest
          end
      end
  end.

(** [gsCompletedResponseListener] *)
Definition gsCompletedResponseListener (p : peer_ID) (request : RequestData)
    (status : ResponseStatusCode) : M TWorld unit :=
  t <- getT ;;
  match graphsyncRequestMap t !! mkKey (rdID request) p with
  | None => ret tt
  | Some chid =>
      (if decide (status = RequestCancelled) then ret tt
       else
         let success := bool_decide (status = RequestCompletedFull) in
         ev <- theEvents ;;
         err <- call (EvChannelCompleted chid success) (OnChannelCompleted ev chid success) ;;
         match err with
         | Some e => emit (LogError e)
         | None => ret tt
         end) ;;;
      cleanupChannel chid (mkKey (rdID request) p)
  end.

(** [processExtension] *)
Definition processExtension (chid : ChannelID) (exts : gmap string (list Z)) (p : peer_ID)
  : M TWorld (option transferResponse * option error) :=
  let '(msg, err) := GetTransferData exts in
  match err with
  | Some _ => ret (None, err)
  | None =>
      match msg with
      | None => ret (None, None)
      | Some (MsgRequest dtRequest) =>
          if decide (chid <> mkChannelID p (rqXferID dtRequest)) then
            ret (None, Some (ErrOther "received request on response channel"))
          else
            ev <- theEvents ;;
            call (EvRequestReceived chid dtRequest) (OnRequestReceived ev chid dtRequest)
      | Some (MsgResponse dtResponse) =>
          t <- getT ;;
          if decide (chid <> mkChannelID (peerID t) (XferID dtResponse)) then
            ret (None, Some (ErrOther "received response on request channel"))
          else
            ev <- theEvents ;;
            err <- call (EvResponseReceived chid dtResponse)
                        (OnResponseReceived ev chid dtResponse) ;;
            ret (None, err)
      end
  end.

(** What both callers of [processExtension] do with its result; [send] is
    the hook action that carries the encoded answer. *)
Definition answerExtension (send : ExtensionData -> Effect)
    (r : option transferResponse * option error) : M TWorld unit :=
  let '(responseMessage, err) := r in
  let encoded : option (error + ExtensionData) :=
    match responseMessage with
    | None => None
    | Some rm => Some (ToExtensionData (MsgResponse rm))
    end in
  match encoded with
  | Some (inl _) => emit (HaTerminateWithError err)
  | _ =>
      match encoded with
      | Some (inr ext) => emit (send ext)
      | _ => ret tt
      end ;;;
      match err with
      | Some _ => emit (HaTerminateWithError err)
      | None => ret tt
      end
  end.

(** [gsRequestUpdatedHook] *)
Definition gsRequestUpdatedHook (p : peer_ID) (request update : RequestData) : M TWorld unit :=
  t <- getT ;;
  match graphsyncRequestMap t !! mkKey (rdID request) p with
  | None => ret tt
  | Some chid =>
      r <- processExtension chid (rdExtensions update) p ;;
      answerExtension HaSendExtensionData r
  end.

(** [gsIncomingResponseHook] *)
Definition gsIncomingResponseHook (p : peer_ID) (response : ResponseData) : M TWorld unit :=
  t <- getT ;;
  match graphsyncRequestMap t !! mkKey (rsRequestID response) (peerID t) with
  | None => ret tt
  | Some chid =>
      r <- processExtension chid (rsExtensions response) p ;;
      answerExtension HaUpdateRequestWithExtensions r
  end.

(** [gsRequestorCancelledListener] *)
Definition gsRequestorCancelledListener (p : peer_ID) (request : RequestData) : M TWorld unit :=
  t <- getT ;;
  match graphsyncRequestMap t !! mkKey (rdID request) p with
  | Some chid => modifyT (set_requestorCancelledMap <[chid := tt]>)
  | None => ret tt
  end.

(** *** Runs of the adapter

    Everything that can happen to a transport: a client call, the
    goroutine started by [OpenChannel] coming to its end, or graphsync
    calling a hook. *)
Inductive Op :=
| DoSetEventHandler (ev : Events E)
| DoOpenChannel (dataSender : peer_ID) (chid : ChannelID) (root : Link)
                (stor : option Node) (msg : Message)
| DoPauseChannel (ctxDone : bool) (chid : ChannelID)
| DoResumeChannel (ctxDone : bool) (msg : option Message) (chid : ChannelID)
| DoCloseChannel (ctxDone : bool) (chid : ChannelID)
| DoCleanupChannel (chid : ChannelID)
| DoExecuteGsRequest (ctxDone : bool) (chid : ChannelID) (errs : list error)
| DoOutgoingRequestHook (p : peer_ID) (request : RequestData)
| DoIncomingBlockHook (p : peer_ID) (response : ResponseData) (block : BlockData)
| DoOutgoingBlockHook (p : peer_ID) (request : RequestData) (block : BlockData)
| DoReqRecdHook (p : peer_ID) (request : RequestData)
| DoCompletedResponseListener (p : peer_ID) (request : RequestData)
                              (status : ResponseStatusCode)
| DoRequestUpdatedHook (p : peer_ID) (request update : RequestData)
| DoIncomingResponseHook (p : peer_ID) (response : ResponseData)
| DoRequestorCancelledListener (p : peer_ID) (request : RequestData).

Definition run (op : Op) : M TWorld unit :=
  match op with
  | DoSetEventHandler ev => SetEventHandler ev ;;; ret tt
  | DoOpenChannel dataSender chid root stor msg =>
      OpenChannel dataSender chid root stor msg ;;; ret tt
  | DoPauseChannel ctxDone chid => PauseChannel ctxDone chid ;;; ret tt
  | DoResumeChannel ctxDone msg chid => ResumeChannel ctxDone msg chid ;;; ret tt
  | DoCloseChannel ctxDone chid => CloseChannel ctxDone chid ;;; ret tt
  | DoCleanupChannel chid => CleanupChannel chid
  | DoExecuteGsRequest ctxDone chid errs => executeGsRequest ctxDone chid errs
  | DoOutgoingRequestHook p request => gsOutgoingRequestHook p request
  | DoIncomingBlockHook p response block => gsIncomingBlockHook p response block
  | DoOutgoingBlockHook p request block => gsOutgoingBlockHook p request block
  | DoReqRecdHook p request => gsReqRecdHook p request
  | DoCompletedResponseListener p request status =>
      gsCompletedResponseListener p request status
  | DoRequestUpdatedHook p request update => gsRequestUpdatedHook p request update
  | DoIncomingResponseHook p response => gsIncomingResponseHook p response
  | DoRequestorCancelledListener p request => gsRequestorCancelledListener p request
  end.

Definition runAll (ops : list Op) : M TWorld unit := forEach ops run.

Definition initial (peerID : peer_ID) (gs : GraphExchange E) (e : E) : TWorld :=
  mkWorld (NewTransport peerID gs) e [].

(** The worlds a fresh transport can get to. *)
Definition reachable (w : TWorld) : Prop :=
  exists peerID gs e ops, runAll ops (initial peerID gs e) = Ok tt w.

(** The calls a computation adds to the world it starts from. *)
Definition added {T A} (m : M (World T E) A) (w : World T E) : list Effect :=
  match m w with
  | Ok _ w' => drop (length (calls w)) (calls w')
  | _ => []
  end.

Definition isDataSent (e : Effect) : bool :=
  match e with EvDataSent _ _ _ => true | _ => false end.

Definition isEvent (e : Effect) : bool :=
  match e with
  | EvChannelOpened _ | EvDataReceived _ _ _ | EvDataSent _ _ _
  | EvRequestReceived _ _ | EvResponseReceived _ _ | EvChannelCompleted _ _ => true
  | _ => false
  end.

(** The three calls by which the local responder drives the block
    transport. *)
Definition isResponseControl (e : Effect) : bool :=
  match e with
  | GsPauseResponse _ _ | GsUnpauseResponse _ _ _ | GsCancelResponse _ _ => true
  | _ => false
  end.

(** The outgoing-block hook called once per block of [blocks]. *)
Definition replay (p : peer_ID) (request : RequestData) (blocks : list BlockData)
  : M TWorld unit :=
  forEach blocks (gsOutgoingBlockHook p request).

(** *** The side-channel receiver ([impl.receiver]) *)

(** [transport.PauseableTransport] and [transport.Transport], as the
    manager holds them behind the interface. *)
Record PauseableTransport := mkPauseable {
  trPauseChannel : ChannelID -> E -> option error * E;
  trResumeChannel : option transferResponse -> ChannelID -> E -> option error * E
}.

Record TransportIface := mkTransportIface {
  trOpenChannel :
    peer_ID -> ChannelID -> Link -> option Node -> transferResponse -> E -> option error * E;
  trCloseChannel : ChannelID -> E -> option error * E;
  trPauseable : option PauseableTransport
}.

(** Modelled from the spec: type [manager] is not among the sources; these
    are the members [receiver] uses. *)
Record manager := mkManager {
  mgrOnRequestReceived :
    ChannelID -> transferRequest -> E -> (option transferResponse * option error) * E;
  mgrOnResponseReceived : ChannelID -> transferResponse -> E -> option error * E;
  mgrTransport : TransportIface;
  mgrSendMessage : peer_ID -> transferResponse -> E -> option error * E;
  mgrPeerID : peer_ID
}.

Abbreviation RWorld := (World unit E).

(** The type assertion [.(transport.PauseableTransport)] panics on a
    transport that cannot pause. *)
Definition asPauseable (m : manager) : M RWorld PauseableTransport :=
  match trPauseable (mgrTransport m) with
  | Some pt => ret pt
  | None => panic
  end.

(** Modelled from the spec: [Selector] of a request decodes its [Stor]
    field; the receiver drops the error and keeps the node. *)
Definition Selector (rq : transferRequest) : option Node * option error :=
  match DecodeSelector (rqStor rq) with
  | inl err => (None, Some err)
  | inr n => (Some n, None)
  end.

(** [receiver.receiveRequest] *)
Definition receiveRequest (m : manager) (initiator : peer_ID) (incoming : transferRequest)
  : M RWorld (option error) :=
  let chid := mkChannelID initiator (rqXferID incoming) in
  r <- call (EvRequestReceived chid incoming) (mgrOnRequestReceived m chid incoming) ;;
  let '(response, receiveErr) := r in
  if decide (receiveErr = Some ErrResume) then
    pt <- asPauseable m ;;
    call (TrResumeChannel response chid) (trResumeChannel pt response chid)
  else
    sent <- match response with
            | None => ret None
            | Some response =>
                if negb (IsUpdate response) && Accepted response && negb (IsPull incoming) then
                  let '(stor, _) := Selector incoming in
                  call (TrOpenChannel initiator chid (BaseCid incoming) stor response)
                       (trOpenChannel (mgrTransport m) initiator chid (BaseCid incoming)
                                      stor response)
                else
                  call (NetSendMessage initiator response)
                       (mgrSendMessage m initiator response)
            end ;;
    match sent with
    | Some err => ret (Some err)
    | None =>
        if decide (receiveErr = Some ErrPause) then
          pt <- asPauseable m ;;
          call (TrPauseChannel chid) (trPauseChannel pt chid)
        else
          match receiveErr with
          | Some _ =>
              call (TrCloseChannel chid) (trCloseChannel (mgrTransport m) chid) ;;;
              ret receiveErr
          | None => ret None
          end
    end.

(** [receiver.receiveResponse] *)
Definition receiveResponse (m : manager) (sender : peer_ID) (incoming : transferResponse)
  : M RWorld (option error) :=
  let chid := mkChannelID (mgrPeerID m) (XferID incoming) in
  err <- call (EvResponseReceived chid incoming) (mgrOnResponseReceived m chid incoming) ;;
  if decide (err = Some ErrResume) then
    pt <- asPauseable m ;;
    call (TrResumeChannel None chid) (trResumeChannel pt None chid)
  else if decide (err = Some ErrPause) then
    pt <- asPauseable m ;;
    call (TrPauseChannel chid) (trPauseChannel pt chid)
  else
    match err with
    | Some _ =>
        call (TrCloseChannel chid) (trCloseChannel (mgrTransport m) chid) ;;;
        ret err
    | None => ret None
    end.

End Adapter.

Arguments Op : clear implicits.
Arguments manager : clear implicits.
Arguments TransportIface : clear implicits.
Arguments PauseableTransport : clear implicits.

(** ** The resolver as section 4.2 of the specification words it

    The initiator is the remote peer [p] for a request and the local peer
    for a response.  This is the rule as written, to be compared with what
    each hook computes. *)
Definition resolveChannelID_spec (self p : peer_ID) (msg : Message) : ChannelID :=
  mkChannelID (if IsRequest msg then p else self) (TransferID_of msg).


(** ** Computations that always return

    [returns m]: from every world [m] returns (it neither panics nor
    waits), and the calls of the world it returns extend those of the world
    it started from. *)
Definition returns {T E A} (m : M (World T E) A) : Prop :=
  forall w, exists a w' l, m w = Ok a w' /\ calls w' = calls w ++ l.


(** [keeps I m]: a property [I] of the transport that holds before [m]
    holds in the world [m] returns. *)
Definition keeps {T E A} (I : T -> Prop) (m : M (World T E) A) : Prop :=
  forall w a w', I (tr w) -> m w = Ok a w' -> I (tr w').

(** ** The watermark invariant

    Every block-progress record has [0 <= currentSent <= maximumSent]. *)
Definition progressOk {E} (t : Transport E) : Prop :=
  map_Forall (fun _ rp => 0 <= currentSent rp <= maximumSent rp) (responseProgressMap t).

(** The sum of the sizes of a run of blocks. *)
Definition totalSize (blocks : list BlockData) : Z :=
  foldr (fun b acc => BlockSize b + acc) 0 blocks.


(** ** A small instance of the environment, for the examples

    Peer [A] is the local peer and [B] the remote one.  The codec writes a
    request as [[1; id; pull]] and a response as [[0; id; accepted; update]];
    everything else does not parse. *)
Definition demoCodec : Codec := {|
  ToNet := fun m =>
    match m with
    | MsgRequest rq => inr [1; rqXferID rq; Z.b2z (rqPull rq)]
    | MsgResponse rs => inr [0; XferID rs; Z.b2z (Acpt rs); Z.b2z (Updt rs)]
    end;
  FromNet := fun data =>
    match data with
    | [1; id; pull] => inr (MsgRequest (mkRequest "" [] [] "" false (0 <? pull) id))
    | [0; id; a; u] => inr (MsgResponse (mkResponse (0 <? a) (0 <? u) id None ""))
    | _ => inl (ErrOther "malformed")
    end;
  DecodeSelector := fun _ => inr "selector"
|}.

(** A handler that accepts everything and has nothing to say; its state
    counts nothing. *)
Definition quietEvents : Events unit := {|
  OnChannelOpened := fun _ e => (None, e);
  OnDataReceived := fun _ _ _ e => (None, e);
  OnDataSent := fun _ _ _ e => ((None, None), e);
  OnRequestReceived := fun _ _ e => ((None, None), e);
  OnResponseReceived := fun _ _ e => (None, e);
  OnChannelCompleted := fun _ _ e => (None, e)
|}.

Definition quietGs : GraphExchange unit := {|
  PauseRequest := fun _ e => (None, e);
  UnpauseRequest := fun _ _ e => (None, e);
  PauseResponse := fun _ _ e => (None, e);
  UnpauseResponse := fun _ _ _ e => (None, e);
  CancelResponse := fun _ _ e => (None, e)
|}.

Definition demoRequestMsg : Message := MsgRequest (mkRequest "" [] [] "" false true 42).
Definition demoResponseMsg : Message := MsgResponse (mkResponse true false 42 None "").

(** A graphsync request with id 7 carrying [data] under our extension. *)
Definition demoRequest (data : list Z) : RequestData :=
  mkRequestData 7 {[ ExtensionDataTransfer := data ]}.

(** The world of a fresh transport of [A] with no handler, and with the
    quiet handler set. *)
Definition freshWorld : World (Transport unit) unit :=
  mkWorld (@NewTransport unit "A" quietGs) tt [].

Definition readyWorld : World (Transport unit) unit :=
  mkWorld (set_events (Some quietEvents) (@NewTransport unit "A" quietGs)) tt [].

(** The world a computation returns, or the one it started from. *)
Definition after {W A} (m : M W A) (w : W) : W :=
  match m w with
  | Ok _ w' => w'
  | _ => w
  end.

(** [B] asks [A] for data: graphsync request 7 of [B] carries the
    data-transfer request 42, so [A] is the responder of channel [(B, 42)]. *)
Definition pullRequest : RequestData := demoRequest [1; 42; 1].
Definition pullChannel : ChannelID := mkChannelID "B" 42.

Definition boundOps : list (Op unit) :=
  [DoSetEventHandler quietEvents; DoReqRecdHook "B" pullRequest].

Definition boundWorld : World (Transport unit) unit :=
  after (@runAll unit demoCodec boundOps) freshWorld.

Definition demoBlock : BlockData := mkBlock "blk" 100.

(** A handler that refuses every channel. *)
Definition refusingEvents : Events unit := {|
  OnChannelOpened := fun _ e => (Some (ErrOther "refused"), e);
  OnDataReceived := fun _ _ _ e => (None, e);
  OnDataSent := fun _ _ _ e => ((None, None), e);
  OnRequestReceived := fun _ _ e => ((None, None), e);
  OnResponseReceived := fun _ _ e => (None, e);
  OnChannelCompleted := fun _ _ e => (None, e)
|}.

(** [A] has opened channel [(A, 42)] toward [B] and graphsync has not yet
    called the outgoing-request hook; the handler will refuse. *)
Definition pendingWorld : World (Transport unit) unit :=
  after (@runAll unit demoCodec
           [DoSetEventHandler refusingEvents;
            DoOpenChannel "B" (mkChannelID "A" 42) "root" None demoRequestMsg])
        freshWorld.

(** A manager whose handler declines the push but asks to pause, over a
    side channel that cannot send. *)
Definition declinedResponse : transferResponse := mkResponse false false 42 None "".
Definition pushRequest : transferRequest := mkRequest "root" [] [] "" false false 42.

Definition demoPauseable : PauseableTransport unit := {|
  trPauseChannel := fun _ e => (None, e);
  trResumeChannel := fun _ _ e => (None, e)
|}.

Definition demoIface : TransportIface unit := {|
  trOpenChannel := fun _ _ _ _ _ e => (None, e);
  trCloseChannel := fun _ e => (None, e);
  trPauseable := Some demoPauseable
|}.

Definition pausingManager : manager unit := {|
  mgrOnRequestReceived := fun _ _ e => ((Some declinedResponse, Some ErrPause), e);
  mgrOnResponseReceived := fun _ _ e => (None, e);
  mgrTransport := demoIface;
  mgrSendMessage := fun _ _ e => (Some (ErrOther "stream reset"), e);
  mgrPeerID := "A"
|}.

Definition receiverWorld : World unit unit := mkWorld tt tt [].



(** ** Further invariants of the store *)

(** Extensions are queued only for channels whose requestor has cancelled. *)
Definition queueOk {E} (t : Transport E) : Prop :=
  forall chid, is_Some (pendingExtensions t !! chid) ->
               is_Some (requestorCancelledMap t !! chid).

(** The per-channel entries of one channel, side by side. *)
Definition channelEntries {E} (t : Transport E) (chid : ChannelID) :=
  (channelIDMap t !! chid, contextCancelMap t !! chid, pending t !! chid,
   responseProgressMap t !! chid, pendingExtensions t !! chid,
   requestorCancelledMap t !! chid).

(** ** Words for the statements about the incoming-request hook *)

(** The hook up to the handler's answer: [evt] is the event raised, [rm] and
    [err] what the handler returned, [e1] the environment after it. *)
Definition answered {E} (ev : Events E) (chid : ChannelID) (msg : Message) (e : E)
    (evt : Effect) (rm : option transferResponse) (err : option error) (e1 : E) : Prop :=
  match msg with
  | MsgRequest rq =>
      OnRequestReceived ev chid rq e = ((rm, err), e1) /\ evt = EvRequestReceived chid rq
  | MsgResponse rs =>
      OnResponseReceived ev chid rs e = (err, e1) /\ rm = None /\
      evt = EvResponseReceived chid rs
  end.

(** The extension data the hook sends for the handler's response. *)
Definition encodes `{Codec} (rm : option transferResponse) (sent : list Effect) : Prop :=
  match rm with
  | None => sent = []
  | Some r => exists ext, ToExtensionData (MsgResponse r) = inr ext /\
                          sent = [HaSendExtensionData ext]
  end.

(** ** The first manager ([graphsyncimpl])

    The earlier implementation of the manager, which voucher types are
    registered with and which talks to graphsync directly.  Its channel
    registry, its network, its counter of transfer ids and its event bus are
    packages outside the sources: they are methods of the environment here,
    like the event handler of the adapter. *)
Module graphsyncimpl.

(** What the code asks of a [reflect.Type]: whether its kind is [Ptr], the
    [Type()] of a new value of its element type when a pointer to that
    implements [datatransfer.Voucher], and its [String()]. *)
Record reflectType := mkReflectType {
  KindIsPtr : bool;
  ElemVoucherType : option string;
  TypeString : string
}.

(** [validateType]; [V] stands for [datatransfer.RequestValidator]. *)
Record validateType {V : Type} := mkValidateType {
  voucherType : reflectType;
  validator : V
}.
Arguments validateType : clear implicits.

(** [datatransfer.Voucher], as far as [sendDtRequest] uses it. *)
Record Voucher := mkVoucher {
  vType : string;
  vToBytes : error + list Z
}.

Inductive EventCode := Error | Complete.

(** [datatransfer.Event] *)
Record Event := mkEvent {
  Code : EventCode;
  Message : string;
  Timestamp : Z
}.

(** The calls the manager makes, [CS] being [datatransfer.ChannelState]. *)
Inductive Call {CS : Type} :=
| HaTerminate (err : option error)
| HaValidate
| HaSend (ext : ExtensionData)
| Publish (evt : Event) (chst : CS)
| CounterNext
| NetSendRequest (to : peer_ID) (tid : TransferID) (isPull : bool) (vtype : string)
                 (vbytes : list Z) (baseCid : Cid) (sbytes : list Z)
| NetSendResponse (to : peer_ID) (tid : TransferID) (isAccepted : bool)
| ChannelsCreateNew (tid : TransferID) (baseCid : Cid) (selector : Node) (vtype : string)
                    (initiator sender receiver : peer_ID)
| GsRequest (to : peer_ID) (root : Link) (stor : Node) (ext : ExtensionData)
| GoAwaitCompletion (initiator : peer_ID) (tid : TransferID) (dataSender : peer_ID)
| LogError (err : error).
Arguments Call : clear implicits.

Section Impl.
Context {V CS TD E : Type} `{EqDecision CS}.

(** The collaborators.  [TD] stands for the decoded extension
    ([ExtensionDataTransferData]). *)
Record Deps := mkDeps {
  EmptyChannelState : CS;
  getExtensionData : RequestData -> option TD * option error;
  GetChannelID : TD -> ChannelID;
  GetByIDAndSender : ChannelID -> peer_ID -> E -> CS;
  CreateNew : TransferID -> Cid -> Node -> Voucher -> peer_ID -> peer_ID -> peer_ID ->
              E -> (ChannelID * option error) * E;
  nodeAsBytes : Node -> error + list Z;
  Next : E -> (error + Z) * E;
  SendRequest : peer_ID -> TransferID -> bool -> string -> list Z -> Cid -> list Z ->
                E -> option error * E;
  SendResponse : peer_ID -> TransferID -> bool -> E -> option error * E;
  MarshalTransferData : TransferID -> peer_ID -> bool -> list Z * option error;
  Now : E -> Z;
  ErrorText : error -> string
}.

(** [graphsyncImpl], the fields that are state of this code. *)
Record graphsyncImpl := mkImpl {
  validatedTypes : gmap string (validateType V);
  peerID : peer_ID
}.

Record IWorld := mkIWorld {
  impl : graphsyncImpl;
  ienv : E;
  icalls : list (Call CS)
}.

Definition getI : M IWorld graphsyncImpl := fun w => Ok (impl w) w.

Definition getEnv : M IWorld E := fun w => Ok (ienv w) w.

Definition putI (i : graphsyncImpl) : M IWorld unit :=
  fun w => Ok tt (mkIWorld i (ienv w) (icalls w)).

Definition tell (c : Call CS) : M IWorld unit :=
  fun w => Ok tt (mkIWorld (impl w) (ienv w) (icalls w ++ [c])).

Definition ask {R} (c : Call CS) (f : E -> R * E) : M IWorld R :=
  fun w => let '(r, e') := f (ienv w) in
           Ok r (mkIWorld (impl w) e' (icalls w ++ [c])).

Variable d : Deps.

(** [gsReqRecdHook] *)
Definition gsReqRecdHook (p : peer_ID) (request : RequestData) : M IWorld unit :=
  let '(transferData, err) := getExtensionData d request in
  match err with
  | Some _ => tell (HaTerminate err)
  | None =>
      let raw := default [] (rdExtensions request !! ExtensionDataTransfer) in
      let respData := mkExt ExtensionDataTransfer raw in
      match transferData with
      | None => ret tt
      | Some transferData =>
          i <- getI ;;
          e <- getEnv ;;
          let sender := peerID i in
          let chid := GetChannelID d transferData in
          if decide (GetByIDAndSender d chid sender e = EmptyChannelState d) then
            tell (HaTerminate err)
          else
            tell HaValidate ;;;
            tell (HaSend respData)
      end
  end.

(** [gsCompletedResponseListener] *)
Definition gsCompletedResponseListener (p : peer_ID) (request : RequestData)
    (status : ResponseStatusCode) : M IWorld unit :=
  let '(transferData, err) := getExtensionData d request in
  match err, transferData with
  | None, Some transferData =>
      i <- getI ;;
      e <- getEnv ;;
      let sender := peerID i in
      let chid := GetChannelID d transferData in
      let chst := GetByIDAndSender d chid sender e in
      if decide (chst = EmptyChannelState d) then ret tt
      else
        let code := if decide (status = RequestCompletedFull) then Complete else Error in
        tell (Publish (mkEvent code "" (Now d e)) chst)
  | _, _ => ret tt
  end.

(** [RegisterVoucherType] *)
Definition RegisterVoucherType (voucherType : reflectType) (validator : V)
    : M IWorld (option error) :=
  if negb (KindIsPtr voucherType) then
    ret (Some (ErrOther "voucherType must be a reflect.Ptr Kind"))
  else
    match ElemVoucherType voucherType with
    | None => ret (Some (ErrOther "voucher does not implement Voucher interface"))
    | Some vtype =>
        i <- getI ;;
        match validatedTypes i !! vtype with
        | Some _ =>
            ret (Some (ErrOther ("voucher type already registered: "
                                   +:+ TypeString voucherType)))
        | None =>
            putI (mkImpl (<[vtype := mkValidateType V voucherType validator]>
                            (validatedTypes i)) (peerID i)) ;;;
            ret None
        end
    end.

(** [sendDtRequest]; the transfer id is 0 when an error is returned. *)
Definition sendDtRequest (selector : Node) (isPull : bool) (voucher : Voucher)
    (baseCid : Cid) (to : peer_ID) : M IWorld (TransferID * option error) :=
  match nodeAsBytes d selector with
  | inl err => ret (0, Some err)
  | inr sbytes =>
      match vToBytes voucher with
      | inl err => ret (0, Some err)
      | inr vbytes =>
          next <- ask CounterNext (Next d) ;;
          match next with
          | inl err => ret (0, Some err)
          | inr tid =>
              sent <- ask (NetSendRequest to tid isPull (vType voucher) vbytes baseCid sbytes)
                          (SendRequest d to tid isPull (vType voucher) vbytes baseCid sbytes) ;;
              match sent with
              | Some err => ret (0, Some err)
              | None => ret (tid, None)
              end
          end
      end
  end.

(** [OpenPushDataChannel]: initiator = us, sender = us, receiver = them. *)
Definition OpenPushDataChannel (requestTo : peer_ID) (voucher : Voucher)
    (baseCid : Cid) (selector : Node) : M IWorld (ChannelID * option error) :=
  r <- sendDtRequest selector false voucher baseCid requestTo ;;
  let '(tid, err) := r in
  match err with
  | Some err => ret (mkChannelID "" 0, Some err)
  | None =>
      i <- getI ;;
      ask (ChannelsCreateNew tid baseCid selector (vType voucher)
                             (peerID i) (peerID i) requestTo)
          (CreateNew d tid baseCid selector voucher (peerID i) (peerID i) requestTo)
  end.

(** [OpenPullDataChannel]: initiator = us, sender = them, receiver = us. *)
Definition OpenPullDataChannel (requestTo : peer_ID) (voucher : Voucher)
    (baseCid : Cid) (selector : Node) : M IWorld (ChannelID * option error) :=
  r <- sendDtRequest selector true voucher baseCid requestTo ;;
  let '(tid, err) := r in
  match err with
  | Some err => ret (mkChannelID "" 0, Some err)
  | None =>
      i <- getI ;;
      ask (ChannelsCreateNew tid baseCid selector (vType voucher)
                             (peerID i) requestTo (peerID i))
          (CreateNew d tid baseCid selector voucher (peerID i) requestTo (peerID i))
  end.

(** [sendResponse] *)
Definition sendResponse (isAccepted : bool) (to : peer_ID) (tid : TransferID)
    : M IWorld unit :=
  err <- ask (NetSendResponse to tid isAccepted) (SendResponse d to tid isAccepted) ;;
  match err with
  | Some e => tell (LogError e)
  | None => ret tt
  end.

(** [sendGsRequest], up to the start of the goroutine that waits for the
    end of the request. *)
Definition sendGsRequest (initiator : peer_ID) (transferID : TransferID) (isPull : bool)
    (dataSender : peer_ID) (root : Link) (stor : Node) : M IWorld unit :=
  let '(extData, err) := MarshalTransferData d transferID initiator isPull in
  match err with
  | Some e => tell (LogError e)
  | None => ret tt
  end ;;;
  tell (GsRequest dataSender root stor (mkExt ExtensionDataTransfer extData)) ;;;
  tell (GoAwaitCompletion initiator transferID dataSender).

(** The goroutine of [sendGsRequest], once the error stream [errs] of the
    request has closed. *)
Definition awaitCompletion (initiator : peer_ID) (transferID : TransferID)
    (dataSender : peer_ID) (errs : list error) : M IWorld unit :=
  let lastError := last errs in
  e <- getEnv ;;
  let chid := mkChannelID initiator transferID in
  let chst := GetByIDAndSender d chid dataSender e in
  let evt :=
    if decide (chst = EmptyChannelState d) then
      mkEvent Error "cannot find a matching channel for this request" (Now d e)
    else
      match lastError with
      | None => mkEvent Complete "" (Now d e)
      | Some err => mkEvent Error (ErrorText d err) (Now d e)
      end in
  tell (Publish evt chst).

End Impl.

Arguments Deps : clear implicits.
Arguments graphsyncImpl : clear implicits.
Arguments IWorld : clear implicits.

End graphsyncimpl.


(** ** More worlds for the examples *)

(** [B]'s request 7 is bound, and [B] has cancelled it. *)
Definition cancelledOps : list (Op unit) :=
  boundOps ++ [DoRequestorCancelledListener "B" pullRequest].

(** ... and [A] has resumed the channel with a message since. *)
Definition queuedOps : list (Op unit) :=
  cancelledOps ++ [DoResumeChannel false (Some demoResponseMsg) pullChannel].

Definition cancelledWorld : World (Transport unit) unit :=
  after (@runAll unit demoCodec cancelledOps) freshWorld.

Definition queuedWorld : World (Transport unit) unit :=
  after (@runAll unit demoCodec queuedOps) freshWorld.

(** ... or [B] has restarted the transfer with a second request, 8. *)
Definition restartRequest : RequestData :=
  mkRequestData 8 {[ ExtensionDataTransfer := [1; 42; 1] ]}.

Definition restartedWorld : World (Transport unit) unit :=
  after (@runAll unit demoCodec (cancelledOps ++ [DoReqRecdHook "B" restartRequest]))
        freshWorld.

(** [A] has opened channel [(A, 42)] toward [B], graphsync has called the
    outgoing-request hook for request 7 and the handler has accepted. *)
Definition openedChannel : ChannelID := mkChannelID "A" 42.

Definition openedWorld : World (Transport unit) unit :=
  after (@runAll unit demoCodec
           [DoSetEventHandler quietEvents;
            DoOpenChannel "B" openedChannel "root" None demoRequestMsg;
            DoOutgoingRequestHook "B" pullRequest])
        freshWorld.

(** A response of [B] to graphsync request 7, carrying a data-transfer
    response for transfer 42. *)
Definition demoGsResponse : ResponseData :=
  mkResponseData 7 RequestCompletedPartial {[ ExtensionDataTransfer := [0; 42; 1; 0] ]}.

(** A handler that answers every request with a response and an error. *)
Definition failingEvents : Events unit := {|
  OnChannelOpened := fun _ e => (None, e);
  OnDataReceived := fun _ _ _ e => (None, e);
  OnDataSent := fun _ _ _ e => ((None, None), e);
  OnRequestReceived := fun _ _ e =>
    ((Some (mkResponse false false 42 None ""), Some (ErrOther "not allowed")), e);
  OnResponseReceived := fun _ _ e => (None, e);
  OnChannelCompleted := fun _ _ e => (None, e)
|}.

Definition failingWorld : World (Transport unit) unit :=
  mkWorld (set_events (Some failingEvents) (@NewTransport unit "A" quietGs)) tt [].

(** A manager on a transport that cannot pause. *)
Definition plainManager : manager unit := {|
  mgrOnRequestReceived := fun _ _ e => ((None, Some ErrPause), e);
  mgrOnResponseReceived := fun _ _ e => (Some ErrPause, e);
  mgrTransport := {| trOpenChannel := fun _ _ _ _ _ e => (None, e);
                     trCloseChannel := fun _ e => (None, e);
                     trPauseable := None |};
  mgrSendMessage := fun _ _ e => (None, e);
  mgrPeerID := "A"
|}.

(** A manager whose handler asks to resume. *)
Definition resumingManager : manager unit := {|
  mgrOnRequestReceived := fun _ _ e => ((Some declinedResponse, Some ErrResume), e);
  mgrOnResponseReceived := fun _ _ e => (Some ErrResume, e);
  mgrTransport := demoIface;
  mgrSendMessage := fun _ _ e => (None, e);
  mgrPeerID := "A"
|}.


(** ** A small instance of the first manager's collaborators

    The registry knows channel [(B, 42)] with [A] as sender; the decoded
    extension is the channel id itself; the counter counts up; the network
    refuses to send to the peer named [nobody]. *)
Definition demoDeps : graphsyncimpl.Deps (option string) ChannelID Z := {|
  graphsyncimpl.EmptyChannelState := None;
  graphsyncimpl.getExtensionData := fun request =>
    match rdExtensions request !! ExtensionDataTransfer with
    | None => (None, None)
    | Some [id] => (Some (mkChannelID "B" id), None)
    | Some _ => (None, Some (ErrOther "malformed"))
    end;
  graphsyncimpl.GetChannelID := fun td => td;
  graphsyncimpl.GetByIDAndSender := fun chid sender _ =>
    if decide (chid = mkChannelID "B" 42 /\ sender = "A") then Some "ongoing" else None;
  graphsyncimpl.CreateNew := fun tid _ _ _ initiator _ _ e =>
    ((mkChannelID initiator tid, None), e);
  graphsyncimpl.nodeAsBytes := fun _ => inr [5];
  graphsyncimpl.Next := fun e => (inr (e + 1), e + 1);
  graphsyncimpl.SendRequest := fun to _ _ _ _ _ _ e =>
    (if decide (to = "nobody") then Some (ErrOther "no route") else None, e);
  graphsyncimpl.SendResponse := fun _ _ _ e => (None, e);
  graphsyncimpl.MarshalTransferData := fun tid _ _ => ([tid], None);
  graphsyncimpl.Now := fun e => e;
  graphsyncimpl.ErrorText := fun _ => "failed"
|}.

Definition demoImplWorld : graphsyncimpl.IWorld unit (option string) Z :=
  graphsyncimpl.mkIWorld (graphsyncimpl.mkImpl ∅ "A") 0 [].

Definition demoVoucher : graphsyncimpl.Voucher := graphsyncimpl.mkVoucher "deal" (inr [1; 2]).

Definition dealType : graphsyncimpl.reflectType :=
  graphsyncimpl.mkReflectType true (Some "deal") "*market.Deal".



Definition receiptType : graphsyncimpl.reflectType :=
  graphsyncimpl.mkReflectType true (Some "receipt") "*market.Receipt".


(** The world after the calls [l] have been made and the collaborators have
    moved to [e]. *)
Definition saying {V CS E : Type} (w : graphsyncimpl.IWorld V CS E) (e : E)
    (l : list (graphsyncimpl.Call CS)) : graphsyncimpl.IWorld V CS E :=
  graphsyncimpl.mkIWorld (graphsyncimpl.impl w) e (graphsyncimpl.icalls w ++ l).


(** * Properties *)

Ltac go_unfold :=
  unfold bind, ret, getT, modifyT, emit, call, panic, wait in *;
  cbn [tr env calls] in *.

Section Facts.
Context {E : Type} `{Codec}.
Implicit Type w : World (Transport E) E.

(** ** Stepping through a computation *)

Section Steps.
Context {T A B : Type}.

Lemma bind_ret (a : A) (k : A -> M (World T E) B) (w : World T E) : bind (ret a) k w = k a w.
Proof. reflexivity. Qed.

Lemma bind_getT (k : T -> M (World T E) B) (w : World T E) : bind getT k w = k (tr w) w.
Proof. reflexivity. Qed.

Lemma bind_modifyT (f : T -> T) (k : unit -> M (World T E) B) (w : World T E) :
  bind (modifyT f) k w = k tt (mkWorld (f (tr w)) (env w) (calls w)).
Proof. reflexivity. Qed.

Lemma bind_emit (e : Effect) (k : unit -> M (World T E) B) (w : World T E) :
  bind (emit e) k w = k tt (mkWorld (tr w) (env w) (calls w ++ [e])).
Proof. reflexivity. Qed.

Lemma bind_call (e : Effect) (f : E -> A * E) (k : A -> M (World T E) B) (w : World T E) :
  bind (call e f) k w = k (f (env w)).1 (mkWorld (tr w) (f (env w)).2 (calls w ++ [e])).
Proof. unfold bind, call. by destruct (f (env w)). Qed.

Lemma call_run (e : Effect) (f : E -> A * E) (w : World T E) :
  call e f w = Ok (f (env w)).1 (mkWorld (tr w) (f (env w)).2 (calls w ++ [e])).
Proof. unfold call. by destruct (f (env w)). Qed.

Lemma bind_bind {C} (m : M (World T E) A) (k1 : A -> M (World T E) B)
    (k2 : B -> M (World T E) C) (w : World T E) :
  bind (bind m k1) k2 w = bind m (fun a => bind (k1 a) k2) w.
Proof. unfold bind. by destruct (m w). Qed.

Lemma returns_ret (a : A) : returns (ret a : M (World T E) A).
Proof. intros w. exists a, w, []. by rewrite app_nil_r. Qed.

Lemma returns_getT : returns (getT : M (World T E) T).
Proof. intros w. exists (tr w), w, []. by rewrite app_nil_r. Qed.

Lemma returns_modifyT (f : T -> T) : returns (modifyT f : M (World T E) unit).
Proof. intros w. eexists tt, _, []. split; [reflexivity |]. cbn. by rewrite app_nil_r. Qed.

Lemma returns_emit (e : Effect) : returns (emit e : M (World T E) unit).
Proof. intros w. eexists tt, _, [e]. split; reflexivity. Qed.

Lemma returns_call (e : Effect) (f : E -> A * E) : returns (call e f : M (World T E) A).
Proof. intros w. eexists _, _, [e]. split; [apply call_run | reflexivity]. Qed.

Lemma returns_bind (m : M (World T E) A) (k : A -> M (World T E) B) :
  returns m -> (forall a, returns (k a)) -> returns (bind m k).
Proof.
  intros Hm Hk w. destruct (Hm w) as (a & w1 & l1 & Hrun & Hc).
  destruct (Hk a w1) as (b & w2 & l2 & Hrun2 & Hc2).
  exists b, w2, (l1 ++ l2). unfold bind. rewrite Hrun. split; [exact Hrun2 |].
  by rewrite Hc2, Hc, app_assoc.
Qed.

End Steps.

Lemma returns_forEach {T A} (l : list A) (f : A -> M (World T E) unit) :
  (forall x, returns (f x)) -> returns (forEach l f).
Proof.
  intros Hf. induction l as [|x l IH]; cbn.
  - apply returns_ret.
  - apply returns_bind; [apply Hf | intros _; exact IH].
Qed.

Lemma bind_theEvents {B} ev (k : Events E -> M (World (Transport E) E) B) w :
  events (tr w) = Some ev -> bind theEvents k w = k ev w.
Proof. intros Hev. unfold theEvents. rewrite bind_bind, bind_getT. by rewrite Hev. Qed.

(** Proves [returns m] for a computation put together from the primitives. *)
Ltac returns_tac :=
  repeat first
    [ apply returns_ret | apply returns_getT | apply returns_modifyT
    | apply returns_emit | apply returns_call
    | apply returns_forEach; intros
    | apply returns_bind; [| intros]
    | case_match | case_decide ].

Lemma cleanupChannel_returns chid gsKey : returns (cleanupChannel (E:=E) chid gsKey).
Proof. unfold cleanupChannel. returns_tac. Qed.

Lemma bindIncoming_returns p request chid : returns (bindIncoming (E:=E) p request chid).
Proof. unfold bindIncoming. returns_tac. Qed.


(** ** Runs of the building blocks *)

Lemma forEach_emit {T} (f : ExtensionData -> Effect) (l : list ExtensionData)
    (w : World T E) :
  forEach l (fun x => emit (f x)) w = Ok tt (mkWorld (tr w) (env w) (calls w ++ map f l)).
Proof.
  revert w. induction l as [|x l IH]; intros w; cbn.
  - rewrite app_nil_r. by destruct w.
  - unfold bind, emit at 1. cbn. rewrite IH. cbn. by rewrite <- app_assoc.
Qed.

Lemma cleanupChannel_run w chid gsKey :
  cleanupChannel chid gsKey w
  = Ok tt (mkWorld
             (set_requestorCancelledMap (delete chid)
                (set_pendingExtensions (delete chid)
                   (set_responseProgressMap (delete chid)
                      (set_graphsyncRequestMap (delete gsKey)
                         (set_pending (delete chid)
                            (set_contextCancelMap (delete chid)
                               (set_channelIDMap (delete chid) (tr w))))))))
             (env w) (calls w)).
Proof. reflexivity. Qed.

(** The transport after the locked tail of [gsReqRecdHook]. *)
Lemma bindIncoming_run w p request chid :
  let gsKey := mkKey (rdID request) p in
  let flushed := if requestorCancelledMap (tr w) !! chid is Some _
                 then default [] (pendingExtensions (tr w) !! chid) else [] in
  let t1 := if requestorCancelledMap (tr w) !! chid is Some _
            then set_pendingExtensions (delete chid)
                   (set_requestorCancelledMap (delete chid) (tr w))
            else tr w in
  let kept := if responseProgressMap (tr w) !! chid is Some existing
              then maximumSent existing else 0 in
  bindIncoming p request chid w
  = Ok tt (mkWorld
             (set_responseProgressMap <[chid := mkProgress 0 kept]>
                (set_channelIDMap <[chid := gsKey]>
                   (set_graphsyncRequestMap <[gsKey := chid]> t1)))
             (env w) (calls w ++ map HaSendExtensionData flushed)).
Proof.
  intros gsKey flushed t1 kept. subst flushed t1 kept.
  unfold bindIncoming. unfold bind, getT, modifyT, ret. cbn [tr env calls].
  destruct (requestorCancelledMap (tr w) !! chid) as [[]|] eqn:Hc; cbn [tr env calls].
  - rewrite forEach_emit. cbn.
    destruct (responseProgressMap (tr w) !! chid) as [rp|] eqn:Hrp; reflexivity.
  - cbn. rewrite app_nil_r.
    destruct (responseProgressMap (tr w) !! chid) as [rp|] eqn:Hrp; reflexivity.
Qed.


(** ** Calls before the handler is set *)

(** C10: while no event handler is set, [OpenChannel], [PauseChannel],
    [ResumeChannel] and [CloseChannel] return [ErrHandlerNotSet] and leave the
    whole world, so every map of the correlation store, as it was. *)
Theorem handler_not_set_leaves_store w :
  events (tr w) = None ->
  (forall dataSender chid root stor msg,
      OpenChannel dataSender chid root stor msg w = Ok (Some ErrHandlerNotSet) w) /\
  (forall ctxDone chid, PauseChannel ctxDone chid w = Ok (Some ErrHandlerNotSet) w) /\
  (forall ctxDone msg chid, ResumeChannel ctxDone msg chid w = Ok (Some ErrHandlerNotSet) w) /\
  (forall ctxDone chid, CloseChannel ctxDone chid w = Ok (Some ErrHandlerNotSet) w).
Proof.
  intros Hnil.
  repeat split; intros;
    unfold OpenChannel, PauseChannel, ResumeChannel, CloseChannel;
    go_unfold; rewrite Hnil; reflexivity.
Qed.

(** ** The incoming-request hook on a malformed extension *)

Lemma gsReqRecdHook_malformed w p request data err :
  rdExtensions request !! ExtensionDataTransfer = Some data ->
  FromNet data = inl err ->
  gsReqRecdHook p request w
  = Ok tt (mkWorld (tr w) (env w) (calls w ++ [HaTerminateWithError (Some err)])).
Proof.
  intros Hpresent Hbad.
  unfold gsReqRecdHook, GetTransferData.
  rewrite Hpresent, Hbad. reflexivity.
Qed.

(** C5: when the data-transfer extension of an incoming request is present
    but does not decode, [gsReqRecdHook] returns having made one call only,
    [TerminateWithError] with the decode error: no handler is called (the
    environment is as before, and no event is among the calls), nothing is
    bound (the transport is as before) and the request is not validated. *)
Theorem malformed_request_terminates w p request data err :
  rdExtensions request !! ExtensionDataTransfer = Some data ->
  FromNet data = inl err ->
  gsReqRecdHook p request w
  = Ok tt (mkWorld (tr w) (env w) (calls w ++ [HaTerminateWithError (Some err)])) /\
  added (gsReqRecdHook p request) w = [HaTerminateWithError (Some err)] /\
  Forall (fun e => isEvent e = false /\ e <> HaValidateRequest)
         (added (gsReqRecdHook p request) w).
Proof.
  intros Hpresent Hbad.
  pose proof (gsReqRecdHook_malformed w p request data err Hpresent Hbad) as Hrun.
  split; [exact Hrun |].
  unfold added. rewrite Hrun. cbn [calls]. rewrite drop_app_length.
  split; [reflexivity |]. repeat constructor. discriminate.
Qed.

(** ** The outgoing-request hook *)

(** A control call on a channel that is neither bound nor pending. *)
Lemma control_calls_channel_not_found w ev chid :
  events (tr w) = Some ev ->
  channelIDMap (tr w) !! chid = None ->
  pending (tr w) !! chid = None ->
  (forall ctxDone, gsKeyFromChannelID ctxDone chid w = Ok (inl ErrChannelNotFound) w) /\
  (forall ctxDone, PauseChannel ctxDone chid w = Ok (Some ErrChannelNotFound) w) /\
  (forall ctxDone msg, ResumeChannel ctxDone msg chid w = Ok (Some ErrChannelNotFound) w) /\
  (forall ctxDone, CloseChannel ctxDone chid w = Ok (Some ErrChannelNotFound) w).
Proof.
  intros Hev Hrev Hpend.
  repeat split; intros;
    unfold PauseChannel, ResumeChannel, CloseChannel, gsKeyFromChannelID;
    go_unfold; rewrite ?Hev; cbn; rewrite Hrev, Hpend; reflexivity.
Qed.

(** A control call on a channel that is pending and not yet bound waits
    (unless its context is over). *)
Lemma control_calls_wait_while_pending w ev chid :
  events (tr w) = Some ev ->
  channelIDMap (tr w) !! chid = None ->
  pending (tr w) !! chid = Some tt ->
  PauseChannel false chid w = Blocked chid /\
  (forall msg, ResumeChannel false msg chid w = Blocked chid) /\
  CloseChannel false chid w = Blocked chid.
Proof.
  intros Hev Hrev Hpend.
  repeat split; intros;
    unfold PauseChannel, ResumeChannel, CloseChannel, gsKeyFromChannelID;
    go_unfold; rewrite ?Hev; cbn; rewrite Hrev, Hpend; reflexivity.
Qed.

Lemma gsOutgoingRequestHook_run w ev p request message err e' :
  let chid := mkChannelID (if IsRequest message then peerID (tr w) else p)
                          (TransferID_of message) in
  let gsKey := mkKey (rdID request) (peerID (tr w)) in
  (GetTransferData (rdExtensions request)).1 = Some message ->
  events (tr w) = Some ev ->
  OnChannelOpened ev chid (env w) = (err, e') ->
  exists w',
    gsOutgoingRequestHook p request w = Ok tt w' /\
    graphsyncRequestMap (tr w')
    = (if err is Some _ then graphsyncRequestMap (tr w)
       else <[gsKey := chid]> (graphsyncRequestMap (tr w))) /\
    channelIDMap (tr w')
    = (if err is Some _ then channelIDMap (tr w)
       else <[chid := gsKey]> (channelIDMap (tr w))) /\
    pending (tr w') = delete chid (pending (tr w)) /\
    calls w' = calls w ++ EvChannelOpened chid
                 :: (if pending (tr w) !! chid is Some _ then [ClosePending chid] else []) /\
    (is_Some err -> channelIDMap (tr w) !! chid = None ->
     forall ctxDone,
       PauseChannel ctxDone chid w' = Ok (Some ErrChannelNotFound) w' /\
       (forall msg, ResumeChannel ctxDone msg chid w' = Ok (Some ErrChannelNotFound) w') /\
       CloseChannel ctxDone chid w' = Ok (Some ErrChannelNotFound) w').
Proof.
  intros chid gsKey Hmsg Hev Hopened.
  unfold gsOutgoingRequestHook.
  destruct (GetTransferData (rdExtensions request)) as [m ?]; cbn in Hmsg; subst m.
  unfold theEvents. go_unfold. rewrite Hev. cbn.
  fold chid. rewrite Hopened.
  set (w1 := mkWorld
               (if err is Some _ then tr w
                else set_channelIDMap <[chid := gsKey]>
                       (set_graphsyncRequestMap <[gsKey := chid]> (tr w)))
               e' (calls w ++ [EvChannelOpened chid])).
  assert (Hpend1 : pending (tr w1) = pending (tr w)) by (destruct err; reflexivity).
  assert (Hev1 : events (tr w1) = Some ev) by (destruct err; exact Hev).
  assert (Hrev1 : is_Some err -> channelIDMap (tr w1) = channelIDMap (tr w))
    by (destruct err; [reflexivity | intros [? ?]; discriminate]).
  destruct (pending (tr w) !! chid) as [[]|] eqn:Hpend.
  - exists (mkWorld (set_pending (delete chid) (tr w1)) e'
                    (calls w ++ [EvChannelOpened chid; ClosePending chid])).
    split.
    { destruct err; cbn; rewrite Hpend; cbn; rewrite <- app_assoc; reflexivity. }
    split; [destruct err; reflexivity |].
    split; [destruct err; reflexivity |].
    split; [change (delete chid (pending (tr w1)) = delete chid (pending (tr w)));
            by rewrite Hpend1 |].
    split; [reflexivity |].
    intros Herr Hrev ctxDone.
    destruct (control_calls_channel_not_found
                (mkWorld (set_pending (delete chid) (tr w1)) e'
                         (calls w ++ [EvChannelOpened chid; ClosePending chid]))
                ev chid) as (_ & Hp & Hr & Hc).
    + exact Hev1.
    + change (channelIDMap (tr w1) !! chid = None).
      rewrite (Hrev1 Herr). exact Hrev.
    + cbn. apply lookup_delete_eq.
    + split; [apply Hp | split; [intros; apply Hr | apply Hc]].
  - exists w1.
    split.
    { destruct err; cbn; rewrite Hpend; reflexivity. }
    split; [destruct err; reflexivity |].
    split; [destruct err; reflexivity |].
    split; [rewrite Hpend1; symmetry; by apply delete_id |].
    split; [reflexivity |].
    intros Herr Hrev ctxDone.
    destruct (control_calls_channel_not_found w1 ev chid) as (_ & Hp & Hr & Hc).
    + exact Hev1.
    + rewrite (Hrev1 Herr). exact Hrev.
    + rewrite Hpend1. exact Hpend.
    + split; [apply Hp | split; [intros; apply Hr | apply Hc]].
Qed.

(** C4: in [gsOutgoingRequestHook], for a request that carries a message and
    with [chid] the channel the hook computes: when [OnChannelOpened] returns
    an error both correlation maps stay as they were, when it returns none
    [(requestID, self)] and [chid] are bound to each other in both maps; in
    either case the pending-signal of [chid], if there is one, is closed and
    removed.  After an error on a channel that was not bound, a control call
    finds neither binding nor signal and fails with [ErrChannelNotFound]. *)
Theorem outgoing_request_hook_binds_on_success w ev p request message err e' :
  let chid := mkChannelID (if IsRequest message then peerID (tr w) else p)
                          (TransferID_of message) in
  let gsKey := mkKey (rdID request) (peerID (tr w)) in
  (GetTransferData (rdExtensions request)).1 = Some message ->
  events (tr w) = Some ev ->
  OnChannelOpened ev chid (env w) = (err, e') ->
  exists w',
    gsOutgoingRequestHook p request w = Ok tt w' /\
    graphsyncRequestMap (tr w')
    = (if err is Some _ then graphsyncRequestMap (tr w)
       else <[gsKey := chid]> (graphsyncRequestMap (tr w))) /\
    channelIDMap (tr w')
    = (if err is Some _ then channelIDMap (tr w)
       else <[chid := gsKey]> (channelIDMap (tr w))) /\
    pending (tr w') = delete chid (pending (tr w)) /\
    calls w' = calls w ++ EvChannelOpened chid
                 :: (if pending (tr w) !! chid is Some _ then [ClosePending chid] else []) /\
    (is_Some err -> channelIDMap (tr w) !! chid = None ->
     forall ctxDone,
       PauseChannel ctxDone chid w' = Ok (Some ErrChannelNotFound) w' /\
       (forall msg, ResumeChannel ctxDone msg chid w' = Ok (Some ErrChannelNotFound) w') /\
       CloseChannel ctxDone chid w' = Ok (Some ErrChannelNotFound) w').
Proof. apply gsOutgoingRequestHook_run. Qed.

(** ** The completed-response listener *)

(** C6: [gsCompletedResponseListener] does nothing for a key it does not
    know.  For a key bound to [chid] it raises [OnChannelCompleted] unless the
    status is [RequestCancelled], with success exactly for
    [RequestCompletedFull], and in either case removes [chid] from every
    per-channel map and the key from the forward map. *)
Theorem completed_response_listener_cleans w p request status :
  let gsKey := mkKey (rdID request) p in
  (graphsyncRequestMap (tr w) !! gsKey = None ->
   gsCompletedResponseListener p request status w = Ok tt w) /\
  (forall chid ev,
      graphsyncRequestMap (tr w) !! gsKey = Some chid ->
      events (tr w) = Some ev ->
      exists w',
        gsCompletedResponseListener p request status w = Ok tt w' /\
        filter (fun e => isEvent e = true) (added (gsCompletedResponseListener p request status) w)
        = (if decide (status = RequestCancelled) then []
           else [EvChannelCompleted chid (bool_decide (status = RequestCompletedFull))]) /\
        channelIDMap (tr w') = delete chid (channelIDMap (tr w)) /\
        contextCancelMap (tr w') = delete chid (contextCancelMap (tr w)) /\
        pending (tr w') = delete chid (pending (tr w)) /\
        graphsyncRequestMap (tr w') = delete gsKey (graphsyncRequestMap (tr w)) /\
        responseProgressMap (tr w') = delete chid (responseProgressMap (tr w)) /\
        pendingExtensions (tr w') = delete chid (pendingExtensions (tr w)) /\
        requestorCancelledMap (tr w') = delete chid (requestorCancelledMap (tr w))).
Proof.
  intros gsKey. split.
  - intros Hmiss. unfold gsCompletedResponseListener. go_unfold.
    fold gsKey. by rewrite Hmiss.
  - intros chid ev Hhit Hev.
    unfold added, gsCompletedResponseListener, theEvents. go_unfold.
    fold gsKey. rewrite Hhit.
    destruct (decide (status = RequestCancelled)) as [Hc|Hc]; cbn.
    + eexists. split; [reflexivity |].
      cbn. rewrite drop_all. repeat split.
    + rewrite Hev. cbn.
      destruct (OnChannelCompleted ev chid (bool_decide (status = RequestCompletedFull)) (env w))
        as [[e|] e'] eqn:Hdone; cbn;
        (eexists; split; [reflexivity |]);
        cbn; rewrite <- ?app_assoc, drop_app_length; repeat split.
Qed.


(** ** Direction checks on updates and responses *)

Lemma answerExtension_error send (err : error) w :
  answerExtension send (None, Some err) w
  = Ok tt (mkWorld (tr w) (env w) (calls w ++ [HaTerminateWithError (Some err)])).
Proof. reflexivity. Qed.

(** C7: [gsRequestUpdatedHook] and [gsIncomingResponseHook] hand the
    extension of a correlated channel [chid] to [processExtension].  For a
    decoded request, [chid] must be [(ID = TransferID, Initiator = p)]:
    otherwise the result is the error "received request on response channel"
    and the world is untouched, so no event is raised.  For a decoded
    response, [chid] must be [(ID = TransferID, Initiator = self)]: otherwise
    the error is "received response on request channel".  When the direction
    fits, [OnRequestReceived] or [OnResponseReceived] is called according to
    the tag.  On a mismatch both hooks terminate with that error. *)
Theorem process_extension_checks_direction w ev chid exts p msg :
  GetTransferData exts = (Some msg, None) ->
  events (tr w) = Some ev ->
  match msg with
  | MsgRequest rq =>
      if decide (chid = mkChannelID p (rqXferID rq)) then
        processExtension chid exts p w
        = Ok (OnRequestReceived ev chid rq (env w)).1
             (mkWorld (tr w) (OnRequestReceived ev chid rq (env w)).2
                      (calls w ++ [EvRequestReceived chid rq]))
      else
        let err := ErrOther "received request on response channel" in
        processExtension chid exts p w = Ok (None, Some err) w /\
        (forall request update,
            graphsyncRequestMap (tr w) !! mkKey (rdID request) p = Some chid ->
            rdExtensions update = exts ->
            gsRequestUpdatedHook p request update w
            = Ok tt (mkWorld (tr w) (env w) (calls w ++ [HaTerminateWithError (Some err)]))) /\
        (forall response,
            graphsyncRequestMap (tr w) !! mkKey (rsRequestID response) (peerID (tr w))
            = Some chid ->
            rsExtensions response = exts ->
            gsIncomingResponseHook p response w
            = Ok tt (mkWorld (tr w) (env w) (calls w ++ [HaTerminateWithError (Some err)])))
  | MsgResponse rs =>
      if decide (chid = mkChannelID (peerID (tr w)) (XferID rs)) then
        processExtension chid exts p w
        = Ok (None, (OnResponseReceived ev chid rs (env w)).1)
             (mkWorld (tr w) (OnResponseReceived ev chid rs (env w)).2
                      (calls w ++ [EvResponseReceived chid rs]))
      else
        let err := ErrOther "received response on request channel" in
        processExtension chid exts p w = Ok (None, Some err) w /\
        (forall request update,
            graphsyncRequestMap (tr w) !! mkKey (rdID request) p = Some chid ->
            rdExtensions update = exts ->
            gsRequestUpdatedHook p request update w
            = Ok tt (mkWorld (tr w) (env w) (calls w ++ [HaTerminateWithError (Some err)]))) /\
        (forall response,
            graphsyncRequestMap (tr w) !! mkKey (rsRequestID response) (peerID (tr w))
            = Some chid ->
            rsExtensions response = exts ->
            gsIncomingResponseHook p response w
            = Ok tt (mkWorld (tr w) (env w) (calls w ++ [HaTerminateWithError (Some err)])))
  end.
Proof.
  intros Hdec Hev.
  assert (Hupd : forall request update,
             graphsyncRequestMap (tr w) !! mkKey (rdID request) p = Some chid ->
             rdExtensions update = exts ->
             gsRequestUpdatedHook p request update w
             = bind (processExtension chid exts p) (answerExtension HaSendExtensionData) w).
  { intros request update Hhit <-. unfold gsRequestUpdatedHook.
    unfold bind at 1, getT. by rewrite Hhit. }
  assert (Hresp : forall response,
             graphsyncRequestMap (tr w) !! mkKey (rsRequestID response) (peerID (tr w))
             = Some chid ->
             rsExtensions response = exts ->
             gsIncomingResponseHook p response w
             = bind (processExtension chid exts p)
                    (answerExtension HaUpdateRequestWithExtensions) w).
  { intros response Hhit <-. unfold gsIncomingResponseHook.
    unfold bind at 1, getT. by rewrite Hhit. }
  destruct msg as [rq|rs].
  - destruct (decide (chid = mkChannelID p (rqXferID rq))) as [Heq|Hne].
    + unfold processExtension, theEvents. rewrite Hdec. go_unfold.
      rewrite decide_False by (intros Hn; by apply Hn).
      rewrite Hev. cbn.
      by destruct (OnRequestReceived ev chid rq (env w)).
    + cbn zeta.
      assert (Hrun : processExtension chid exts p w
                     = Ok (None, Some (ErrOther "received request on response channel")) w).
      { unfold processExtension. rewrite Hdec. by rewrite decide_True. }
      split; [exact Hrun |].
      split; intros.
      * rewrite Hupd by done. unfold bind. rewrite Hrun. apply answerExtension_error.
      * rewrite Hresp by done. unfold bind. rewrite Hrun. apply answerExtension_error.
  - destruct (decide (chid = mkChannelID (peerID (tr w)) (XferID rs))) as [Heq|Hne].
    + unfold processExtension, theEvents. rewrite Hdec. go_unfold.
      rewrite decide_False by (intros Hn; by apply Hn).
      rewrite Hev. cbn.
      by destruct (OnResponseReceived ev chid rs (env w)).
    + cbn zeta.
      assert (Hrun : processExtension chid exts p w
                     = Ok (None, Some (ErrOther "received response on request channel")) w).
      { unfold processExtension. rewrite Hdec. go_unfold. by rewrite decide_True. }
      split; [exact Hrun |].
      split; intros.
      * rewrite Hupd by done. unfold bind. rewrite Hrun. apply answerExtension_error.
      * rewrite Hresp by done. unfold bind. rewrite Hrun. apply answerExtension_error.
Qed.


(** ** Which channel a message belongs to *)

(** What [gsReqRecdHook] does once the handler has answered. *)
Lemma gsReqRecdHook_tail_returns p request chid
    (responseMessage : option transferResponse) (err : option error) :
  returns (E:=E)
    (let encoded : option (error + ExtensionData) :=
       match responseMessage with
       | None => None
       | Some rm => Some (ToExtensionData (MsgResponse rm))
       end in
     match encoded with
     | Some (inl _) => emit (HaTerminateWithError err)
     | _ =>
         match encoded with
         | Some (inr ext) => emit (HaSendExtensionData ext)
         | _ => ret tt
         end ;;;
         if decide (err <> None /\ err <> Some ErrPause) then
           emit (HaTerminateWithError err)
         else
           (if decide (err = Some ErrPause) then emit HaPauseResponse else ret tt) ;;;
           bindIncoming p request chid ;;;
           emit HaValidateRequest
     end)%go.
Proof.
  cbn zeta.
  destruct responseMessage as [rm|]; [destruct (ToExtensionData (MsgResponse rm))|];
    repeat first
      [ apply bindIncoming_returns | apply returns_ret | apply returns_emit
      | apply returns_bind; [| intros] | case_decide ].
Qed.

(** The incoming-request hook on a decoded message: it returns, and the
    first thing it does is raise the event of the message's tag. *)
Lemma gsReqRecdHook_first_call w ev p request msg :
  GetTransferData (rdExtensions request) = (Some msg, None) ->
  events (tr w) = Some ev ->
  exists w' rest,
    gsReqRecdHook p request w = Ok tt w' /\
    calls w' = calls w ++
      match msg with
      | MsgRequest rq => EvRequestReceived (mkChannelID p (rqXferID rq)) rq
      | MsgResponse rs => EvResponseReceived (mkChannelID (peerID (tr w)) (XferID rs)) rs
      end :: rest.
Proof.
  intros Hdec Hev. unfold gsReqRecdHook. rewrite Hdec.
  rewrite bind_getT.
  destruct msg as [rq|rs]; cbn [TransferID_of];
    rewrite bind_bind, (bind_theEvents ev) by exact Hev;
    rewrite bind_bind, bind_call, bind_ret.
  - set (chid := mkChannelID p (rqXferID rq)).
    set (r := (OnRequestReceived ev chid rq (env w)).1).
    set (w1 := mkWorld (tr w) (OnRequestReceived ev chid rq (env w)).2
                       (calls w ++ [EvRequestReceived chid rq])).
    destruct (gsReqRecdHook_tail_returns p request chid r.1 r.2 w1)
      as ([] & w' & l & Hrun & Hc).
    exists w', l. split; [destruct r; exact Hrun |].
    rewrite Hc. cbn [calls w1]. by rewrite <- app_assoc.
  - set (chid := mkChannelID (peerID (tr w)) (XferID rs)).
    set (err := (OnResponseReceived ev chid rs (env w)).1).
    set (w1 := mkWorld (tr w) (OnResponseReceived ev chid rs (env w)).2
                       (calls w ++ [EvResponseReceived chid rs])).
    destruct (gsReqRecdHook_tail_returns p request chid None err w1)
      as ([] & w' & l & Hrun & Hc).
    exists w', l. split; [exact Hrun |].
    rewrite Hc. cbn [calls w1]. by rewrite <- app_assoc.
Qed.



(** C1, as the code has it: [gsReqRecdHook] takes the remote peer [p] as
    initiator for a request and the local peer for a response;
    [gsOutgoingRequestHook], where the local peer issues the graphsync
    request, takes the local peer for a request and [p] for a response.  Both
    use the transfer id of the message. *)
Theorem hooks_resolve_channel_id w ev p request msg :
  GetTransferData (rdExtensions request) = (Some msg, None) ->
  events (tr w) = Some ev ->
  let self := peerID (tr w) in
  (exists w' rest,
      gsReqRecdHook p request w = Ok tt w' /\
      calls w' = calls w ++
        match msg with
        | MsgRequest rq =>
            EvRequestReceived (mkChannelID (if IsRequest msg then p else self)
                                           (TransferID_of msg)) rq
        | MsgResponse rs =>
            EvResponseReceived (mkChannelID (if IsRequest msg then p else self)
                                            (TransferID_of msg)) rs
        end :: rest) /\
  (exists w' rest,
      gsOutgoingRequestHook p request w = Ok tt w' /\
      calls w' = calls w ++
        EvChannelOpened (mkChannelID (if IsRequest msg then self else p)
                                     (TransferID_of msg)) :: rest).
Proof.
  intros Hdec Hev self. split.
  - destruct (gsReqRecdHook_first_call w ev p request msg Hdec Hev) as (w' & rest & Hrun & Hc).
    exists w', rest. split; [exact Hrun |]. by destruct msg.
  - destruct (OnChannelOpened ev (mkChannelID (if IsRequest msg then self else p)
                                              (TransferID_of msg)) (env w))
      as [err e'] eqn:Hopened.
    destruct (gsOutgoingRequestHook_run w ev p request msg err e')
      as (w' & Hrun & _ & _ & _ & Hc & _); [by rewrite Hdec | exact Hev | exact Hopened |].
    eauto.
Qed.


(** ** Control calls after the requestor has cancelled *)

(** While the requestor-cancelled flag of [chid] is set, no control call on
    [chid] reaches the responder side of the block transport, whatever else
    the transport holds. *)
Lemma flag_set_no_response_control w chid :
  requestorCancelledMap (tr w) !! chid = Some tt ->
  (forall ctxDone,
      Forall (fun e => isResponseControl e = false) (added (PauseChannel ctxDone chid) w)) /\
  (forall ctxDone msg,
      Forall (fun e => isResponseControl e = false)
             (added (ResumeChannel ctxDone msg chid) w)) /\
  (forall ctxDone,
      Forall (fun e => isResponseControl e = false) (added (CloseChannel ctxDone chid) w)).
Proof.
  intros Hflag. repeat split; intros.
  - unfold added, PauseChannel, gsKeyFromChannelID.
    rewrite bind_getT.
    destruct (events (tr w)); [| cbn; rewrite drop_all; constructor].
    rewrite bind_bind, bind_getT.
    destruct (channelIDMap (tr w) !! chid) as [gsKey|];
      [| destruct (pending (tr w) !! chid); [destruct ctxDone |];
         cbn; rewrite ?drop_all; constructor ].
    rewrite bind_ret.
    destruct (decide (p gsKey = peerID (tr w))).
    + rewrite call_run. cbn. rewrite drop_app_length. by repeat constructor.
    + rewrite bind_getT, Hflag. cbn. rewrite drop_all. constructor.
  - unfold added, ResumeChannel, gsKeyFromChannelID.
    rewrite bind_getT.
    destruct (events (tr w)); [| cbn; rewrite drop_all; constructor].
    rewrite bind_bind, bind_getT.
    destruct (channelIDMap (tr w) !! chid) as [gsKey|];
      [| destruct (pending (tr w) !! chid); [destruct ctxDone |];
         cbn; rewrite ?drop_all; constructor ].
    rewrite bind_ret.
    destruct msg as [m|]; [destruct (ToExtensionData m) as [err|ext] |];
      try (cbn; rewrite drop_all; constructor);
      (destruct (decide (p gsKey = peerID (tr w)));
       [ rewrite call_run; cbn; rewrite drop_app_length; by repeat constructor
       | rewrite bind_getT, Hflag; cbn; rewrite drop_all; constructor ]).
  - unfold added, CloseChannel, gsKeyFromChannelID.
    rewrite bind_getT.
    destruct (events (tr w)); [| cbn; rewrite drop_all; constructor].
    rewrite bind_bind, bind_getT.
    destruct (channelIDMap (tr w) !! chid) as [gsKey|];
      [| destruct (pending (tr w) !! chid); [destruct ctxDone |];
         cbn; rewrite ?drop_all; constructor ].
    rewrite bind_ret.
    destruct (decide (p gsKey = peerID (tr w))).
    + rewrite bind_getT.
      destruct (contextCancelMap (tr w) !! chid);
        cbn; rewrite ?drop_app_length, ?drop_all; by repeat constructor.
    + rewrite bind_getT, Hflag. cbn. rewrite drop_all. constructor.
Qed.

(** The responder's control calls on a channel whose flag is set. *)
Lemma responder_calls_when_cancelled w ev chid gsKey :
  events (tr w) = Some ev ->
  channelIDMap (tr w) !! chid = Some gsKey ->
  p gsKey <> peerID (tr w) ->
  requestorCancelledMap (tr w) !! chid = Some tt ->
  (forall ctxDone, PauseChannel ctxDone chid w = Ok None w) /\
  (forall ctxDone,
      ResumeChannel ctxDone None chid w
      = Ok None (mkWorld
                   (set_pendingExtensions
                      (fun m => <[chid := default [] (m !! chid) ++ []]> m) (tr w))
                   (env w) (calls w))) /\
  (forall ctxDone m ext,
      ToExtensionData m = inr ext ->
      ResumeChannel ctxDone (Some m) chid w
      = Ok None (mkWorld
                   (set_pendingExtensions
                      (fun m => <[chid := default [] (m !! chid) ++ [ext]]> m) (tr w))
                   (env w) (calls w))) /\
  (forall ctxDone,
      CloseChannel ctxDone chid w
      = Ok None (mkWorld
                   (set_requestorCancelledMap (delete chid)
                      (set_pendingExtensions (delete chid)
                         (set_responseProgressMap (delete chid)
                            (set_graphsyncRequestMap (delete gsKey)
                               (set_pending (delete chid)
                                  (set_contextCancelMap (delete chid)
                                     (set_channelIDMap (delete chid) (tr w))))))))
                   (env w) (calls w))).
Proof.
  intros Hev Hrev Hne Hflag.
  repeat split; intros;
    unfold PauseChannel, ResumeChannel, CloseChannel, gsKeyFromChannelID;
    rewrite bind_getT, Hev, bind_bind, bind_getT, Hrev, bind_ret;
    rewrite ?H0;
    rewrite decide_False by exact Hne;
    rewrite bind_getT, Hflag; reflexivity.
Qed.


(** C3: let the requestor-cancelled listener fire for a request of the
    remote peer [p] that is bound to [chid] in both maps.  From then on, and
    as long as the flag of [chid] stays set: [PauseChannel] returns success
    and changes nothing; [ResumeChannel] appends the encoded message to the
    queued extensions of [chid], calls nothing and returns success;
    [CloseChannel] runs [cleanupChannel], calls nothing and returns success.
    In any world where the flag is set none of the three calls issues
    [PauseResponse], [UnpauseResponse] or [CancelResponse]. *)
Theorem cancelled_requestor_silences_responder w ev p request chid :
  let gsKey := mkKey (rdID request) p in
  events (tr w) = Some ev ->
  graphsyncRequestMap (tr w) !! gsKey = Some chid ->
  channelIDMap (tr w) !! chid = Some gsKey ->
  p <> peerID (tr w) ->
  exists w1,
    gsRequestorCancelledListener p request w = Ok tt w1 /\
    requestorCancelledMap (tr w1) !! chid = Some tt /\
    (forall ctxDone, PauseChannel ctxDone chid w1 = Ok None w1) /\
    (forall ctxDone m ext,
        ToExtensionData m = inr ext ->
        exists w2,
          ResumeChannel ctxDone (Some m) chid w1 = Ok None w2 /\
          pendingExtensions (tr w2) !! chid
          = Some (default [] (pendingExtensions (tr w1) !! chid) ++ [ext]) /\
          calls w2 = calls w1) /\
    (forall ctxDone,
        exists w2,
          CloseChannel ctxDone chid w1 = Ok None w2 /\
          calls w2 = calls w1 /\
          channelIDMap (tr w2) !! chid = None /\
          contextCancelMap (tr w2) !! chid = None /\
          pending (tr w2) !! chid = None /\
          graphsyncRequestMap (tr w2) !! gsKey = None /\
          responseProgressMap (tr w2) !! chid = None /\
          pendingExtensions (tr w2) !! chid = None /\
          requestorCancelledMap (tr w2) !! chid = None) /\
    (forall w', requestorCancelledMap (tr w') !! chid = Some tt ->
       forall ctxDone msg,
         Forall (fun e => isResponseControl e = false)
                (added (PauseChannel ctxDone chid) w' ++
                 added (ResumeChannel ctxDone msg chid) w' ++
                 added (CloseChannel ctxDone chid) w')).
Proof.
  intros gsKey Hev Hfwd Hrev Hne.
  set (w1 := mkWorld (set_requestorCancelledMap <[chid := tt]> (tr w)) (env w) (calls w)).
  assert (Hflag : requestorCancelledMap (tr w1) !! chid = Some tt)
    by apply lookup_insert_eq.
  destruct (responder_calls_when_cancelled w1 ev chid gsKey Hev Hrev Hne Hflag)
    as (Hpause & _ & Hresume & Hclose).
  exists w1. split.
  { unfold gsRequestorCancelledListener. rewrite bind_getT. fold gsKey. by rewrite Hfwd. }
  split; [exact Hflag |].
  split; [exact Hpause |].
  split.
  { intros ctxDone m ext Henc. eexists. split; [by apply Hresume |].
    split; [| reflexivity]. cbn. apply lookup_insert_eq. }
  split.
  { intros ctxDone. eexists. split; [apply Hclose |].
    cbn. repeat split; apply lookup_delete_eq. }
  intros w' Hflag' ctxDone msg.
  destruct (flag_set_no_response_control w' chid Hflag') as (Hp & Hr & Hc).
  rewrite !Forall_app. auto.
Qed.


(** ** The side-channel receiver *)

(** C8, as the code has it: when the handler answers a request with a
    response and an error other than [ErrResume], the receiver, after the
    event, first dispatches the response: through [OpenChannel] toward the
    sender, with the request's base cid as root, its decoded selector and the
    response as message, when the response is accepted, is no update and the
    request is a push; over the side channel otherwise.  An error of that
    dispatch is returned at once.  Otherwise [PauseChannel] follows when the
    handler's error is [ErrPause], and [CloseChannel] when it is another
    error.  So on a transport that can pause, [PauseChannel] is called
    exactly when the handler's error is [ErrPause] and the dispatch gave no
    error. *)
Theorem receive_request_dispatches_response
    (m : manager E) (initiator : peer_ID) (incoming : transferRequest)
    (w : World unit E) response receiveErr e1 pt :
  let chid := mkChannelID initiator (rqXferID incoming) in
  let opens := negb (IsUpdate response) && Accepted response && negb (IsPull incoming) in
  let dispatch :=
    if opens
    then TrOpenChannel initiator chid (BaseCid incoming) (Selector incoming).1 response
    else NetSendMessage initiator response in
  let sent :=
    if opens
    then (trOpenChannel (mgrTransport m) initiator chid (BaseCid incoming)
                        (Selector incoming).1 response e1).1
    else (mgrSendMessage m initiator response e1).1 in
  mgrOnRequestReceived m chid incoming (env w) = ((Some response, receiveErr), e1) ->
  receiveErr <> Some ErrResume ->
  trPauseable (mgrTransport m) = Some pt ->
  exists result (w' : World unit E),
    receiveRequest m initiator incoming w = Ok result w' /\
    added (receiveRequest m initiator incoming) w
    = EvRequestReceived chid incoming :: dispatch ::
        (if sent is Some _ then []
         else if decide (receiveErr = Some ErrPause) then [TrPauseChannel chid]
         else if receiveErr is Some _ then [TrCloseChannel chid]
         else []) /\
    (TrPauseChannel chid ∈ added (receiveRequest m initiator incoming) w
     <-> receiveErr = Some ErrPause /\ sent = None).
Proof.
  intros chid opens dispatch sent Hhandler Hresume Hpt.
  assert (Hrun : exists result (w' : World unit E),
             receiveRequest m initiator incoming w = Ok result w' /\
             calls w' = calls w ++ EvRequestReceived chid incoming :: dispatch ::
               (if sent is Some _ then []
                else if decide (receiveErr = Some ErrPause) then [TrPauseChannel chid]
                else if receiveErr is Some _ then [TrCloseChannel chid]
                else [])).
  { unfold receiveRequest. fold chid. rewrite bind_call, Hhandler. cbn [fst snd].
    rewrite decide_False by exact Hresume.
    cbn match. fold opens. subst dispatch sent.
    destruct opens.
    - destruct (Selector incoming) as [stor serr]. cbn [fst].
      rewrite bind_call. cbn [env tr calls].
      destruct (trOpenChannel (mgrTransport m) initiator chid (BaseCid incoming) stor
                              response e1) as [[derr|] e2]; cbn [fst snd].
      + do 2 eexists. split; [reflexivity |]. cbn. by rewrite <- app_assoc.
      + destruct (decide (receiveErr = Some ErrPause)).
        * unfold asPauseable. rewrite Hpt. cbn match. rewrite bind_ret, call_run.
          do 2 eexists. split; [reflexivity |]. cbn. by rewrite <- !app_assoc.
        * destruct receiveErr.
          -- rewrite bind_call.
             do 2 eexists. split; [reflexivity |]. cbn. by rewrite <- !app_assoc.
          -- do 2 eexists. split; [reflexivity |]. cbn. by rewrite <- !app_assoc.
    - rewrite bind_call. cbn [env tr calls].
      destruct (mgrSendMessage m initiator response e1) as [[derr|] e2]; cbn [fst snd].
      + do 2 eexists. split; [reflexivity |]. cbn. by rewrite <- app_assoc.
      + destruct (decide (receiveErr = Some ErrPause)).
        * unfold asPauseable. rewrite Hpt. cbn match. rewrite bind_ret, call_run.
          do 2 eexists. split; [reflexivity |]. cbn. by rewrite <- !app_assoc.
        * destruct receiveErr.
          -- rewrite bind_call.
             do 2 eexists. split; [reflexivity |]. cbn. by rewrite <- !app_assoc.
          -- do 2 eexists. split; [reflexivity |]. cbn. by rewrite <- !app_assoc. }
  destruct Hrun as (result & w' & Hrun & Hcalls).
  assert (Hadded : added (receiveRequest m initiator incoming) w
                   = EvRequestReceived chid incoming :: dispatch ::
                       (if sent is Some _ then []
                        else if decide (receiveErr = Some ErrPause) then [TrPauseChannel chid]
                        else if receiveErr is Some _ then [TrCloseChannel chid]
                        else [])).
  { unfold added. rewrite Hrun, Hcalls. apply drop_app_length. }
  exists result, w'. split; [exact Hrun |]. split; [exact Hadded |].
  rewrite Hadded.
  assert (Hd : TrPauseChannel chid <> dispatch)
    by (subst dispatch; destruct opens; discriminate).
  rewrite !elem_of_cons.
  destruct sent as [derr|].
  - split; [| intros [_ ?]; discriminate].
    intros [?|[?|Hin]]; [discriminate | done | by apply elem_of_nil in Hin].
  - destruct (decide (receiveErr = Some ErrPause)) as [Hp|Hp].
    + split; [auto |]. intros _. right. right. apply list_elem_of_here.
    + split; [| intros [? _]; done].
      intros [?|[?|Hin]]; [discriminate | done |].
      destruct receiveErr; [| by apply elem_of_nil in Hin].
      apply list_elem_of_singleton in Hin. discriminate.
Qed.


(** ** The block-progress watermarks *)

Section Keeps.
Context {T : Type} (I : T -> Prop).

Lemma keeps_ret {A} (a : A) : keeps I (ret a : M (World T E) A).
Proof. intros w a' w' HI [= _ <-]. exact HI. Qed.

Lemma keeps_getT : keeps I (getT : M (World T E) T).
Proof. intros w a' w' HI [= _ <-]. exact HI. Qed.

Lemma keeps_emit (e : Effect) : keeps I (emit e : M (World T E) unit).
Proof. intros w a' w' HI [= _ <-]. exact HI. Qed.

Lemma keeps_call {A} (e : Effect) (f : E -> A * E) : keeps I (call e f : M (World T E) A).
Proof. intros w a' w' HI. rewrite call_run. intros [= _ <-]. exact HI. Qed.

Lemma keeps_panic {A} : keeps I (panic : M (World T E) A).
Proof. intros w a' w' _ [=]. Qed.

Lemma keeps_wait {A} chid : keeps I (wait chid : M (World T E) A).
Proof. intros w a' w' _ [=]. Qed.

Lemma keeps_modifyT (f : T -> T) :
  (forall t, I t -> I (f t)) -> keeps I (modifyT f : M (World T E) unit).
Proof. intros Hf w a' w' HI [= _ <-]. by apply Hf. Qed.

Lemma keeps_bind {A B} (m : M (World T E) A) (k : A -> M (World T E) B) :
  keeps I m -> (forall a, keeps I (k a)) -> keeps I (bind m k).
Proof.
  intros Hm Hk w b w' HI. unfold bind.
  destruct (m w) as [a w1| |] eqn:Hrun; [| done | done].
  intros Hrun2. eapply Hk; [| exact Hrun2]. eapply Hm; eauto.
Qed.

Lemma keeps_forEach {A} (l : list A) (f : A -> M (World T E) unit) :
  (forall x, keeps I (f x)) -> keeps I (forEach l f).
Proof.
  intros Hf. induction l as [|x l IH]; cbn.
  - apply keeps_ret.
  - apply keeps_bind; [apply Hf | intros _; exact IH].
Qed.
End Keeps.

(** Updates that leave the progress map alone, or remove from it. *)
Lemma progressOk_frame (t t' : Transport E) :
  responseProgressMap t' = responseProgressMap t -> progressOk t -> progressOk t'.
Proof. unfold progressOk. by intros ->. Qed.

Lemma progressOk_delete chid (t : Transport E) :
  progressOk t -> progressOk (set_responseProgressMap (delete chid) t).
Proof. unfold progressOk. cbn. apply map_Forall_delete. Qed.

Lemma progressOk_insert chid rp (t : Transport E) :
  0 <= currentSent rp <= maximumSent rp ->
  progressOk t -> progressOk (set_responseProgressMap <[chid := rp]> t).
Proof. unfold progressOk. cbn. intros Hrp Ht. by apply map_Forall_insert_2. Qed.

(** Proves [keeps progressOk m] when [m] only reads the progress map or
    deletes from it. *)
Ltac keeps_tac :=
  repeat first
    [ apply keeps_ret | apply keeps_getT | apply keeps_emit | apply keeps_call
    | apply keeps_panic | apply keeps_wait
    | apply keeps_modifyT; intros ? ?;
      first [ by apply progressOk_delete
            | by (eapply progressOk_frame; [| eassumption]) ]
    | apply keeps_forEach; intros
    | apply keeps_bind; [| intros]
    | case_match | case_decide ].

Lemma cleanupChannel_keeps chid gsKey : keeps progressOk (cleanupChannel (E:=E) chid gsKey).
Proof. unfold cleanupChannel. keeps_tac. Qed.

Lemma bindIncoming_keeps p request chid :
  keeps progressOk (bindIncoming (E:=E) p request chid).
Proof.
  intros w a w' HI. rewrite bindIncoming_run. intros [= _ <-]. cbn [tr].
  apply progressOk_insert.
  - cbn. destruct (responseProgressMap (tr w) !! chid) as [rp|] eqn:Hrp; [| lia].
    pose proof (HI chid rp Hrp) as Hb. cbn beta in Hb. lia.
  - eapply progressOk_frame; [| exact HI].
    by destruct (requestorCancelledMap (tr w) !! chid).
Qed.


Lemma filter_no_data_sent (l : list Effect) :
  Forall (fun e => isDataSent e = false) l ->
  filter (fun e => isDataSent e = true) l = [].
Proof.
  induction 1 as [|e l He _ IH]; [done |].
  rewrite filter_cons, decide_False by (by rewrite He). exact IH.
Qed.

(** What the outgoing-block hook does after [OnDataSent] has answered. *)
Lemma gsOutgoingBlockHook_tail (r : option Message * option error) (u : World (Transport E) E) :
  exists w' rest,
    (let '(msg, err) := r in
     if decide (err <> None /\ err <> Some ErrPause) then
       emit (HaTerminateWithError err)
     else
       (if decide (err = Some ErrPause) then emit HaPauseResponse else ret tt) ;;;
       match msg with
       | None => ret tt
       | Some m =>
           match ToExtensionData m with
           | inl err' => emit (HaTerminateWithError (Some err'))
           | inr ext => emit (HaSendExtensionData ext)
           end
       end)%go u = Ok tt w' /\
    tr w' = tr u /\ calls w' = calls u ++ rest /\
    Forall (fun e => isDataSent e = false) rest.
Proof.
  destruct r as [msg err].
  destruct (decide (err <> None /\ err <> Some ErrPause)).
  { eexists _, [_]. repeat split. by repeat constructor. }
  destruct (decide (err = Some ErrPause)), msg as [m|];
    [destruct (ToExtensionData m) | | destruct (ToExtensionData m) |];
    try (eexists _, [_; _]; split; [reflexivity |]; cbn;
         rewrite <- ?app_assoc; repeat split; by repeat constructor);
    try (eexists _, [_]; split; [reflexivity |]; cbn;
         rewrite <- ?app_assoc; repeat split; by repeat constructor).
  eexists _, []. split; [reflexivity |]. rewrite app_nil_r. repeat split. constructor.
Qed.

(** One call of the outgoing-block hook on a correlated channel with a
    progress record. *)
Lemma gsOutgoingBlockHook_run w ev p request block chid rp :
  let cur := (currentSent rp + BlockSize block) mod uint64_mod in
  events (tr w) = Some ev ->
  graphsyncRequestMap (tr w) !! mkKey (rdID request) p = Some chid ->
  responseProgressMap (tr w) !! chid = Some rp ->
  exists w' rest,
    gsOutgoingBlockHook p request block w = Ok tt w' /\
    responseProgressMap (tr w')
    = <[chid := mkProgress cur (Z.max (maximumSent rp) cur)]> (responseProgressMap (tr w)) /\
    graphsyncRequestMap (tr w') = graphsyncRequestMap (tr w) /\
    events (tr w') = events (tr w) /\
    calls w' = calls w ++ rest /\
    filter (fun e => isDataSent e = true) rest
    = (if decide (cur <= maximumSent rp) then []
       else [EvDataSent chid (BlockLink block) (BlockSize block)]).
Proof.
  intros cur Hev Hkey Hrp. unfold gsOutgoingBlockHook.
  rewrite bind_getT, Hkey, Hrp. fold cur.
  rewrite bind_modifyT.
  destruct (decide (cur <= maximumSent rp)) as [Hle|Hgt].
  - eexists _, []. split; [reflexivity |]. cbn.
    rewrite app_nil_r, Z.max_l by exact Hle. repeat split.
  - rewrite bind_modifyT, (bind_theEvents ev) by exact Hev.
    rewrite bind_call.
    edestruct gsOutgoingBlockHook_tail as (w' & rest & Hrun & Htr & Hcalls & Hrest).
    eexists w', (_ :: rest). split; [exact Hrun |].
    rewrite Htr, Hcalls. cbn. rewrite insert_insert_eq, Z.max_r by lia.
    rewrite <- app_assoc. repeat split.
    rewrite decide_True by reflexivity. f_equal.
    by apply filter_no_data_sent.
Qed.


Lemma uint64_mod_pos : 0 < uint64_mod.
Proof. reflexivity. Qed.

Lemma gsOutgoingBlockHook_keeps p request block :
  keeps progressOk (gsOutgoingBlockHook (E:=E) p request block).
Proof.
  intros w a w' HI. unfold gsOutgoingBlockHook. rewrite bind_getT.
  destruct (graphsyncRequestMap (tr w) !! mkKey (rdID request) p) as [chid|];
    [| by intros [= _ <-]].
  destruct (responseProgressMap (tr w) !! chid) as [rp|] eqn:Hrp; [| done].
  set (cur := (currentSent rp + BlockSize block) mod uint64_mod).
  assert (Hcur : 0 <= cur) by (apply Z.mod_pos_bound, uint64_mod_pos).
  clearbody cur. rewrite bind_modifyT.
  destruct (decide (cur <= maximumSent rp)) as [Hle|Hgt].
  - intros [= _ <-]. cbn [tr]. by apply progressOk_insert.
  - rewrite bind_modifyT. intros Hrun.
    match type of Hrun with
    | ?m ?w2 = _ =>
        assert (Hk : keeps progressOk m) by keeps_tac;
        apply (Hk w2 a w'); [| exact Hrun]
    end.
    unfold progressOk. cbn. rewrite insert_insert_eq.
    apply map_Forall_insert_2; [cbn; lia | exact HI].
Qed.

Lemma run_keeps (op : Op E) : keeps progressOk (run op).
Proof.
  destruct op; cbn [run];
    try apply gsOutgoingBlockHook_keeps;
    unfold SetEventHandler, OpenChannel, PauseChannel, ResumeChannel, CloseChannel,
      CleanupChannel, executeGsRequest, gsOutgoingRequestHook, gsIncomingBlockHook,
      gsReqRecdHook, gsCompletedResponseListener, gsRequestUpdatedHook,
      gsIncomingResponseHook, gsRequestorCancelledListener, processExtension,
      answerExtension, gsKeyFromChannelID, theEvents;
    repeat first
      [ apply cleanupChannel_keeps | apply bindIncoming_keeps
      | apply keeps_ret | apply keeps_getT | apply keeps_emit | apply keeps_call
      | apply keeps_panic | apply keeps_wait
      | apply keeps_modifyT; intros ? ?;
        first [ by apply progressOk_delete
              | by (eapply progressOk_frame; [| eassumption]) ]
      | apply keeps_bind; [| intros]
      | case_match | case_decide ].
Qed.

(** The invariant holds along every run. *)
Lemma runAll_keeps (ops : list (Op E)) : keeps progressOk (runAll ops).
Proof. apply keeps_forEach, run_keeps. Qed.

Lemma reachable_progressOk w : reachable w -> progressOk (tr w).
Proof.
  intros (peerID & gs & e & ops & Hrun).
  eapply runAll_keeps; [| exact Hrun].
  cbn. apply map_Forall_empty.
Qed.

(** C9: in every world the transport can get to, each block-progress record
    has [currentSent <= maximumSent] when the outgoing-block hook is entered,
    that is before it advances [currentSent] and compares; and the hook
    returns with [currentSent] advanced by the block size (modulo 2^64) and
    [maximumSent] the maximum of its previous value and the new
    [currentSent]. *)
Theorem watermarks_ordered w ev p request block chid rp :
  reachable w ->
  events (tr w) = Some ev ->
  graphsyncRequestMap (tr w) !! mkKey (rdID request) p = Some chid ->
  responseProgressMap (tr w) !! chid = Some rp ->
  currentSent rp <= maximumSent rp /\
  exists w' rp',
    gsOutgoingBlockHook p request block w = Ok tt w' /\
    responseProgressMap (tr w') !! chid = Some rp' /\
    currentSent rp' = (currentSent rp + BlockSize block) mod uint64_mod /\
    maximumSent rp' = Z.max (maximumSent rp) (currentSent rp') /\
    currentSent rp' <= maximumSent rp'.
Proof.
  intros Hreach Hev Hkey Hrp. split.
  - pose proof (reachable_progressOk w Hreach chid rp Hrp) as Hb. cbn beta in Hb. lia.
  - destruct (gsOutgoingBlockHook_run w ev p request block chid rp Hev Hkey Hrp)
      as (w' & rest & Hrun & Hmap & _).
    exists w', (mkProgress ((currentSent rp + BlockSize block) mod uint64_mod)
                  (Z.max (maximumSent rp)
                         ((currentSent rp + BlockSize block) mod uint64_mod))).
    split; [exact Hrun |]. rewrite Hmap, lookup_insert_eq. cbn. repeat split. lia.
Qed.


(** ** Which blocks are reported as sent *)

(** Blocks that stay at or below the watermark are passed over in silence. *)
Lemma replay_below_watermark (blocks : list BlockData) w p request chid rp :
  graphsyncRequestMap (tr w) !! mkKey (rdID request) p = Some chid ->
  responseProgressMap (tr w) !! chid = Some rp ->
  0 <= currentSent rp ->
  Forall (fun b => 0 <= BlockSize b) blocks ->
  currentSent rp + totalSize blocks <= maximumSent rp ->
  maximumSent rp < uint64_mod ->
  exists w',
    replay p request blocks w = Ok tt w' /\
    calls w' = calls w /\
    env w' = env w /\
    responseProgressMap (tr w') !! chid
    = Some (mkProgress (currentSent rp + totalSize blocks) (maximumSent rp)).
Proof.
  revert w rp. induction blocks as [|b blocks IH]; intros w rp Hkey Hrp Hcur Hsizes Hsum Hmax.
  - exists w. cbn. rewrite Z.add_0_r. by destruct rp.
  - apply Forall_cons in Hsizes as [Hb Hsizes]. cbn [totalSize foldr] in Hsum.
    fold (totalSize blocks) in Hsum.
    assert (Htot : 0 <= totalSize blocks).
    { clear -Hsizes. induction Hsizes as [|x l Hx _ IHl]; cbn; [lia |].
      fold (totalSize l). lia. }
    assert (Hsmall : (currentSent rp + BlockSize b) mod uint64_mod
                     = currentSent rp + BlockSize b)
      by (apply Z.mod_small; lia).
    unfold replay. cbn [forEach]. unfold bind at 1.
    unfold gsOutgoingBlockHook at 1.
    rewrite bind_getT, Hkey, Hrp, Hsmall, bind_modifyT.
    rewrite decide_True by lia. cbn [ret].
    set (rp1 := mkProgress (currentSent rp + BlockSize b) (maximumSent rp)).
    set (w1 := mkWorld (set_responseProgressMap <[chid := rp1]> (tr w)) (env w) (calls w)).
    destruct (IH w1 rp1) as (w' & Hrun & Hcalls & Henv & Hmap);
      try (cbn; lia); try done.
    { apply lookup_insert_eq. }
    exists w'. split; [exact Hrun |]. split; [exact Hcalls |]. split; [exact Henv |].
    rewrite Hmap. cbn [totalSize foldr]. fold (totalSize blocks). cbn. f_equal. f_equal. lia.
Qed.

(** C2, as the code has it: the hook knows blocks only by their place in
    the byte stream.  A call on a correlated channel reports [OnDataSent],
    once, exactly when the advanced [currentSent] exceeds [maximumSent].  So
    after [gsReqRecdHook] has put [currentSent] back to 0 for a restarted
    request, blocks replayed up to the old watermark are not reported again;
    a block handed to the hook again without such a restart is. *)
Theorem data_sent_follows_watermark w p request chid rp :
  graphsyncRequestMap (tr w) !! mkKey (rdID request) p = Some chid ->
  responseProgressMap (tr w) !! chid = Some rp ->
  (forall ev block,
      events (tr w) = Some ev ->
      exists w',
        gsOutgoingBlockHook p request block w = Ok tt w' /\
        filter (fun e => isDataSent e = true) (added (gsOutgoingBlockHook p request block) w)
        = (if decide ((currentSent rp + BlockSize block) mod uint64_mod <= maximumSent rp)
           then [] else [EvDataSent chid (BlockLink block) (BlockSize block)])) /\
  (forall p' request',
      exists w1,
        bindIncoming p' request' chid w = Ok tt w1 /\
        responseProgressMap (tr w1) !! chid = Some (mkProgress 0 (maximumSent rp))) /\
  (forall blocks,
      0 <= currentSent rp ->
      Forall (fun b => 0 <= BlockSize b) blocks ->
      currentSent rp + totalSize blocks <= maximumSent rp ->
      maximumSent rp < uint64_mod ->
      exists w',
        replay p request blocks w = Ok tt w' /\
        added (replay p request blocks) w = [] /\
        responseProgressMap (tr w') !! chid
        = Some (mkProgress (currentSent rp + totalSize blocks) (maximumSent rp))).
Proof.
  intros Hkey Hrp. split; [| split].
  - intros ev block Hev.
    destruct (gsOutgoingBlockHook_run w ev p request block chid rp Hev Hkey Hrp)
      as (w' & rest & Hrun & _ & _ & _ & Hcalls & Hfilter).
    exists w'. split; [exact Hrun |].
    unfold added. rewrite Hrun, Hcalls, drop_app_length. exact Hfilter.
  - intros p' request'. eexists. split; [apply bindIncoming_run |].
    cbn. rewrite Hrp. apply lookup_insert_eq.
  - intros blocks Hcur Hsizes Hsum Hmax.
    destruct (replay_below_watermark blocks w p request chid rp)
      as (w' & Hrun & Hcalls & _ & Hmap); try done.
    exists w'. split; [exact Hrun |]. split; [| exact Hmap].
    unfold added. rewrite Hrun, Hcalls. apply drop_all.
Qed.


End Facts.

(** ** Examples *)

Lemma handler_not_set_leaves_store_witness :
  events (tr freshWorld) = None /\
  @PauseChannel unit false (mkChannelID "B" 42) freshWorld = Ok (Some ErrHandlerNotSet) freshWorld.
Proof.
  split; [reflexivity |].
  apply (@handler_not_set_leaves_store unit demoCodec freshWorld); reflexivity.
Defined.

Lemma malformed_request_terminates_witness :
  @gsReqRecdHook unit demoCodec "B" (demoRequest [9; 9; 9; 9; 9]) readyWorld
  = Ok tt (mkWorld (tr readyWorld) tt [HaTerminateWithError (Some (ErrOther "malformed"))]).
Proof.
  apply (@malformed_request_terminates unit demoCodec readyWorld "B"
           (demoRequest [9; 9; 9; 9; 9]) [9; 9; 9; 9; 9] (ErrOther "malformed"));
    reflexivity.
Defined.

Example boundWorld_reachable : reachable (H:=demoCodec) boundWorld.
Proof. exists "A", quietGs, tt, boundOps. reflexivity. Qed.

Example boundWorld_binding :
  graphsyncRequestMap (tr boundWorld) !! mkKey 7 "B" = Some pullChannel /\
  channelIDMap (tr boundWorld) !! pullChannel = Some (mkKey 7 "B") /\
  responseProgressMap (tr boundWorld) !! pullChannel = Some (mkProgress 0 0).
Proof. repeat split. Qed.

Lemma hooks_resolve_channel_id_witness :
  exists w' rest,
    @gsOutgoingRequestHook unit demoCodec "B" pullRequest readyWorld = Ok tt w' /\
    calls w' = EvChannelOpened (mkChannelID "A" 42) :: rest.
Proof.
  destruct (@hooks_resolve_channel_id unit demoCodec readyWorld quietEvents "B"
              pullRequest demoRequestMsg eq_refl eq_refl) as [_ Hout].
  exact Hout.
Defined.

(** C1 as stated fails in [gsOutgoingRequestHook]: [A] sends a graphsync
    request to [B] that carries a data-transfer request, and the channel the
    hook opens has initiator [A], not the remote peer [B] of the stated
    rule. *)
Lemma outgoing_hook_initiator_counterexample :
  exists chid,
    added (@gsOutgoingRequestHook unit demoCodec "B" pullRequest) readyWorld
    = [EvChannelOpened chid] /\
    chid <> resolveChannelID_spec "A" "B" demoRequestMsg.
Proof. exists (mkChannelID "A" 42). split; [reflexivity | discriminate]. Qed.

Lemma data_sent_follows_watermark_witness :
  exists w',
    @gsOutgoingBlockHook unit demoCodec "B" pullRequest demoBlock boundWorld = Ok tt w' /\
    filter (fun e => isDataSent e = true)
           (added (@gsOutgoingBlockHook unit demoCodec "B" pullRequest demoBlock) boundWorld)
    = [EvDataSent pullChannel "blk" 100].
Proof.
  destruct (@data_sent_follows_watermark unit demoCodec boundWorld "B" pullRequest
              pullChannel (mkProgress 0 0) eq_refl eq_refl) as [Hone _].
  exact (Hone quietEvents demoBlock eq_refl).
Defined.

(** C2 as stated fails: the hook called three times with the same block of
    size 100 on a fresh progress record reports [OnDataSent] three times. *)
Lemma same_block_thrice_counterexample :
  let reported :=
    filter (fun e => isDataSent e = true)
           (added (@replay unit demoCodec "B" pullRequest [demoBlock; demoBlock; demoBlock])
                  boundWorld) in
  reported = [EvDataSent pullChannel "blk" 100; EvDataSent pullChannel "blk" 100;
              EvDataSent pullChannel "blk" 100] /\
  length reported <> 1%nat.
Proof. split; [reflexivity | discriminate]. Qed.

Lemma cancelled_requestor_silences_responder_witness :
  exists w1,
    @gsRequestorCancelledListener unit "B" pullRequest boundWorld = Ok tt w1 /\
    PauseChannel false pullChannel w1 = Ok None w1 /\
    added (CloseChannel false pullChannel) w1 = [].
Proof.
  destruct (@cancelled_requestor_silences_responder unit demoCodec boundWorld quietEvents
              "B" pullRequest pullChannel eq_refl eq_refl eq_refl)
    as (w1 & Hrun & _ & Hpause & _ & Hclose & _).
  { discriminate. }
  exists w1. split; [exact Hrun |]. split; [apply Hpause |].
  destruct (Hclose false) as (w2 & Hc & Hcalls & _).
  unfold added. rewrite Hc, Hcalls. apply drop_all.
Defined.

Lemma outgoing_request_hook_binds_on_success_witness :
  exists w',
    @gsOutgoingRequestHook unit demoCodec "B" pullRequest pendingWorld = Ok tt w' /\
    channelIDMap (tr w') = ∅ /\
    pending (tr w') = ∅ /\
    calls w' = calls pendingWorld
                 ++ [EvChannelOpened (mkChannelID "A" 42); ClosePending (mkChannelID "A" 42)] /\
    PauseChannel false (mkChannelID "A" 42) w' = Ok (Some ErrChannelNotFound) w'.
Proof.
  destruct (@outgoing_request_hook_binds_on_success unit demoCodec pendingWorld
              refusingEvents "B" pullRequest demoRequestMsg
              (Some (ErrOther "refused")) tt eq_refl eq_refl eq_refl)
    as (w' & Hrun & _ & Hrev & Hpend & Hcalls & Hfail).
  exists w'. split; [exact Hrun |]. split; [exact Hrev |].
  split; [rewrite Hpend; reflexivity |]. split; [exact Hcalls |].
  destruct (Hfail (ex_intro _ _ eq_refl) eq_refl false) as [Hp _]. exact Hp.
Defined.

Lemma completed_response_listener_cleans_witness :
  exists w',
    @gsCompletedResponseListener unit "B" pullRequest RequestCompletedFull boundWorld
    = Ok tt w' /\
    filter (fun e => isEvent e = true)
           (added (@gsCompletedResponseListener unit "B" pullRequest RequestCompletedFull)
                  boundWorld)
    = [EvChannelCompleted pullChannel true] /\
    channelIDMap (tr w') = ∅ /\ responseProgressMap (tr w') = ∅.
Proof.
  destruct (@completed_response_listener_cleans unit boundWorld "B" pullRequest
              RequestCompletedFull) as [_ Hhit].
  destruct (Hhit pullChannel quietEvents eq_refl eq_refl)
    as (w' & Hrun & Hev & Hrev & _ & _ & _ & Hprog & _).
  exists w'. split; [exact Hrun |]. split; [exact Hev |].
  split; [rewrite Hrev | rewrite Hprog]; reflexivity.
Defined.

Lemma process_extension_checks_direction_witness :
  @processExtension unit demoCodec pullChannel {[ ExtensionDataTransfer := [0; 42; 1; 0] ]}
                    "B" boundWorld
  = Ok (None, Some (ErrOther "received response on request channel")) boundWorld.
Proof.
  pose proof (@process_extension_checks_direction unit demoCodec boundWorld quietEvents
                pullChannel {[ ExtensionDataTransfer := [0; 42; 1; 0] ]} "B"
                demoResponseMsg eq_refl eq_refl) as Hdir.
  cbn in Hdir. destruct Hdir as [Hrun _]. exact Hrun.
Defined.

Lemma receive_request_dispatches_response_witness :
  exists result w',
    @receiveRequest unit demoCodec pausingManager "B" pushRequest receiverWorld
    = Ok result w' /\
    added (@receiveRequest unit demoCodec pausingManager "B" pushRequest) receiverWorld
    = [EvRequestReceived pullChannel pushRequest; NetSendMessage "B" declinedResponse].
Proof.
  destruct (@receive_request_dispatches_response unit demoCodec pausingManager "B"
              pushRequest receiverWorld declinedResponse (Some ErrPause) tt demoPauseable
              eq_refl)
    as (result & w' & Hrun & Hadded & _); [discriminate | reflexivity |].
  exists result, w'. split; [exact Hrun | exact Hadded].
Defined.

(** C8 as stated fails: the handler answers with a response and
    [ErrPause], the response goes over the side channel, the send fails, and
    the receiver returns that error without calling [PauseChannel]. *)
Lemma pause_skipped_counterexample :
  mgrOnRequestReceived pausingManager pullChannel pushRequest tt
  = ((Some declinedResponse, Some ErrPause), tt) /\
  @receiveRequest unit demoCodec pausingManager "B" pushRequest receiverWorld
  = Ok (Some (ErrOther "stream reset"))
       (mkWorld tt tt [EvRequestReceived pullChannel pushRequest;
                       NetSendMessage "B" declinedResponse]) /\
  TrPauseChannel pullChannel
  ∉ added (@receiveRequest unit demoCodec pausingManager "B" pushRequest) receiverWorld.
Proof.
  split; [reflexivity |]. split; [reflexivity |].
  intros Hin. vm_compute in Hin.
  apply elem_of_cons in Hin as [Heq | Hin]; [discriminate |].
  apply elem_of_cons in Hin as [Heq | Hin]; [discriminate |].
  by apply elem_of_nil in Hin.
Qed.

Lemma watermarks_ordered_witness :
  exists w' rp',
    @gsOutgoingBlockHook unit demoCodec "B" pullRequest demoBlock boundWorld = Ok tt w' /\
    responseProgressMap (tr w') !! pullChannel = Some rp' /\
    currentSent rp' = 100 /\ maximumSent rp' = 100.
Proof.
  destruct (@watermarks_ordered unit demoCodec boundWorld quietEvents "B" pullRequest
              demoBlock pullChannel (mkProgress 0 0))
    as (_ & w' & rp' & Hrun & Hmap & Hcur & Hmax & _).
  - exists "A", quietGs, tt, boundOps. reflexivity.
  - reflexivity.
  - reflexivity.
  - reflexivity.
  - exists w', rp'. split; [exact Hrun |]. split; [exact Hmap |].
    rewrite Hmax, Hcur. split; reflexivity.
Defined.


(** Three runs the tests of the adapter make. *)

(** A message resumed while the requestor had cancelled is sent with the
    next incoming request of the channel. *)
Example queued_extension_is_flushed :
  let w1 := after (@gsRequestorCancelledListener unit "B" pullRequest) boundWorld in
  let w2 := after (@ResumeChannel unit demoCodec false (Some demoResponseMsg) pullChannel) w1 in
  added (@ResumeChannel unit demoCodec false (Some demoResponseMsg) pullChannel) w1 = [] /\
  added (@gsReqRecdHook unit demoCodec "B" pullRequest) w2
  = [EvRequestReceived pullChannel (mkRequest "" [] [] "" false true 42);
     HaSendExtensionData (mkExt ExtensionDataTransfer [0; 42; 1; 0]);
     HaValidateRequest].
Proof. split; reflexivity. Qed.

(** [PauseChannel] called between [OpenChannel] and the outgoing-request
    hook waits; after the hook it pauses the request. *)
Example pause_waits_for_the_hook :
  let chid := mkChannelID "A" 42 in
  let w1 := after (@runAll unit demoCodec
                     [DoSetEventHandler quietEvents;
                      DoOpenChannel "B" chid "root" None demoRequestMsg]) freshWorld in
  let w2 := after (@gsOutgoingRequestHook unit demoCodec "B" pullRequest) w1 in
  PauseChannel false chid w1 = Blocked chid /\
  added (PauseChannel false chid) w2 = [GsPauseRequest 7].
Proof. split; reflexivity. Qed.

(** Without the requestor's cancel the responder's close goes to graphsync. *)
Example close_cancels_response :
  added (@CloseChannel unit false pullChannel) boundWorld = [GsCancelResponse "B" 7].
Proof. reflexivity. Qed.


(** * Further properties of the adapter and the receiver *)

Section Coverage.
Context {E : Type} `{Codec}.
Implicit Type w : World (Transport E) E.

(** Proves [keeps I m] for a computation put together from the primitives;
    [frame] settles what an update of the transport does to [I]. *)
Ltac keeps_by frame :=
  repeat first
    [ apply keeps_ret | apply keeps_getT | apply keeps_emit | apply keeps_call
    | apply keeps_panic | apply keeps_wait
    | apply keeps_modifyT; intros ? ?; frame
    | apply keeps_forEach; intros
    | apply keeps_bind; [| intros]
    | case_match | case_decide ].

Ltac unfold_ops :=
  unfold SetEventHandler, OpenChannel, PauseChannel, ResumeChannel, CloseChannel,
    CleanupChannel, executeGsRequest, gsOutgoingRequestHook, gsIncomingBlockHook,
    gsOutgoingBlockHook, gsReqRecdHook, gsCompletedResponseListener,
    gsRequestUpdatedHook, gsIncomingResponseHook, gsRequestorCancelledListener,
    processExtension, answerExtension, gsKeyFromChannelID, bindIncoming,
    cleanupChannel, theEvents.

(** ** The handler is set once *)

Lemma run_keeps_handler (ev : Events E) (op : Op E) :
  keeps (fun t => events t = Some ev) (run op).
Proof.
  destruct op; cbn [run];
    try (intros w a w' HI; unfold SetEventHandler;
         rewrite bind_bind, bind_getT, HI; intros [= _ <-]; exact HI);
    unfold_ops; keeps_by ltac:(assumption).
Qed.

(** X1: once [SetEventHandler] has stored a handler, no client call and no
    hook replaces or clears it: after any further run the handler is the
    same, and every later [SetEventHandler] returns [ErrHandlerAlreadySet]
    and changes nothing. *)
Theorem handler_is_set_once w ev (ops : list (Op E)) w' :
  events (tr w) = None ->
  runAll (DoSetEventHandler ev :: ops) w = Ok tt w' ->
  events (tr w') = Some ev /\
  forall ev', SetEventHandler ev' w' = Ok (Some ErrHandlerAlreadySet) w'.
Proof.
  intros Hnone Hrun.
  assert (Hset : events (tr w') = Some ev).
  { unfold runAll in Hrun. cbn [forEach run] in Hrun.
    unfold SetEventHandler in Hrun.
    rewrite !bind_bind, bind_getT, Hnone in Hrun.
    rewrite !bind_bind, bind_modifyT in Hrun.
    repeat (rewrite bind_bind, bind_emit in Hrun).
    rewrite !bind_ret in Hrun.
    eapply (keeps_forEach (fun t => events t = Some ev)); [| | exact Hrun].
    - apply run_keeps_handler.
    - reflexivity. }
  split; [exact Hset |].
  intros ev'. unfold SetEventHandler. by rewrite bind_getT, Hset.
Qed.

(** ** Running a computation by hand *)

Ltac step :=
  first [ rewrite bind_bind | rewrite bind_getT | rewrite bind_ret
        | rewrite bind_modifyT | rewrite bind_emit | rewrite bind_call
        | rewrite call_run ].

Ltac leaf :=
  unfold ret, emit, modifyT, getT, panic, wait; cbn [tr env calls];
  try discriminate.

(** ** What is queued, and for whom *)

Lemma queueOk_flag chid (t : Transport E) :
  queueOk t -> queueOk (set_requestorCancelledMap <[chid := tt]> t).
Proof.
  intros Ht c Hc. cbn. destruct (decide (chid = c)) as [->|Hne].
  - rewrite lookup_insert_eq. eauto.
  - rewrite lookup_insert_ne by done. by apply Ht.
Qed.

Lemma queueOk_unqueue chid (t : Transport E) :
  queueOk t -> queueOk (set_pendingExtensions (delete chid) t).
Proof.
  intros Ht c. cbn. destruct (decide (chid = c)) as [->|Hne].
  - rewrite lookup_delete_eq. by intros [? ?].
  - rewrite lookup_delete_ne by done. apply Ht.
Qed.

Lemma queueOk_forget chid (t : Transport E) :
  queueOk t ->
  queueOk (set_requestorCancelledMap (delete chid) (set_pendingExtensions (delete chid) t)).
Proof.
  intros Ht c. cbn. destruct (decide (chid = c)) as [->|Hne].
  - rewrite lookup_delete_eq. by intros [? ?].
  - rewrite !lookup_delete_ne by done. apply Ht.
Qed.

Lemma cleanupChannel_keeps_queue chid gsKey :
  keeps queueOk (cleanupChannel (E:=E) chid gsKey).
Proof.
  intros w a w' HI. rewrite cleanupChannel_run. intros [= _ <-].
  exact (queueOk_forget chid _ HI).
Qed.

Lemma bindIncoming_keeps_queue p request chid :
  keeps queueOk (bindIncoming (E:=E) p request chid).
Proof.
  intros w a w' HI. rewrite bindIncoming_run. intros [= _ <-]. cbn [tr].
  destruct (requestorCancelledMap (tr w) !! chid) eqn:Hflag; [| exact HI].
  intros c. cbn. destruct (decide (chid = c)) as [->|Hne].
  - rewrite lookup_delete_eq. by intros [? ?].
  - rewrite !lookup_delete_ne by done. apply HI.
Qed.

Lemma ResumeChannel_keeps_queue ctxDone msg chid :
  keeps queueOk (ResumeChannel (E:=E) ctxDone msg chid).
Proof.
  intros w a w' HI. unfold ResumeChannel, gsKeyFromChannelID.
  repeat first [ step | case_match | case_decide ]; leaf;
    try (intros [= _ <-]; exact HI).
  all: intros [= _ <-]; intros c; cbn; destruct (decide (chid = c)) as [->|Hne];
    [ intros _; eauto | rewrite lookup_insert_ne by done; apply HI ].
Qed.

Lemma run_keeps_queue (op : Op E) : keeps queueOk (run op).
Proof.
  destruct op; cbn [run];
    try (apply keeps_bind; [apply ResumeChannel_keeps_queue | intros; apply keeps_ret]);
    unfold SetEventHandler, OpenChannel, PauseChannel, CloseChannel,
      CleanupChannel, executeGsRequest, gsOutgoingRequestHook, gsIncomingBlockHook,
      gsOutgoingBlockHook, gsReqRecdHook, gsCompletedResponseListener,
      gsRequestUpdatedHook, gsIncomingResponseHook, gsRequestorCancelledListener,
      processExtension, answerExtension, gsKeyFromChannelID, theEvents;
    repeat first
      [ apply cleanupChannel_keeps_queue | apply bindIncoming_keeps_queue
      | apply keeps_ret | apply keeps_getT | apply keeps_emit | apply keeps_call
      | apply keeps_panic | apply keeps_wait
      | apply keeps_modifyT; intros ? ?;
        first [ assumption | by apply queueOk_flag ]
      | apply keeps_bind; [| intros]
      | case_match | case_decide ].
Qed.

(** X2: in every world the transport can get to, a channel has queued
    extensions only if its requestor-cancelled flag is set: [ResumeChannel]
    queues only under the flag, and the flag is cleared only together with
    the queue. *)
Theorem queue_only_under_flag w chid exts :
  reachable w ->
  pendingExtensions (tr w) !! chid = Some exts ->
  requestorCancelledMap (tr w) !! chid = Some tt.
Proof.
  intros (peerID & gs & e & ops & Hrun) Hq.
  assert (Hok : queueOk (tr w)).
  { eapply (keeps_forEach queueOk); [apply run_keeps_queue | | exact Hrun].
    intros c. cbn. rewrite lookup_empty. by intros [? ?]. }
  destruct (Hok chid) as [[] Hflag]; [eauto | exact Hflag].
Qed.


(** ** From [OpenChannel] to the first control call *)

Lemma added_run {T A} (m : M (World T E) A) (u : World T E) a t e l :
  m u = Ok a (mkWorld t e (calls u ++ l)) -> added m u = l.
Proof. intros Hrun. unfold added. rewrite Hrun. cbn. apply drop_app_length. Qed.

Lemma added_quiet {T A} (m : M (World T E) A) (u : World T E) a t e :
  m u = Ok a (mkWorld t e (calls u)) -> added m u = [].
Proof. intros Hrun. unfold added. rewrite Hrun. cbn. apply drop_all. Qed.

(** X3: [OpenChannel] with a handler set and a message that encodes leaves
    a pending-signal and a cancel handle for the channel, sends one
    graphsync request carrying the encoded message and returns at once; a
    control call made now waits.  When graphsync then calls the
    outgoing-request hook with that request and the handler accepts the
    channel, the signal is closed, the channel is bound to
    [(requestID, self)], and from then on [PauseChannel] pauses the graphsync
    request and [CloseChannel] calls the cancel handle, without a graphsync
    call of its own. *)
Theorem open_channel_then_hook w ev dataSender root stor msg data p request e' :
  let chid := mkChannelID (if IsRequest msg then peerID (tr w) else p) (TransferID_of msg) in
  events (tr w) = Some ev ->
  channelIDMap (tr w) !! chid = None ->
  ToNet msg = inr data ->
  FromNet data = inr msg ->
  rdExtensions request !! ExtensionDataTransfer = Some data ->
  OnChannelOpened ev chid (env w) = (None, e') ->
  exists w1 w2,
    OpenChannel dataSender chid root stor msg w = Ok None w1 /\
    added (OpenChannel dataSender chid root stor msg) w
    = [GsRequest dataSender root stor (mkExt ExtensionDataTransfer data);
       GoExecuteGsRequest chid] /\
    PauseChannel false chid w1 = Blocked chid /\
    gsOutgoingRequestHook p request w1 = Ok tt w2 /\
    added (gsOutgoingRequestHook p request) w1 = [EvChannelOpened chid; ClosePending chid] /\
    channelIDMap (tr w2) !! chid = Some (mkKey (rdID request) (peerID (tr w))) /\
    graphsyncRequestMap (tr w2) !! mkKey (rdID request) (peerID (tr w)) = Some chid /\
    pending (tr w2) !! chid = None /\
    (forall ctxDone,
        added (PauseChannel ctxDone chid) w2 = [GsPauseRequest (rdID request)]) /\
    (forall ctxDone,
        CloseChannel ctxDone chid w2
        = Ok None (mkWorld (tr w2) (env w2) (calls w2 ++ [CancelContext chid]))).
Proof.
  intros chid Hev Hfree Henc Hdec Hext Hacc.
  set (gsKey := mkKey (rdID request) (peerID (tr w))).
  set (w1 := mkWorld (set_contextCancelMap <[chid := tt]> (set_pending <[chid := tt]> (tr w)))
                     (env w)
                     (calls w ++ [GsRequest dataSender root stor (mkExt ExtensionDataTransfer data);
                                  GoExecuteGsRequest chid])).
  set (w2 := mkWorld (set_pending (delete chid)
                        (set_channelIDMap <[chid := gsKey]>
                           (set_graphsyncRequestMap <[gsKey := chid]> (tr w1))))
                     e' (calls w1 ++ [EvChannelOpened chid; ClosePending chid])).
  assert (Hopen : OpenChannel dataSender chid root stor msg w = Ok None w1).
  { unfold OpenChannel, ToExtensionData. rewrite bind_getT, Hev, Henc.
    repeat step. unfold ret. subst w1. cbn. by rewrite <- app_assoc. }
  assert (Hhook : gsOutgoingRequestHook p request w1 = Ok tt w2).
  { unfold gsOutgoingRequestHook, GetTransferData. rewrite Hext, Hdec.
    rewrite bind_getT. cbn [tr w1 peerID set_contextCancelMap set_pending].
    fold chid. rewrite (bind_theEvents ev) by exact Hev.
    rewrite bind_call. cbn [env w1]. rewrite Hacc. cbn [fst snd].
    repeat step. subst w1. cbn.
    rewrite lookup_insert_eq. subst w2. cbn.
    by rewrite <- !app_assoc. }
  exists w1, w2.
  split; [exact Hopen |].
  split; [exact (added_run _ _ _ _ _ _ Hopen) |].
  split.
  { unfold PauseChannel, gsKeyFromChannelID. rewrite bind_getT.
    cbn [tr w1 events set_contextCancelMap set_pending]. rewrite Hev.
    rewrite bind_bind, bind_getT. cbn [tr w1 channelIDMap pending
                                        set_contextCancelMap set_pending].
    by rewrite Hfree, lookup_insert_eq. }
  split; [exact Hhook |].
  split; [exact (added_run _ _ _ _ _ _ Hhook) |].
  split; [apply lookup_insert_eq |].
  split; [apply lookup_insert_eq |].
  split; [apply lookup_delete_eq |].
  split.
  - intros ctxDone. eapply added_run.
    unfold PauseChannel, gsKeyFromChannelID. rewrite bind_getT.
    change (events (tr w2)) with (events (tr w)). rewrite Hev.
    rewrite bind_bind, bind_getT.
    change (channelIDMap (tr w2)) with (<[chid := gsKey]> (channelIDMap (tr w))).
    rewrite lookup_insert_eq, bind_ret.
    rewrite decide_True by reflexivity. rewrite call_run. reflexivity.
  - intros ctxDone.
    unfold CloseChannel, gsKeyFromChannelID. rewrite bind_getT.
    change (events (tr w2)) with (events (tr w)). rewrite Hev.
    rewrite bind_bind, bind_getT.
    change (channelIDMap (tr w2)) with (<[chid := gsKey]> (channelIDMap (tr w))).
    rewrite lookup_insert_eq, bind_ret.
    rewrite decide_True by reflexivity. rewrite bind_getT.
    change (contextCancelMap (tr w2)) with (<[chid := tt]> (contextCancelMap (tr w))).
    rewrite lookup_insert_eq. reflexivity.
Qed.


(** ** The end of an outgoing request *)

Lemma executeGsRequest_run w ev ctxDone chid errs :
  let lastError := consumeResponses ctxDone errs in
  let success := bool_decide (lastError = None) in
  let cancelled := bool_decide (lastError = Some RequestCancelledErr) in
  events (tr w) = Some ev ->
  exists l,
    executeGsRequest ctxDone chid errs w
    = Ok tt (mkWorld
               ((if channelIDMap (tr w) !! chid is Some gsKey
                 then set_graphsyncRequestMap (delete gsKey) else id)
                  (set_pending (delete chid)
                     (set_contextCancelMap (delete chid)
                        (set_channelIDMap (delete chid) (tr w)))))
               (if cancelled then env w else (OnChannelCompleted ev chid success (env w)).2)
               (calls w ++ l)) /\
    filter (fun e => isEvent e = true) l
    = (if cancelled then [] else [EvChannelCompleted chid success]).
Proof.
  intros lastError success cancelled Hev. subst cancelled.
  unfold executeGsRequest. fold lastError.
  destruct (decide (lastError = Some RequestCancelledErr)) as [Hc|Hc].
  - rewrite (bool_decide_eq_true_2 (lastError = Some RequestCancelledErr)) by exact Hc.
    exists []. rewrite bind_ret, bind_getT. repeat step.
    rewrite app_nil_r. split; [| reflexivity].
    by destruct (channelIDMap (tr w) !! chid).
  - rewrite (bool_decide_eq_false_2 (lastError = Some RequestCancelledErr)) by exact Hc.
    rewrite bind_bind, (bind_theEvents ev) by exact Hev.
    rewrite bind_bind, bind_call. fold lastError success.
    destruct (OnChannelCompleted ev chid success (env w)) as [[e|] e1]; cbn [fst snd].
    + exists [EvChannelCompleted chid success; LogError e].
      repeat step. cbn [tr]. split; [| reflexivity].
      destruct (channelIDMap (tr w) !! chid); cbn; by rewrite <- app_assoc.
    + exists [EvChannelCompleted chid success].
      repeat step. cbn [tr]. split; [| reflexivity].
      by destruct (channelIDMap (tr w) !! chid).
Qed.


(** X5: on the requester side [CloseChannel] only calls the stored cancel
    handle: it makes no graphsync call and removes nothing.  When the error
    stream then ends with graphsync's request-cancelled error, no completion
    is raised, the channel is unbound, and further control calls on it fail
    with [ErrChannelNotFound]. *)
Theorem requester_close_is_silent w ev chid gsKey errs :
  events (tr w) = Some ev ->
  channelIDMap (tr w) !! chid = Some gsKey ->
  p gsKey = peerID (tr w) ->
  contextCancelMap (tr w) !! chid = Some tt ->
  let w1 := mkWorld (tr w) (env w) (calls w ++ [CancelContext chid]) in
  (forall ctxDone, CloseChannel ctxDone chid w = Ok None w1) /\
  exists w2,
    executeGsRequest false chid (errs ++ [RequestCancelledErr]) w1 = Ok tt w2 /\
    added (executeGsRequest false chid (errs ++ [RequestCancelledErr])) w1 = [] /\
    env w2 = env w /\
    graphsyncRequestMap (tr w2) !! gsKey = None /\
    (forall ctxDone,
        PauseChannel ctxDone chid w2 = Ok (Some ErrChannelNotFound) w2 /\
        (forall msg, ResumeChannel ctxDone msg chid w2 = Ok (Some ErrChannelNotFound) w2) /\
        CloseChannel ctxDone chid w2 = Ok (Some ErrChannelNotFound) w2).
Proof.
  intros Hev Hrev Hself Hcancel w1. split.
  - intros ctxDone. unfold CloseChannel, gsKeyFromChannelID.
    rewrite bind_getT, Hev, bind_bind, bind_getT, Hrev, bind_ret.
    rewrite decide_True by exact Hself. by rewrite bind_getT, Hcancel.
  - destruct (executeGsRequest_run w1 ev false chid (errs ++ [RequestCancelledErr]) Hev)
      as (l & Hrun & Hl).
    unfold consumeResponses in Hrun, Hl. rewrite last_snoc in Hrun, Hl.
    rewrite bool_decide_eq_true_2 in Hrun, Hl by reflexivity.
    cbn [tr env w1] in Hrun. rewrite Hrev in Hrun.
    eexists. split; [exact Hrun |].
    assert (Hquiet : l = []).
    { revert Hrun. unfold executeGsRequest, consumeResponses. rewrite last_snoc.
      rewrite decide_True by reflexivity. repeat step. cbn [tr env calls w1].
      rewrite Hrev. unfold modifyT. cbn [tr env calls].
      intros [= Heq]. rewrite <- (app_nil_r (calls w ++ [CancelContext chid])) in Heq at 1.
      by apply app_inv_head in Heq. }
    split; [rewrite (added_run _ _ _ _ _ _ Hrun); exact Hquiet |].
    split; [reflexivity |].
    split; [cbn; apply lookup_delete_eq |].
    intros ctxDone.
    edestruct (control_calls_channel_not_found
                 (mkWorld (set_graphsyncRequestMap (delete gsKey)
                             (set_pending (delete chid)
                                (set_contextCancelMap (delete chid)
                                   (set_channelIDMap (delete chid) (tr w)))))
                          (env w) (calls w1 ++ l)) ev chid)
      as (_ & Hp & Hr & Hc); [exact Hev | apply lookup_delete_eq | apply lookup_delete_eq |].
    split; [apply Hp | split; [intros; apply Hr | apply Hc]].
Qed.


(** ** Blocks on an opened channel *)

(** How a hook answers the error of a data handler. *)
Lemma gsIncomingBlockHook_run w ev p response block chid :
  let link := BlockLink block in
  let size := BlockSize block in
  events (tr w) = Some ev ->
  graphsyncRequestMap (tr w) !! mkKey (rsRequestID response) (peerID (tr w)) = Some chid ->
  gsIncomingBlockHook p response block w
  = Ok tt (mkWorld (tr w) (OnDataReceived ev chid link size (env w)).2
             (calls w ++ EvDataReceived chid link size ::
                match (OnDataReceived ev chid link size (env w)).1 with
                | None => []
                | Some e => if decide (e = ErrPause) then [HaPauseRequest]
                            else [HaTerminateWithError (Some e)]
                end)).
Proof.
  intros link size Hev Hkey. unfold gsIncomingBlockHook.
  rewrite bind_getT, Hkey, (bind_theEvents ev) by exact Hev.
  rewrite bind_call. fold link size.
  destruct (OnDataReceived ev chid link size (env w)) as [[e|] e1]; cbn [fst snd].
  - destruct (decide (e = ErrPause)) as [->|Hne].
    + rewrite decide_False by (intros [_ Hn]; by apply Hn).
      rewrite decide_True by reflexivity. unfold emit. cbn. by rewrite <- app_assoc.
    + rewrite decide_True by (split; congruence).
      unfold emit. cbn. by rewrite <- app_assoc.
  - rewrite decide_False by (intros [Hn _]; by apply Hn).
    rewrite decide_False by discriminate. reflexivity.
Qed.

(** X6: once the outgoing-request hook has opened a channel (the handler
    accepted it), every block that arrives for a response to that graphsync
    request is reported with [OnDataReceived] for the very channel that
    [OnChannelOpened] was raised for, whichever peer graphsync names; the
    hook changes nothing in the transport, asks graphsync to pause the
    request on [ErrPause], terminates it on any other error and otherwise
    lets it proceed. *)
Theorem opened_channel_receives_blocks w ev p request msg e1 p' response block :
  let chid := mkChannelID (if IsRequest msg then peerID (tr w) else p) (TransferID_of msg) in
  let link := BlockLink block in
  let size := BlockSize block in
  events (tr w) = Some ev ->
  (GetTransferData (rdExtensions request)).1 = Some msg ->
  OnChannelOpened ev chid (env w) = (None, e1) ->
  rsRequestID response = rdID request ->
  exists w1 rest,
    gsOutgoingRequestHook p request w = Ok tt w1 /\
    calls w1 = calls w ++ EvChannelOpened chid :: rest /\
    gsIncomingBlockHook p' response block w1
    = Ok tt (mkWorld (tr w1) (OnDataReceived ev chid link size e1).2
               (calls w1 ++ EvDataReceived chid link size ::
                  match (OnDataReceived ev chid link size e1).1 with
                  | None => []
                  | Some e => if decide (e = ErrPause) then [HaPauseRequest]
                              else [HaTerminateWithError (Some e)]
                  end)).
Proof.
  intros chid link size Hev Hmsg Hopen Hid.
  set (gsKey := mkKey (rdID request) (peerID (tr w))).
  set (t1 := set_channelIDMap <[chid := gsKey]>
               (set_graphsyncRequestMap <[gsKey := chid]> (tr w))).
  assert (Hrun : exists w1 rest,
             gsOutgoingRequestHook p request w = Ok tt w1 /\
             calls w1 = calls w ++ EvChannelOpened chid :: rest /\
             env w1 = e1 /\ events (tr w1) = Some ev /\ peerID (tr w1) = peerID (tr w) /\
             graphsyncRequestMap (tr w1) !! gsKey = Some chid).
  { unfold gsOutgoingRequestHook.
    destruct (GetTransferData (rdExtensions request)) as [m ?]; cbn in Hmsg; subst m.
    rewrite bind_getT. fold chid. rewrite (bind_theEvents ev) by exact Hev.
    rewrite bind_call, Hopen. cbn [fst snd]. repeat step. cbn [tr].
    fold gsKey. fold t1.
    destruct (pending t1 !! chid) eqn:Hpend.
    - repeat step. unfold modifyT. eexists _, [_]. split; [reflexivity |]. cbn.
      rewrite <- app_assoc. repeat split; try done. apply lookup_insert_eq.
    - unfold ret. eexists _, []. split; [reflexivity |]. cbn.
      repeat split; try done. apply lookup_insert_eq. }
  destruct Hrun as (w1 & rest & Hrun & Hcalls & Henv & Hev1 & Hself & Hkey).
  exists w1, rest. split; [exact Hrun |]. split; [exact Hcalls |].
  subst link size. rewrite <- Henv.
  apply gsIncomingBlockHook_run; [exact Hev1 |].
  by rewrite Hid, Hself.
Qed.

(** ** Blocks on an accepted request *)

Lemma gsOutgoingBlockHook_report w ev p request block chid rp :
  let cur := (currentSent rp + BlockSize block) mod uint64_mod in
  let r := OnDataSent ev chid (BlockLink block) (BlockSize block) (env w) in
  events (tr w) = Some ev ->
  graphsyncRequestMap (tr w) !! mkKey (rdID request) p = Some chid ->
  responseProgressMap (tr w) !! chid = Some rp ->
  maximumSent rp < cur ->
  exists t',
    gsOutgoingBlockHook p request block w
    = Ok tt (mkWorld t' r.2
               (calls w ++ EvDataSent chid (BlockLink block) (BlockSize block) ::
                  (if decide (r.1.2 <> None /\ r.1.2 <> Some ErrPause)
                   then [HaTerminateWithError r.1.2]
                   else (if decide (r.1.2 = Some ErrPause) then [HaPauseResponse] else [])
                        ++ match r.1.1 with
                           | None => []
                           | Some m =>
                               match ToExtensionData m with
                               | inl err' => [HaTerminateWithError (Some err')]
                               | inr ext => [HaSendExtensionData ext]
                               end
                           end))).
Proof.
  intros cur r Hev Hkey Hrp Hgt. unfold gsOutgoingBlockHook.
  rewrite bind_getT, Hkey, Hrp. fold cur. rewrite bind_modifyT.
  rewrite decide_False by lia.
  rewrite bind_modifyT, (bind_theEvents ev) by exact Hev.
  rewrite bind_call. cbn [tr env calls]. fold r.
  destruct r as [[msg err] e1]. cbn [fst snd].
  destruct (decide (err <> None /\ err <> Some ErrPause)).
  { eexists. unfold emit. cbn. by rewrite <- app_assoc. }
  destruct (decide (err = Some ErrPause)), msg as [m|];
    [destruct (ToExtensionData m) | | destruct (ToExtensionData m) |];
    eexists; repeat step; unfold emit, ret; cbn; by rewrite <- ?app_assoc.
Qed.

(** X7: when a block takes [currentSent] above [maximumSent], the
    outgoing-block hook reports it and then follows the handler's answer.  An
    error other than [ErrPause] terminates the response, and a message
    returned with it is not sent.  Otherwise the response is paused first on
    [ErrPause], and then the message, if there is one, is sent as extension
    data; when it does not encode the response is terminated with the
    encoder's error instead. *)
Theorem outgoing_block_hook_follows_handler w ev p request block chid rp msg err e1 :
  let link := BlockLink block in
  let size := BlockSize block in
  events (tr w) = Some ev ->
  graphsyncRequestMap (tr w) !! mkKey (rdID request) p = Some chid ->
  responseProgressMap (tr w) !! chid = Some rp ->
  maximumSent rp < (currentSent rp + size) mod uint64_mod ->
  OnDataSent ev chid link size (env w) = ((msg, err), e1) ->
  added (gsOutgoingBlockHook p request block) w
  = EvDataSent chid link size ::
      match err, msg with
      | Some e, _ =>
          if decide (e = ErrPause) then
            HaPauseResponse ::
              match msg with
              | None => []
              | Some m =>
                  match ToExtensionData m with
                  | inl err' => [HaTerminateWithError (Some err')]
                  | inr ext => [HaSendExtensionData ext]
                  end
              end
          else [HaTerminateWithError (Some e)]
      | None, None => []
      | None, Some m =>
          match ToExtensionData m with
          | inl err' => [HaTerminateWithError (Some err')]
          | inr ext => [HaSendExtensionData ext]
          end
      end.
Proof.
  intros link size Hev Hkey Hrp Hgt Hsent.
  destruct (gsOutgoingBlockHook_report w ev p request block chid rp Hev Hkey Hrp Hgt)
    as (t' & Hrun).
  rewrite (added_run _ _ _ _ _ _ Hrun). fold link size. rewrite Hsent. cbn [fst snd].
  f_equal. destruct err as [e|].
  - destruct (decide (e = ErrPause)) as [->|Hne].
    + rewrite decide_False by (intros [_ Hn]; by apply Hn).
      by rewrite decide_True.
    + by rewrite decide_True by (split; congruence).
  - rewrite decide_False by (intros [Hn _]; by apply Hn).
    rewrite decide_False by discriminate. by destruct msg.
Qed.

(** X8: the outgoing-block hook reads the progress record of the channel
    without a nil check.  When two graphsync requests of a peer are bound to
    the same channel (a request restarted after a cancel) and the
    completed-response listener fires for one of them, it removes the
    progress record of the channel but leaves the other key bound; the next
    block sent on the other request makes the hook panic. *)
Theorem completion_of_one_key_breaks_the_other w ev p request1 request2 status block chid :
  events (tr w) = Some ev ->
  graphsyncRequestMap (tr w) !! mkKey (rdID request1) p = Some chid ->
  graphsyncRequestMap (tr w) !! mkKey (rdID request2) p = Some chid ->
  rdID request1 <> rdID request2 ->
  exists w1,
    gsCompletedResponseListener p request1 status w = Ok tt w1 /\
    graphsyncRequestMap (tr w1) !! mkKey (rdID request2) p = Some chid /\
    responseProgressMap (tr w1) !! chid = None /\
    gsOutgoingBlockHook p request2 block w1 = Panic.
Proof.
  intros Hev Hk1 Hk2 Hne.
  assert (Hrun : exists w1,
             gsCompletedResponseListener p request1 status w = Ok tt w1 /\
             graphsyncRequestMap (tr w1)
             = delete (mkKey (rdID request1) p) (graphsyncRequestMap (tr w)) /\
             responseProgressMap (tr w1) = delete chid (responseProgressMap (tr w))).
  { unfold gsCompletedResponseListener. rewrite bind_getT, Hk1.
    destruct (decide (status = RequestCancelled)).
    - rewrite bind_ret, cleanupChannel_run. eexists. split; [reflexivity |]. done.
    - rewrite !bind_bind, (bind_theEvents ev) by exact Hev.
      rewrite bind_bind, bind_call.
      destruct (OnChannelCompleted ev chid _ (env w)) as [[e|] e1]; cbn [fst snd];
        repeat step; rewrite cleanupChannel_run; eexists; (split; [reflexivity |]); done. }
  destruct Hrun as (w1 & Hrun & Hfwd & Hprog).
  assert (Hk2' : graphsyncRequestMap (tr w1) !! mkKey (rdID request2) p = Some chid).
  { rewrite Hfwd, lookup_delete_ne; [exact Hk2 | congruence]. }
  assert (Hgone : responseProgressMap (tr w1) !! chid = None)
    by (rewrite Hprog; apply lookup_delete_eq).
  exists w1. split; [exact Hrun |]. split; [exact Hk2' |]. split; [exact Hgone |].
  unfold gsOutgoingBlockHook. by rewrite bind_getT, Hk2', Hgone.
Qed.

(** ** The incoming-request hook, after the handler has answered *)

Lemma gsReqRecdHook_run w ev p request msg evt rm err e1 :
  let chid := mkChannelID (if IsRequest msg then p else peerID (tr w)) (TransferID_of msg) in
  GetTransferData (rdExtensions request) = (Some msg, None) ->
  events (tr w) = Some ev ->
  answered ev chid msg (env w) evt rm err e1 ->
  gsReqRecdHook p request w
  = (let encoded : option (error + ExtensionData) :=
       match rm with
       | None => None
       | Some r => Some (ToExtensionData (MsgResponse r))
       end in
     match encoded with
     | Some (inl _) => emit (HaTerminateWithError err)
     | _ =>
         match encoded with
         | Some (inr ext) => emit (HaSendExtensionData ext)
         | _ => ret tt
         end ;;;
         if decide (err <> None /\ err <> Some ErrPause) then
           emit (HaTerminateWithError err)
         else
           (if decide (err = Some ErrPause) then emit HaPauseResponse else ret tt) ;;;
           bindIncoming p request chid ;;;
           emit HaValidateRequest
     end)%go (mkWorld (tr w) e1 (calls w ++ [evt])).
Proof.
  intros chid Hdec Hev Hans. unfold gsReqRecdHook. rewrite Hdec, bind_getT.
  destruct msg as [rq|rs]; cbn [IsRequest TransferID_of answered] in *;
    rewrite bind_bind, (bind_theEvents ev) by exact Hev;
    rewrite bind_bind, bind_call, bind_ret.
  - destruct Hans as [Hans ->]. fold chid. by rewrite Hans.
  - destruct Hans as (Hans & -> & ->). fold chid. by rewrite Hans.
Qed.

Lemma gsReqRecdHook_accepted w ev p request msg evt rm err e1 sent :
  let chid := mkChannelID (if IsRequest msg then p else peerID (tr w)) (TransferID_of msg) in
  let gsKey := mkKey (rdID request) p in
  let flag := requestorCancelledMap (tr w) !! chid in
  let queued := if flag is Some _ then default [] (pendingExtensions (tr w) !! chid) else [] in
  GetTransferData (rdExtensions request) = (Some msg, None) ->
  events (tr w) = Some ev ->
  answered ev chid msg (env w) evt rm err e1 ->
  encodes rm sent ->
  err = None \/ err = Some ErrPause ->
  exists w',
             gsReqRecdHook p request w = Ok tt w' /\
             calls w' = calls w ++ evt :: sent
                          ++ (if err is Some _ then [HaPauseResponse] else [])
                          ++ map HaSendExtensionData queued ++ [HaValidateRequest] /\
             tr w'
             = set_responseProgressMap
                 <[chid := mkProgress 0 (if responseProgressMap (tr w) !! chid is Some rp
                                         then maximumSent rp else 0)]>
                 (set_channelIDMap <[chid := gsKey]>
                    (set_graphsyncRequestMap <[gsKey := chid]>
                       (if flag is Some _
                        then set_pendingExtensions (delete chid)
                               (set_requestorCancelledMap (delete chid) (tr w))
                        else tr w))).
Proof.
  intros chid gsKey flag queued Hdec Hev Hans Henc Herr.
  pose proof (gsReqRecdHook_run w ev p request msg evt rm err e1 Hdec Hev Hans) as Hrun.
  fold chid in Hrun. cbn zeta in Hrun.
  assert (Hgo : ~ (err <> None /\ err <> Some ErrPause))
    by (intros [? ?]; destruct Herr; done).
  rewrite Hrun. clear Hrun. subst queued flag.
    destruct rm as [r|]; cbn [encodes] in Henc.
    - destruct Henc as (ext & Henc & ->). rewrite Henc. rewrite bind_emit.
      rewrite decide_False by exact Hgo.
      destruct Herr as [->| ->].
      + rewrite decide_False by discriminate. rewrite bind_ret.
        unfold bind. rewrite bindIncoming_run. unfold emit. cbn.
        eexists. split; [reflexivity |]. cbn. split; [| reflexivity].
        rewrite <- !app_assoc. reflexivity.
      + rewrite decide_True by reflexivity. rewrite bind_emit.
        unfold bind. rewrite bindIncoming_run. unfold emit. cbn.
        eexists. split; [reflexivity |]. cbn. split; [| reflexivity].
        rewrite <- !app_assoc. reflexivity.
    - subst sent. rewrite bind_ret.
      rewrite decide_False by exact Hgo.
      destruct Herr as [->| ->].
      + rewrite decide_False by discriminate. rewrite bind_ret.
        unfold bind. rewrite bindIncoming_run. unfold emit. cbn.
        eexists. split; [reflexivity |]. cbn. split; [| reflexivity].
        rewrite <- !app_assoc. reflexivity.
      + rewrite decide_True by reflexivity. rewrite bind_emit.
        unfold bind. rewrite bindIncoming_run. unfold emit. cbn.
        eexists. split; [reflexivity |]. cbn. split; [| reflexivity].
        rewrite <- !app_assoc. reflexivity.
Qed.

(** X9: when the handler answers an incoming request with no error or with
    [ErrPause] (and its response, if any, encodes), the hook sends the
    response, pauses the response on [ErrPause], sends what was queued while
    the requestor had cancelled, in the order it was queued, and validates
    the request, in this order.  It leaves the request bound to the channel in
    both maps, the cancelled flag and the queue of the channel cleared, and
    [currentSent] at 0 with [maximumSent] kept. *)
Theorem incoming_request_hook_accepts w ev p request msg evt rm err e1 sent :
  let chid := mkChannelID (if IsRequest msg then p else peerID (tr w)) (TransferID_of msg) in
  let gsKey := mkKey (rdID request) p in
  let flag := requestorCancelledMap (tr w) !! chid in
  let queued := if flag is Some _ then default [] (pendingExtensions (tr w) !! chid) else [] in
  GetTransferData (rdExtensions request) = (Some msg, None) ->
  events (tr w) = Some ev ->
  answered ev chid msg (env w) evt rm err e1 ->
  encodes rm sent ->
  err = None \/ err = Some ErrPause ->
  exists w',
    gsReqRecdHook p request w = Ok tt w' /\
    added (gsReqRecdHook p request) w
    = evt :: sent ++ (if err is Some _ then [HaPauseResponse] else [])
          ++ map HaSendExtensionData queued ++ [HaValidateRequest] /\
    graphsyncRequestMap (tr w') !! gsKey = Some chid /\
    channelIDMap (tr w') !! chid = Some gsKey /\
    requestorCancelledMap (tr w') !! chid = None /\
    (is_Some flag -> pendingExtensions (tr w') !! chid = None) /\
    responseProgressMap (tr w') !! chid
    = Some (mkProgress 0 (if responseProgressMap (tr w) !! chid is Some rp
                          then maximumSent rp else 0)).
Proof.
  intros chid gsKey flag queued Hdec Hev Hans Henc Herr.
  destruct (gsReqRecdHook_accepted w ev p request msg evt rm err e1 sent
              Hdec Hev Hans Henc Herr) as (w' & Hrun' & Hcalls & Htr).
  fold chid gsKey flag queued in Hcalls, Htr.
  exists w'. split; [exact Hrun' |].
  split; [unfold added; rewrite Hrun', Hcalls; apply drop_app_length |].
  subst flag. clearbody chid gsKey. rewrite Htr. cbn.
  split; [apply lookup_insert_eq |]. split; [apply lookup_insert_eq |].
  split; [| split; [| apply lookup_insert_eq]].
  - destruct (requestorCancelledMap (tr w) !! chid) eqn:Hflag; cbn;
      [apply lookup_delete_eq | exact Hflag].
  - intros [? Hflag]. rewrite Hflag. cbn. apply lookup_delete_eq.
Qed.

(** X10: when the handler answers an incoming request with an error other
    than [ErrPause], the hook still sends the handler's response and then
    terminates the request with that error.  When the response does not
    encode, the hook terminates the request with the handler's error (which
    may be none), not with the encoder's.  In both cases nothing is bound and
    the request is not validated: the transport is as before. *)
Theorem incoming_request_hook_rejects w ev p request msg evt rm err e1 :
  let chid := mkChannelID (if IsRequest msg then p else peerID (tr w)) (TransferID_of msg) in
  GetTransferData (rdExtensions request) = (Some msg, None) ->
  events (tr w) = Some ev ->
  answered ev chid msg (env w) evt rm err e1 ->
  (forall sent e,
      encodes rm sent -> err = Some e -> e <> ErrPause ->
      gsReqRecdHook p request w
      = Ok tt (mkWorld (tr w) e1 (calls w ++ evt :: sent ++ [HaTerminateWithError (Some e)]))) /\
  (forall r encErr,
      rm = Some r -> ToExtensionData (MsgResponse r) = inl encErr ->
      gsReqRecdHook p request w
      = Ok tt (mkWorld (tr w) e1 (calls w ++ [evt; HaTerminateWithError err]))).
Proof.
  intros chid Hdec Hev Hans.
  pose proof (gsReqRecdHook_run w ev p request msg evt rm err e1 Hdec Hev Hans) as Hrun.
  fold chid in Hrun. cbn zeta in Hrun.
  split.
  - intros sent e Henc -> Hne. rewrite Hrun.
    destruct rm as [r|]; cbn [encodes] in Henc.
    + destruct Henc as (ext & Henc & ->). rewrite Henc, bind_emit.
      rewrite decide_True by (split; congruence).
      unfold emit. cbn. by rewrite <- !app_assoc.
    + subst sent. rewrite bind_ret.
      rewrite decide_True by (split; congruence).
      unfold emit. cbn. by rewrite <- !app_assoc.
  - intros r encErr -> Henc. rewrite Hrun, Henc.
    unfold emit. cbn. by rewrite <- !app_assoc.
Qed.


(** ** Cancel, resume, restart *)

(** X11: on a responder's channel whose requestor has cancelled, two
    messages resumed one after the other reach graphsync only with the next
    incoming request of that channel: the hook sends what was queued before,
    then the first and then the second message, and validates.  Afterwards
    the flag is off, and [PauseChannel] pauses the response of the new
    request on graphsync again. *)
Theorem resumed_messages_follow_the_restart
    w ev chid gsKey m1 ext1 m2 ext2 p' request msg evt e1 :
  let queued := default [] (pendingExtensions (tr w) !! chid) in
  events (tr w) = Some ev ->
  channelIDMap (tr w) !! chid = Some gsKey ->
  p gsKey <> peerID (tr w) ->
  requestorCancelledMap (tr w) !! chid = Some tt ->
  ToExtensionData m1 = inr ext1 ->
  ToExtensionData m2 = inr ext2 ->
  GetTransferData (rdExtensions request) = (Some msg, None) ->
  chid = mkChannelID (if IsRequest msg then p' else peerID (tr w)) (TransferID_of msg) ->
  p' <> peerID (tr w) ->
  answered ev chid msg (env w) evt None None e1 ->
  exists w1 w2 w3,
    (forall ctxDone, ResumeChannel ctxDone (Some m1) chid w = Ok None w1) /\
    (forall ctxDone, ResumeChannel ctxDone (Some m2) chid w1 = Ok None w2) /\
    calls w2 = calls w /\
    gsReqRecdHook p' request w2 = Ok tt w3 /\
    added (gsReqRecdHook p' request) w2
    = evt :: map HaSendExtensionData (queued ++ [ext1; ext2]) ++ [HaValidateRequest] /\
    requestorCancelledMap (tr w3) !! chid = None /\
    pendingExtensions (tr w3) !! chid = None /\
    (forall ctxDone,
        added (PauseChannel ctxDone chid) w3 = [GsPauseResponse p' (rdID request)]).
Proof.
  intros queued Hev Hrev Hne Hflag Henc1 Henc2 Hdec Hchid Hne' Hans.
  set (q1 := fun m : gmap ChannelID (list ExtensionData) =>
               <[chid := default [] (m !! chid) ++ [ext1]]> m).
  set (q2 := fun m : gmap ChannelID (list ExtensionData) =>
               <[chid := default [] (m !! chid) ++ [ext2]]> m).
  set (w1 := mkWorld (set_pendingExtensions q1 (tr w)) (env w) (calls w)).
  set (w2 := mkWorld (set_pendingExtensions q2 (tr w1)) (env w) (calls w)).
  destruct (responder_calls_when_cancelled w ev chid gsKey Hev Hrev Hne Hflag)
    as (_ & _ & Hres1 & _).
  destruct (responder_calls_when_cancelled w1 ev chid gsKey Hev Hrev Hne Hflag)
    as (_ & _ & Hres2 & _).
  assert (Hq2 : pendingExtensions (tr w2) !! chid = Some ((queued ++ [ext1]) ++ [ext2])).
  { cbn. unfold q2, q1. rewrite lookup_insert_eq. cbn. by rewrite lookup_insert_eq. }
  assert (Hans2 : answered ev (mkChannelID (if IsRequest msg then p' else peerID (tr w2))
                                           (TransferID_of msg))
                           msg (env w2) evt None None e1)
    by (rewrite Hchid in Hans; exact Hans).
  destruct (gsReqRecdHook_accepted w2 ev p' request msg evt None None e1 []
              Hdec Hev Hans2 eq_refl (or_introl eq_refl))
    as (w3 & Hrun3 & Hcalls3 & Htr3).
  change (peerID (tr w2)) with (peerID (tr w)) in Hcalls3, Htr3.
  rewrite <- Hchid in Hcalls3, Htr3.
  change (requestorCancelledMap (tr w2)) with (requestorCancelledMap (tr w)) in Hcalls3, Htr3.
  rewrite Hflag, Hq2 in Hcalls3. rewrite Hflag in Htr3.
  exists w1, w2, w3.
  split; [intros; by apply Hres1 |].
  split; [intros; by apply Hres2 |].
  split; [reflexivity |].
  split; [exact Hrun3 |].
  split.
  { unfold added. rewrite Hrun3, Hcalls3. cbn [default app].
    rewrite <- (app_assoc queued). apply drop_app_length. }
  rewrite Htr3. cbn [requestorCancelledMap pendingExtensions set_responseProgressMap
                      set_channelIDMap set_graphsyncRequestMap set_pendingExtensions
                      set_requestorCancelledMap].
  split; [apply lookup_delete_eq |]. split; [apply lookup_delete_eq |].
  intros ctxDone. eapply added_run.
  unfold PauseChannel, gsKeyFromChannelID. rewrite bind_getT, Htr3.
  cbn [events set_responseProgressMap set_channelIDMap set_graphsyncRequestMap
       set_pendingExtensions set_requestorCancelledMap tr w2 w1].
  rewrite Hev, bind_bind, bind_getT, Htr3.
  cbn [channelIDMap set_responseProgressMap set_channelIDMap tr].
  rewrite lookup_insert_eq, bind_ret.
  cbn [p peerID set_responseProgressMap set_channelIDMap set_graphsyncRequestMap
       set_pendingExtensions set_requestorCancelledMap tr w2 w1].
  rewrite decide_False by exact Hne'.
  rewrite bind_getT, Htr3.
  cbn [requestorCancelledMap set_responseProgressMap set_channelIDMap
       set_graphsyncRequestMap set_pendingExtensions set_requestorCancelledMap tr].
  rewrite lookup_delete_eq, call_run.
  cbn [gs requestID p set_responseProgressMap set_channelIDMap set_graphsyncRequestMap
       set_pendingExtensions set_requestorCancelledMap tr w2 w1].
  reflexivity.
Qed.


(** ** The requestor-cancelled listener and [CleanupChannel] *)

(** X12: the requestor-cancelled listener does nothing for a key it does
    not know; for a bound key it sets the flag of the channel and nothing
    else: it calls nothing, removes nothing, and firing again for the same
    request changes nothing more. *)
Theorem requestor_cancelled_listener_only_flags w p request :
  let gsKey := mkKey (rdID request) p in
  (graphsyncRequestMap (tr w) !! gsKey = None ->
   gsRequestorCancelledListener p request w = Ok tt w) /\
  (forall chid,
      graphsyncRequestMap (tr w) !! gsKey = Some chid ->
      let w1 := mkWorld (set_requestorCancelledMap <[chid := tt]> (tr w)) (env w) (calls w) in
      gsRequestorCancelledListener p request w = Ok tt w1 /\
      gsRequestorCancelledListener p request w1 = Ok tt w1).
Proof.
  intros gsKey. split.
  - intros Hmiss. unfold gsRequestorCancelledListener. rewrite bind_getT.
    fold gsKey. by rewrite Hmiss.
  - intros chid Hhit w1. unfold gsRequestorCancelledListener. rewrite !bind_getT.
    fold gsKey. cbn [tr w1 graphsyncRequestMap set_requestorCancelledMap].
    rewrite Hhit. split; [reflexivity |].
    unfold modifyT, w1. cbn. unfold set_requestorCancelledMap. cbn.
    by rewrite insert_insert_eq.
Qed.

(** X13: [CleanupChannel] looks the channel up in the reverse map.  For a
    channel that is bound it removes every per-channel entry and the forward
    entry of its key, touches no other channel and no other key, and calls
    nothing.  For a channel without a reverse binding it does nothing at all,
    whatever else the transport holds for it (a pending-signal, a flag). *)
Theorem cleanup_channel_is_local w chid :
  (channelIDMap (tr w) !! chid = None -> CleanupChannel chid w = Ok tt w) /\
  (forall gsKey,
      channelIDMap (tr w) !! chid = Some gsKey ->
      exists w',
        CleanupChannel chid w = Ok tt w' /\
        env w' = env w /\ calls w' = calls w /\
        channelEntries (tr w') chid = (None, None, None, None, None, None) /\
        graphsyncRequestMap (tr w') !! gsKey = None /\
        (forall chid', chid' <> chid ->
                       channelEntries (tr w') chid' = channelEntries (tr w) chid') /\
        (forall k, k <> gsKey ->
                   graphsyncRequestMap (tr w') !! k = graphsyncRequestMap (tr w) !! k) /\
        CleanupChannel chid w' = Ok tt w').
Proof.
  split.
  - intros Hmiss. unfold CleanupChannel. by rewrite bind_getT, Hmiss.
  - intros gsKey Hhit. eexists. split.
    { unfold CleanupChannel. rewrite bind_getT, Hhit. apply cleanupChannel_run. }
    cbn [tr env calls]. split; [reflexivity |]. split; [reflexivity |].
    split; [unfold channelEntries; cbn; by rewrite !lookup_delete_eq |].
    split; [cbn; apply lookup_delete_eq |].
    split; [intros chid' Hne; unfold channelEntries; cbn;
            by rewrite !lookup_delete_ne |].
    split; [intros k Hne; cbn; by rewrite lookup_delete_ne |].
    unfold CleanupChannel. rewrite bind_getT. cbn. by rewrite lookup_delete_eq.
Qed.

(** ** Requests that are not ours *)

(** X14: a graphsync request without the data-transfer extension passes
    the incoming-request hook and the outgoing-request hook untouched: no
    event, no binding, no termination, no validation.  The outgoing-request
    hook treats an extension that does not decode the same way (it drops the
    decode error), where the incoming-request hook terminates the request. *)
Theorem foreign_requests_are_ignored w p request :
  (rdExtensions request !! ExtensionDataTransfer = None ->
   gsReqRecdHook p request w = Ok tt w /\ gsOutgoingRequestHook p request w = Ok tt w) /\
  (forall data err,
      rdExtensions request !! ExtensionDataTransfer = Some data ->
      FromNet data = inl err ->
      gsOutgoingRequestHook p request w = Ok tt w /\
      added (gsReqRecdHook p request) w = [HaTerminateWithError (Some err)]).
Proof.
  split.
  - intros Habsent. unfold gsReqRecdHook, gsOutgoingRequestHook, GetTransferData.
    by rewrite Habsent.
  - intros data err Hpresent Hbad. split.
    + unfold gsOutgoingRequestHook, GetTransferData. by rewrite Hpresent, Hbad.
    + eapply added_run.
      exact (gsReqRecdHook_malformed w p request data err Hpresent Hbad).
Qed.

(** ** Updates and responses on a bound channel *)

(** The two hooks that hand an extension to [processExtension]. *)
Lemma update_hooks_unfold w p :
  (forall request update chid,
      graphsyncRequestMap (tr w) !! mkKey (rdID request) p = Some chid ->
      gsRequestUpdatedHook p request update w
      = bind (processExtension chid (rdExtensions update) p)
             (answerExtension HaSendExtensionData) w) /\
  (forall response chid,
      graphsyncRequestMap (tr w) !! mkKey (rsRequestID response) (peerID (tr w)) = Some chid ->
      gsIncomingResponseHook p response w
      = bind (processExtension chid (rsExtensions response) p)
             (answerExtension HaUpdateRequestWithExtensions) w).
Proof.
  split; intros; unfold gsRequestUpdatedHook, gsIncomingResponseHook;
    rewrite bind_getT; by rewrite H0.
Qed.

Lemma answerExtension_run send rm err (u : World (Transport E) E) :
  answerExtension send (rm, err) u
  = Ok tt (mkWorld (tr u) (env u)
             (calls u ++
                match rm with
                | Some r =>
                    match ToExtensionData (MsgResponse r) with
                    | inl _ => [HaTerminateWithError err]
                    | inr ext => send ext :: (if err is Some _ then [HaTerminateWithError err]
                                              else [])
                    end
                | None => if err is Some _ then [HaTerminateWithError err] else []
                end)).
Proof.
  unfold answerExtension.
  destruct rm as [r|]; [destruct (ToExtensionData (MsgResponse r)) |];
    destruct err; repeat step; unfold emit, ret; cbn;
    rewrite <- ?app_assoc, ?app_nil_r; by destruct u.
Qed.

(** X15: the request-updated hook ignores a key that is not bound,
    whatever the update carries, and an update without our extension.  An
    extension that does not decode terminates with the decode error and
    raises no event.  When a request update reaches the handler, the
    handler's response goes out first as extension data, and then any error
    the handler returned, [ErrPause] included, terminates; a response that
    does not encode terminates with the handler's error. *)
Theorem update_hooks_answer w ev p request update chid :
  let exts := rdExtensions update in
  let gsKey := mkKey (rdID request) p in
  (graphsyncRequestMap (tr w) !! gsKey = None ->
   gsRequestUpdatedHook p request update w = Ok tt w) /\
  (graphsyncRequestMap (tr w) !! gsKey = Some chid ->
   events (tr w) = Some ev ->
   (exts !! ExtensionDataTransfer = None ->
    gsRequestUpdatedHook p request update w = Ok tt w) /\
   (forall data err,
       exts !! ExtensionDataTransfer = Some data -> FromNet data = inl err ->
       added (gsRequestUpdatedHook p request update) w = [HaTerminateWithError (Some err)]) /\
   (forall data rq rm err e1,
       exts !! ExtensionDataTransfer = Some data -> FromNet data = inr (MsgRequest rq) ->
       chid = mkChannelID p (rqXferID rq) ->
       OnRequestReceived ev chid rq (env w) = ((rm, err), e1) ->
       added (gsRequestUpdatedHook p request update) w
       = EvRequestReceived chid rq ::
           match rm with
           | Some r =>
               match ToExtensionData (MsgResponse r) with
               | inl _ => [HaTerminateWithError err]
               | inr ext => HaSendExtensionData ext ::
                              (if err is Some _ then [HaTerminateWithError err] else [])
               end
           | None => if err is Some _ then [HaTerminateWithError err] else []
           end)).
Proof.
  intros exts gsKey. split.
  - intros Hmiss. unfold gsRequestUpdatedHook. rewrite bind_getT. fold gsKey.
    by rewrite Hmiss.
  - intros Hhit Hev.
    destruct (update_hooks_unfold w p) as [Hupd _].
    specialize (Hupd request update chid Hhit). fold exts in Hupd.
    split; [| split].
    + intros Habsent. rewrite Hupd. unfold processExtension, GetTransferData.
      by rewrite Habsent.
    + intros data err Hpresent Hbad. eapply added_run. rewrite Hupd.
      unfold processExtension, GetTransferData. rewrite Hpresent, Hbad.
      rewrite bind_ret. apply answerExtension_error.
    + intros data rq rm err e1 Hpresent Hgood -> Hans.
      eapply added_run. rewrite Hupd.
      unfold processExtension, GetTransferData. rewrite Hpresent, Hgood.
      rewrite decide_False by (intros Hn; by apply Hn).
      rewrite bind_bind, (bind_theEvents ev) by exact Hev.
      rewrite bind_call, Hans. cbn [fst snd].
      rewrite answerExtension_run. cbn [tr env calls].
      rewrite <- app_assoc. reflexivity.
Qed.


(** X16: the incoming-response hook looks the response up under the local
    peer, not under the peer graphsync names, and ignores a request id that
    is not bound.  On a bound channel a decoded response of this channel is
    handed to [OnResponseReceived] and any error of the handler terminates
    the request; a decoded request of the remote peer's channel is handed to
    [OnRequestReceived] and the handler's response is attached to the
    outgoing request as an update before the error, if any, terminates. *)
Theorem incoming_response_hook_answers w ev p response chid :
  let exts := rsExtensions response in
  let self := peerID (tr w) in
  let gsKey := mkKey (rsRequestID response) self in
  (graphsyncRequestMap (tr w) !! gsKey = None ->
   gsIncomingResponseHook p response w = Ok tt w) /\
  (graphsyncRequestMap (tr w) !! gsKey = Some chid ->
   events (tr w) = Some ev ->
   (forall data rs err e1,
       exts !! ExtensionDataTransfer = Some data -> FromNet data = inr (MsgResponse rs) ->
       chid = mkChannelID self (XferID rs) ->
       OnResponseReceived ev chid rs (env w) = (err, e1) ->
       added (gsIncomingResponseHook p response) w
       = EvResponseReceived chid rs ::
           (if err is Some _ then [HaTerminateWithError err] else [])) /\
   (forall data rq rm err e1,
       exts !! ExtensionDataTransfer = Some data -> FromNet data = inr (MsgRequest rq) ->
       chid = mkChannelID p (rqXferID rq) ->
       OnRequestReceived ev chid rq (env w) = ((rm, err), e1) ->
       added (gsIncomingResponseHook p response) w
       = EvRequestReceived chid rq ::
           match rm with
           | Some r =>
               match ToExtensionData (MsgResponse r) with
               | inl _ => [HaTerminateWithError err]
               | inr ext => HaUpdateRequestWithExtensions ext ::
                              (if err is Some _ then [HaTerminateWithError err] else [])
               end
           | None => if err is Some _ then [HaTerminateWithError err] else []
           end)).
Proof.
  intros exts self gsKey. split.
  - intros Hmiss. unfold gsIncomingResponseHook. rewrite bind_getT. fold self gsKey.
    by rewrite Hmiss.
  - intros Hhit Hev.
    destruct (update_hooks_unfold w p) as [_ Hresp].
    specialize (Hresp response chid Hhit). fold exts in Hresp.
    split.
    + intros data rs err e1 Hpresent Hgood -> Hans.
      eapply added_run. rewrite Hresp.
      unfold processExtension, GetTransferData. rewrite Hpresent, Hgood.
      rewrite bind_bind, bind_getT. fold self.
      rewrite decide_False by (intros Hn; by apply Hn).
      rewrite bind_bind, (bind_theEvents ev) by exact Hev.
      rewrite bind_bind, bind_call, Hans, bind_ret. cbn [fst snd].
      rewrite answerExtension_run. cbn [tr env calls].
      rewrite <- app_assoc. reflexivity.
    + intros data rq rm err e1 Hpresent Hgood -> Hans.
      eapply added_run. rewrite Hresp.
      unfold processExtension, GetTransferData. rewrite Hpresent, Hgood.
      rewrite decide_False by (intros Hn; by apply Hn).
      rewrite bind_bind, (bind_theEvents ev) by exact Hev.
      rewrite bind_call, Hans. cbn [fst snd].
      rewrite answerExtension_run. cbn [tr env calls].
      rewrite <- app_assoc. reflexivity.
Qed.

(** ** Control calls that reach graphsync *)

(** X17: a control call on a bound channel whose requestor has not
    cancelled goes to graphsync and returns what graphsync returns, without a
    change to the transport.  When the local peer issued the graphsync
    request, [PauseChannel] pauses the request and [ResumeChannel] unpauses
    it with the encoded message; when the remote peer issued it,
    [PauseChannel] pauses the response, [ResumeChannel] unpauses it and
    [CloseChannel] cancels it. *)
Theorem control_calls_are_forwarded w ev chid gsKey :
  let id := requestID gsKey in
  let peer := p gsKey in
  let via (eff : Effect) (f : E -> option error * E) :=
    Ok (f (env w)).1 (mkWorld (tr w) (f (env w)).2 (calls w ++ [eff])) in
  events (tr w) = Some ev ->
  channelIDMap (tr w) !! chid = Some gsKey ->
  (peer = peerID (tr w) ->
   forall ctxDone,
     PauseChannel ctxDone chid w = via (GsPauseRequest id) (PauseRequest (gs (tr w)) id) /\
     ResumeChannel ctxDone None chid w
     = via (GsUnpauseRequest id []) (UnpauseRequest (gs (tr w)) id []) /\
     (forall m ext, ToExtensionData m = inr ext ->
        ResumeChannel ctxDone (Some m) chid w
        = via (GsUnpauseRequest id [ext]) (UnpauseRequest (gs (tr w)) id [ext]))) /\
  (peer <> peerID (tr w) ->
   requestorCancelledMap (tr w) !! chid = None ->
   forall ctxDone,
     PauseChannel ctxDone chid w
     = via (GsPauseResponse peer id) (PauseResponse (gs (tr w)) peer id) /\
     ResumeChannel ctxDone None chid w
     = via (GsUnpauseResponse peer id []) (UnpauseResponse (gs (tr w)) peer id []) /\
     (forall m ext, ToExtensionData m = inr ext ->
        ResumeChannel ctxDone (Some m) chid w
        = via (GsUnpauseResponse peer id [ext]) (UnpauseResponse (gs (tr w)) peer id [ext])) /\
     CloseChannel ctxDone chid w
     = via (GsCancelResponse peer id) (CancelResponse (gs (tr w)) peer id)).
Proof.
  intros id peer via Hev Hrev. subst via id peer. split.
  - intros Hself ctxDone.
    split; [| split; [| intros m ext Henc]];
      unfold PauseChannel, ResumeChannel, gsKeyFromChannelID;
      rewrite bind_getT, Hev, bind_bind, bind_getT, Hrev, bind_ret;
      rewrite ?Henc; rewrite decide_True by exact Hself; apply call_run.
  - intros Hother Hflag ctxDone.
    split; [| split; [| split; [intros m ext Henc |]]];
      unfold PauseChannel, ResumeChannel, CloseChannel, gsKeyFromChannelID;
      rewrite bind_getT, Hev, bind_bind, bind_getT, Hrev, bind_ret;
      rewrite ?Henc; rewrite decide_False by exact Hother;
      rewrite bind_getT, Hflag; apply call_run.
Qed.

(** X18: a control call on a channel without reverse binding fails with
    [ErrChannelNotFound] when the channel has no pending-signal, or when it
    has one and the caller's context is over; with a signal and a live
    context it waits.  In no case does it call graphsync or change the
    transport. *)
Theorem control_calls_without_binding w ev chid :
  events (tr w) = Some ev ->
  channelIDMap (tr w) !! chid = None ->
  forall msg,
    (pending (tr w) !! chid = None ->
     forall ctxDone,
       PauseChannel ctxDone chid w = Ok (Some ErrChannelNotFound) w /\
       ResumeChannel ctxDone msg chid w = Ok (Some ErrChannelNotFound) w /\
       CloseChannel ctxDone chid w = Ok (Some ErrChannelNotFound) w) /\
    (pending (tr w) !! chid = Some tt ->
     PauseChannel true chid w = Ok (Some ErrChannelNotFound) w /\
     ResumeChannel true msg chid w = Ok (Some ErrChannelNotFound) w /\
     CloseChannel true chid w = Ok (Some ErrChannelNotFound) w /\
     PauseChannel false chid w = Blocked chid /\
     ResumeChannel false msg chid w = Blocked chid /\
     CloseChannel false chid w = Blocked chid).
Proof.
  intros Hev Hrev msg. split.
  - intros Hpend ctxDone.
    repeat split;
      unfold PauseChannel, ResumeChannel, CloseChannel, gsKeyFromChannelID;
      rewrite bind_getT, Hev, bind_bind, bind_getT, Hrev, Hpend; reflexivity.
  - intros Hpend.
    repeat split;
      unfold PauseChannel, ResumeChannel, CloseChannel, gsKeyFromChannelID;
      rewrite bind_getT, Hev, bind_bind, bind_getT, Hrev, Hpend; reflexivity.
Qed.


(** ** The receiver *)

(** X19: for a response received over the side channel the receiver takes
    the local peer as initiator, whoever sent it, raises
    [OnResponseReceived] and follows the handler: [ErrResume] resumes the
    channel without a message, [ErrPause] pauses it, and in both cases the
    transport's result is returned; any other error closes the channel and
    is returned itself, whatever the close returns; no error, nothing
    more. *)
Theorem receive_response_follows_handler
    (m : manager E) (sender : peer_ID) (incoming : transferResponse)
    (u : World unit E) pt err e1 :
  let chid := mkChannelID (mgrPeerID m) (XferID incoming) in
  let evt := EvResponseReceived chid incoming in
  trPauseable (mgrTransport m) = Some pt ->
  mgrOnResponseReceived m chid incoming (env u) = (err, e1) ->
  receiveResponse m sender incoming u
  = match err with
    | None => Ok None (mkWorld tt e1 (calls u ++ [evt]))
    | Some e =>
        if decide (e = ErrResume) then
          Ok (trResumeChannel pt None chid e1).1
             (mkWorld tt (trResumeChannel pt None chid e1).2
                      (calls u ++ [evt; TrResumeChannel None chid]))
        else if decide (e = ErrPause) then
          Ok (trPauseChannel pt chid e1).1
             (mkWorld tt (trPauseChannel pt chid e1).2
                      (calls u ++ [evt; TrPauseChannel chid]))
        else
          Ok (Some e)
             (mkWorld tt (trCloseChannel (mgrTransport m) chid e1).2
                      (calls u ++ [evt; TrCloseChannel chid]))
    end.
Proof.
  intros chid evt Hpt Hans. unfold receiveResponse, asPauseable. fold chid.
  rewrite bind_call, Hans, Hpt. cbn [fst snd].
  destruct u as [[] e0 l]. cbn [tr env calls] in *.
  destruct err as [e|].
  - destruct (decide (e = ErrResume)) as [->|Hr].
    + rewrite decide_True by reflexivity. rewrite bind_ret, call_run. cbn.
      by rewrite <- app_assoc.
    + rewrite decide_False by congruence.
      destruct (decide (e = ErrPause)) as [->|Hp].
      * rewrite decide_True by reflexivity. rewrite bind_ret, call_run. cbn.
        by rewrite <- app_assoc.
      * rewrite decide_False by congruence. rewrite bind_call. unfold ret. cbn.
        by rewrite <- app_assoc.
  - rewrite decide_False by discriminate. rewrite decide_False by discriminate.
    reflexivity.
Qed.

(** X20: when the handler answers a request with [ErrResume], the receiver
    resumes the channel with the handler's response as message and returns
    the transport's result; the response is neither sent over the side
    channel nor used to open a channel. *)
Theorem receive_request_resumes
    (m : manager E) (initiator : peer_ID) (incoming : transferRequest)
    (u : World unit E) pt response e1 :
  let chid := mkChannelID initiator (rqXferID incoming) in
  trPauseable (mgrTransport m) = Some pt ->
  mgrOnRequestReceived m chid incoming (env u) = ((response, Some ErrResume), e1) ->
  receiveRequest m initiator incoming u
  = Ok (trResumeChannel pt response chid e1).1
       (mkWorld (tr u) (trResumeChannel pt response chid e1).2
                (calls u ++ [EvRequestReceived chid incoming;
                             TrResumeChannel response chid])).
Proof.
  intros chid Hpt Hans. unfold receiveRequest, asPauseable. fold chid.
  rewrite bind_call, Hans, Hpt. cbn [fst snd].
  rewrite decide_True by reflexivity. rewrite bind_ret, call_run. cbn.
  by rewrite <- app_assoc.
Qed.

(** The error the receiver returns for a request, given the error of the
    dispatch (none when nothing was dispatched) and the handler's error. *)
Lemma receiveRequest_run
    (m : manager E) (initiator : peer_ID) (incoming : transferRequest)
    (u : World unit E) pt response receiveErr e1 :
  let chid := mkChannelID initiator (rqXferID incoming) in
  let opens r := negb (IsUpdate r) && Accepted r && negb (IsPull incoming) in
  let dispatch : list Effect * (option error * E) :=
    match response with
    | None => ([], (None, e1))
    | Some r =>
        if opens r
        then ([TrOpenChannel initiator chid (BaseCid incoming) (Selector incoming).1 r],
              trOpenChannel (mgrTransport m) initiator chid (BaseCid incoming)
                            (Selector incoming).1 r e1)
        else ([NetSendMessage initiator r], mgrSendMessage m initiator r e1)
    end in
  let e2 := dispatch.2.2 in
  trPauseable (mgrTransport m) = Some pt ->
  mgrOnRequestReceived m chid incoming (env u) = ((response, receiveErr), e1) ->
  receiveErr <> Some ErrResume ->
  receiveRequest m initiator incoming u
  = match dispatch.2.1, receiveErr with
    | Some d, _ =>
        Ok (Some d)
           (mkWorld (tr u) e2 (calls u ++ EvRequestReceived chid incoming :: dispatch.1))
    | None, None =>
        Ok None
           (mkWorld (tr u) e2 (calls u ++ EvRequestReceived chid incoming :: dispatch.1))
    | None, Some e =>
        if decide (e = ErrPause) then
          Ok (trPauseChannel pt chid e2).1
             (mkWorld (tr u) (trPauseChannel pt chid e2).2
                      (calls u ++ EvRequestReceived chid incoming :: dispatch.1
                         ++ [TrPauseChannel chid]))
        else
          Ok (Some e)
             (mkWorld (tr u) (trCloseChannel (mgrTransport m) chid e2).2
                      (calls u ++ EvRequestReceived chid incoming :: dispatch.1
                         ++ [TrCloseChannel chid]))
    end.
Proof.
  intros chid opens dispatch e2 Hpt Hans Hresume.
  unfold receiveRequest, asPauseable. fold chid.
  rewrite bind_call, Hans, Hpt. cbn [fst snd].
  rewrite decide_False by exact Hresume.
  subst e2 dispatch.
  assert (Htail : forall (d : option error) e2 l,
             (match d with
              | Some err => ret (Some err)
              | None =>
                  if decide (receiveErr = Some ErrPause)
                  then pt0 <- ret pt;; call (TrPauseChannel chid) (trPauseChannel pt0 chid)
                  else match receiveErr with
                       | Some _ =>
                           call (TrCloseChannel chid) (trCloseChannel (mgrTransport m) chid);;;
                           ret receiveErr
                       | None => ret None
                       end
              end)%go (mkWorld (tr u) e2 (calls u ++ EvRequestReceived chid incoming :: l))
             = match d, receiveErr with
               | Some d, _ =>
                   Ok (Some d)
                      (mkWorld (tr u) e2 (calls u ++ EvRequestReceived chid incoming :: l))
               | None, None =>
                   Ok None
                      (mkWorld (tr u) e2 (calls u ++ EvRequestReceived chid incoming :: l))
               | None, Some e =>
                   if decide (e = ErrPause) then
                     Ok (trPauseChannel pt chid e2).1
                        (mkWorld (tr u) (trPauseChannel pt chid e2).2
                                 (calls u ++ EvRequestReceived chid incoming :: l
                                    ++ [TrPauseChannel chid]))
                   else
                     Ok (Some e)
                        (mkWorld (tr u) (trCloseChannel (mgrTransport m) chid e2).2
                                 (calls u ++ EvRequestReceived chid incoming :: l
                                    ++ [TrCloseChannel chid]))
               end).
  { intros d e2 l. destruct d as [d|]; [reflexivity |].
    destruct receiveErr as [e|].
    - destruct (decide (e = ErrPause)) as [->|Hp].
      + rewrite decide_True by reflexivity. rewrite bind_ret, call_run. cbn.
        by rewrite <- app_assoc.
      + rewrite decide_False by congruence. rewrite bind_call. unfold ret. cbn.
        by rewrite <- app_assoc.
    - rewrite decide_False by discriminate. reflexivity. }
  destruct response as [r|].
  - destruct (opens r) eqn:Hopens; subst opens; cbn beta in Hopens; rewrite Hopens.
    + destruct (Selector incoming) as [stor serr]. cbn [fst snd].
      rewrite bind_call. cbn [tr env calls].
      destruct (trOpenChannel (mgrTransport m) initiator chid (BaseCid incoming) stor r e1)
        as [d e2]. cbn [fst snd].
      rewrite <- app_assoc. cbn [app]. apply Htail.
    + rewrite bind_call. cbn [tr env calls].
      destruct (mgrSendMessage m initiator r e1) as [d e2]. cbn [fst snd].
      rewrite <- app_assoc. cbn [app]. apply Htail.
  - rewrite bind_ret. cbn [fst snd]. exact (Htail None e1 []).
Qed.

(** X21: what the receiver returns for a request whose handler did not say
    [ErrResume].  An error of the dispatch of the response (the opening of
    the channel or the side-channel send) is returned as it is, and nothing
    follows.  Otherwise: with [ErrPause] the result of [PauseChannel]; with
    another handler error that error, after a [CloseChannel] whose own result
    is dropped; with no error, none.  Without a response nothing is
    dispatched and the same holds. *)
Theorem receive_request_result
    (m : manager E) (initiator : peer_ID) (incoming : transferRequest)
    (u : World unit E) pt response receiveErr e1 :
  let chid := mkChannelID initiator (rqXferID incoming) in
  let sent : option error * E :=
    match response with
    | None => (None, e1)
    | Some r =>
        if negb (IsUpdate r) && Accepted r && negb (IsPull incoming)
        then trOpenChannel (mgrTransport m) initiator chid (BaseCid incoming)
                           (Selector incoming).1 r e1
        else mgrSendMessage m initiator r e1
    end in
  trPauseable (mgrTransport m) = Some pt ->
  mgrOnRequestReceived m chid incoming (env u) = ((response, receiveErr), e1) ->
  receiveErr <> Some ErrResume ->
  exists u',
    receiveRequest m initiator incoming u
    = Ok (match sent.1, receiveErr with
          | Some d, _ => Some d
          | None, None => None
          | None, Some e => if decide (e = ErrPause) then (trPauseChannel pt chid sent.2).1
                            else Some e
          end) u' /\
    (response = None ->
     added (receiveRequest m initiator incoming) u
     = EvRequestReceived chid incoming ::
         match receiveErr with
         | None => []
         | Some e => if decide (e = ErrPause) then [TrPauseChannel chid]
                     else [TrCloseChannel chid]
         end).
Proof.
  intros chid sent Hpt Hans Hresume.
  pose proof (receiveRequest_run m initiator incoming u pt response receiveErr e1
                Hpt Hans Hresume) as Hrun.
  cbn zeta in Hrun. fold chid in Hrun.
  destruct response as [r|].
  - subst sent. cbn beta iota in *.
    destruct (negb (IsUpdate r) && Accepted r && negb (IsPull incoming));
      cbn [fst snd] in *;
      [destruct (trOpenChannel _ _ _ _ _ _ _) as [[d|] e2]
      |destruct (mgrSendMessage _ _ _ _) as [[d|] e2]];
      cbn [fst snd] in *;
      try (destruct receiveErr as [e|]; [destruct (decide (e = ErrPause)) |]);
      (eexists; split; [exact Hrun | discriminate]).
  - subst sent. cbn [fst snd] in *.
    destruct receiveErr as [e|]; [destruct (decide (e = ErrPause)) |];
      (eexists; split; [exact Hrun |]); intros _;
      (eapply added_run; rewrite Hrun; reflexivity).
Qed.

(** X22: the receiver pauses and resumes through the pauseable view of the
    transport and asserts it without a check: on a transport that cannot
    pause, a handler that answers a request or a response with [ErrPause] or
    [ErrResume] makes the receiver panic (for a request with [ErrPause], shown
    for a handler that returns no response, so that nothing is dispatched
    before). *)
Theorem receiver_needs_pauseable_transport (m : manager E) (u : World unit E) :
  trPauseable (mgrTransport m) = None ->
  (forall sender incoming e e1,
      let chid := mkChannelID (mgrPeerID m) (XferID incoming) in
      mgrOnResponseReceived m chid incoming (env u) = (Some e, e1) ->
      e = ErrPause \/ e = ErrResume ->
      receiveResponse m sender incoming u = Panic) /\
  (forall initiator incoming response e1,
      let chid := mkChannelID initiator (rqXferID incoming) in
      mgrOnRequestReceived m chid incoming (env u) = ((response, Some ErrResume), e1) ->
      receiveRequest m initiator incoming u = Panic) /\
  (forall initiator incoming e1,
      let chid := mkChannelID initiator (rqXferID incoming) in
      mgrOnRequestReceived m chid incoming (env u) = ((None, Some ErrPause), e1) ->
      receiveRequest m initiator incoming u = Panic).
Proof.
  intros Hpt. split; [| split].
  - intros sender incoming e e1 chid Hans He.
    unfold receiveResponse, asPauseable. fold chid. rewrite bind_call, Hans, Hpt.
    cbn [fst snd]. destruct He as [-> | ->].
    + rewrite decide_False by discriminate. by rewrite decide_True.
    + by rewrite decide_True.
  - intros initiator incoming response e1 chid Hans.
    unfold receiveRequest, asPauseable. fold chid. rewrite bind_call, Hans, Hpt.
    cbn [fst snd]. by rewrite decide_True.
  - intros initiator incoming e1 chid Hans.
    unfold receiveRequest, asPauseable. fold chid. rewrite bind_call, Hans, Hpt.
    cbn [fst snd]. rewrite decide_False by discriminate.
    rewrite bind_ret. by rewrite decide_True.
Qed.


End Coverage.


(** * Properties of the first manager *)

Section FirstManager.
Import graphsyncimpl.
Context {V CS TD E : Type} `{EqDecision CS} (d : Deps CS TD E).
Implicit Type w : IWorld V CS E.

Ltac run_impl :=
  unfold bind, ret, getI, getEnv, putI, tell, ask;
  cbn beta iota delta [negb impl ienv icalls validatedTypes peerID].


Lemma first_manager_gsReqRecdHook_run w p request :
  gsReqRecdHook d p request w
  = Ok tt (saying w (ienv w)
       match getExtensionData d request with
       | (_, Some err) => [HaTerminate (Some err)]
       | (None, None) => []
       | (Some td, None) =>
           if decide (GetByIDAndSender d (GetChannelID d td) (peerID (impl w)) (ienv w)
                      = EmptyChannelState d)
           then [HaTerminate None]
           else [HaValidate;
                 HaSend (mkExt ExtensionDataTransfer
                           (default [] (rdExtensions request !! ExtensionDataTransfer)))]
       end).
Proof.
  unfold gsReqRecdHook, saying.
  destruct (getExtensionData d request) as [[td|] [err|]]; run_impl;
    rewrite ?app_nil_r; try by destruct w.
  case_decide; run_impl; by rewrite <- ?app_assoc.
Qed.

Lemma first_manager_gsCompletedResponseListener_run w p request status :
  gsCompletedResponseListener d p request status w
  = Ok tt (saying w (ienv w)
       match getExtensionData d request with
       | (Some td, None) =>
           let chst := GetByIDAndSender d (GetChannelID d td) (peerID (impl w)) (ienv w) in
           if decide (chst = EmptyChannelState d) then []
           else [Publish (mkEvent (if decide (status = RequestCompletedFull)
                                   then Complete else Error) "" (Now d (ienv w))) chst]
       | _ => []
       end).
Proof.
  unfold gsCompletedResponseListener, saying.
  destruct (getExtensionData d request) as [[td|] [err|]]; run_impl;
    rewrite ?app_nil_r; try by destruct w.
  case_decide; run_impl; rewrite ?app_nil_r; by destruct w.
Qed.


(** X24: registering two voucher types with different identifiers gives
    the same registry in either order. *)
Theorem register_voucher_types_commute w t1 v1 t2 v2 id1 id2 :
  KindIsPtr t1 = true -> ElemVoucherType t1 = Some id1 ->
  KindIsPtr t2 = true -> ElemVoucherType t2 = Some id2 ->
  id1 <> id2 ->
  validatedTypes (impl w) !! id1 = None ->
  validatedTypes (impl w) !! id2 = None ->
  exists w12,
    bind (RegisterVoucherType t1 v1) (fun _ => RegisterVoucherType t2 v2) w = Ok None w12 /\
    bind (RegisterVoucherType t2 v2) (fun _ => RegisterVoucherType t1 v1) w = Ok None w12 /\
    validatedTypes (impl w12) !! id1 = Some (mkValidateType V t1 v1) /\
    validatedTypes (impl w12) !! id2 = Some (mkValidateType V t2 v2).
Proof.
  intros Hp1 He1 Hp2 He2 Hne Hf1 Hf2.
  eexists. split; [| split].
  - unfold RegisterVoucherType. rewrite Hp1, He1, Hp2, He2. run_impl.
    rewrite Hf1. run_impl. rewrite lookup_insert_ne by done. rewrite Hf2. reflexivity.
  - unfold RegisterVoucherType. rewrite Hp1, He1, Hp2, He2. run_impl.
    rewrite Hf2. run_impl. rewrite lookup_insert_ne by done. rewrite Hf1. run_impl.
    by rewrite insert_insert_ne.
  - cbn. split; [by rewrite lookup_insert_ne, lookup_insert_eq | apply lookup_insert_eq].
Qed.

(** X25: the two graphsync hooks of the first manager agree on the requests
    they act on, and change nothing of the manager.  The completed-response
    listener publishes an event exactly for the requests the
    incoming-request hook validates: those whose extension decodes to a
    channel the registry knows with the local peer as sender.  For these the
    hook validates first and then sends the request's own extension bytes
    back, and the event is [Complete] exactly for status
    [RequestCompletedFull].  A request of an unknown channel is terminated
    with no error value. *)
Theorem first_manager_hooks_need_a_known_channel w p request status :
  let raw := default [] (rdExtensions request !! ExtensionDataTransfer) in
  let state td := GetByIDAndSender d (GetChannelID d td) (peerID (impl w)) (ienv w) in
  exists l1 l2,
    gsReqRecdHook d p request w = Ok tt (saying w (ienv w) l1) /\
    gsCompletedResponseListener d p request status w = Ok tt (saying w (ienv w) l2) /\
    (In HaValidate l1 <-> l2 <> []) /\
    (In HaValidate l1 <->
     exists td, getExtensionData d request = (Some td, None) /\
                state td <> EmptyChannelState d) /\
    (In HaValidate l1 -> l1 = [HaValidate; HaSend (mkExt ExtensionDataTransfer raw)]) /\
    (forall evt chst, In (Publish evt chst) l2 ->
       l2 = [Publish evt chst] /\
       (exists td, getExtensionData d request = (Some td, None) /\ chst = state td) /\
       (Code evt = Complete <-> status = RequestCompletedFull) /\
       Message evt = "" /\ Timestamp evt = Now d (ienv w)) /\
    (l1 = [HaTerminate None] <->
     exists td, getExtensionData d request = (Some td, None) /\
                state td = EmptyChannelState d).
Proof.
  intros raw state. subst raw state. eexists _, _.
  split; [apply first_manager_gsReqRecdHook_run |].
  split; [apply first_manager_gsCompletedResponseListener_run |].
  destruct (getExtensionData d request) as [[td|] [err|]]; cbn zeta.
  1, 3, 4: repeat split;
    solve [ done | discriminate | intros [? | []]; discriminate | intros []
          | intros (? & [= ] & _) | intros (? & [= ->] & _) ].
  case_decide as Hst.
  - repeat split;
      solve [ done | discriminate | intros [? | []]; discriminate | intros []
            | intros (? & [= ->] & ?); done
            | intros _; by exists td ].
  - split; [split; [discriminate | intros _; by left] |].
    split; [split; [intros _; by exists td | intros _; by left] |].
    split; [done |].
    split.
    + intros evt chst [[= <- <-] | []]. split; [done |].
      split; [by exists td |]. cbn. split; [| done].
      case_decide; split; done.
    + split; [discriminate | intros (? & [= <-] & ?); done].
Qed.


(** X27: [OpenPushDataChannel] and [OpenPullDataChannel] create the channel
    record only after the request has gone out, under the id the counter
    gave, and return what the registry returns.  When the send fails no
    record is created and the zero channel id is returned with the error.
    The local peer is the initiator of both kinds of channel, the sender of a
    push and the receiver of a pull. *)
Theorem open_data_channel_orders_its_steps w (isPull : bool) (requestTo : peer_ID)
    voucher baseCid selector sbytes vbytes tid e1 sent e2 :
  let self := peerID (impl w) in
  let sender := if isPull then requestTo else self in
  let receiver := if isPull then self else requestTo in
  let open := if isPull then OpenPullDataChannel d else OpenPushDataChannel d in
  let request := NetSendRequest requestTo tid isPull (vType voucher) vbytes baseCid sbytes in
  nodeAsBytes d selector = inr sbytes ->
  vToBytes voucher = inr vbytes ->
  Next d (ienv w) = (inr tid, e1) ->
  SendRequest d requestTo tid isPull (vType voucher) vbytes baseCid sbytes e1 = (sent, e2) ->
  open requestTo voucher baseCid selector w
  = match sent with
    | Some err => Ok (mkChannelID "" 0, Some err) (saying w e2 [CounterNext; request])
    | None =>
        let created := CreateNew d tid baseCid selector voucher self sender receiver e2 in
        Ok created.1
           (saying w created.2
              [CounterNext; request;
               ChannelsCreateNew tid baseCid selector (vType voucher) self sender receiver])
    end.
Proof.
  intros self sender receiver open request Hsel Hvou Hnext Hsend.
  subst open request sender receiver self. unfold saying.
  destruct isPull; unfold OpenPullDataChannel, OpenPushDataChannel, sendDtRequest;
    rewrite Hsel, Hvou; run_impl; rewrite Hnext; run_impl; rewrite Hsend; run_impl;
    (destruct sent as [err|]; run_impl; rewrite <- ?app_assoc; [done |]).
  - by destruct (CreateNew d tid baseCid selector voucher (peerID (impl w))
                           requestTo (peerID (impl w)) e2).
  - by destruct (CreateNew d tid baseCid selector voucher (peerID (impl w))
                           (peerID (impl w)) requestTo e2).
Qed.

(** X28: [sendGsRequest] issues the graphsync request whether or not the
    transfer data could be serialized: a serialization error is only logged
    and the request carries the bytes written so far.  When the request has
    ended, exactly one event is published, with the registry's state of the
    channel [(initiator, transferID)] for the data sender: [Complete] exactly
    when the channel is known and the error stream was empty, otherwise
    [Error] with the text of the last error, or with a fixed text when the
    channel is not known. *)
Theorem send_gs_request_always_asks w initiator transferID isPull dataSender root stor errs :
  let chst := GetByIDAndSender d (mkChannelID initiator transferID) dataSender (ienv w) in
  let marshalled := MarshalTransferData d transferID initiator isPull in
  sendGsRequest d initiator transferID isPull dataSender root stor w
  = Ok tt (saying w (ienv w)
             (match marshalled.2 with Some e => [LogError e] | None => [] end
              ++ [GsRequest dataSender root stor (mkExt ExtensionDataTransfer marshalled.1);
                  GoAwaitCompletion initiator transferID dataSender])) /\
  exists evt,
    awaitCompletion d initiator transferID dataSender errs w
    = Ok tt (saying w (ienv w) [Publish evt chst]) /\
    Timestamp evt = Now d (ienv w) /\
    (Code evt = Complete <-> chst <> EmptyChannelState d /\ errs = []) /\
    Message evt
    = (if decide (chst = EmptyChannelState d)
       then "cannot find a matching channel for this request"
       else match last errs with Some err => ErrorText d err | None => "" end).
Proof.
  intros chst marshalled. subst marshalled. split.
  - unfold sendGsRequest, saying.
    destruct (MarshalTransferData d transferID initiator isPull) as [extData [e|]];
      run_impl; cbn; by rewrite <- ?app_assoc.
  - unfold awaitCompletion. run_impl. fold chst.
    eexists. split; [reflexivity |].
    destruct (decide (chst = EmptyChannelState d)) as [Hempty|Hknown]; cbn.
    + repeat split; try discriminate. by intros [? _].
    + destruct (last errs) as [err|] eqn:Hlast; cbn; repeat split; try done.
      * intros [_ ->]. discriminate.
      * by apply last_None.
Qed.

End FirstManager.

(** ** Examples for the further properties *)

Lemma handler_is_set_once_witness :
  let w' := after (@runAll unit demoCodec [DoSetEventHandler quietEvents;
                                           DoReqRecdHook "B" pullRequest]) freshWorld in
  events (tr w') = Some quietEvents /\
  SetEventHandler refusingEvents w' = Ok (Some ErrHandlerAlreadySet) w'.
Proof.
  intros w'.
  destruct (@handler_is_set_once unit demoCodec freshWorld quietEvents
              [DoReqRecdHook "B" pullRequest] w' eq_refl eq_refl) as [Hset Hagain].
  split; [exact Hset | exact (Hagain refusingEvents)].
Defined.


Lemma queue_only_under_flag_witness :
  requestorCancelledMap (tr queuedWorld) !! pullChannel = Some tt.
Proof.
  apply (@queue_only_under_flag unit demoCodec queuedWorld pullChannel
           [mkExt ExtensionDataTransfer [0; 42; 1; 0]]).
  - exists "A", quietGs, tt, queuedOps. vm_compute. reflexivity.
  - reflexivity.
Defined.

Lemma open_channel_then_hook_witness :
  exists w1 w2,
    @OpenChannel unit demoCodec "B" openedChannel "root" None demoRequestMsg readyWorld
    = Ok None w1 /\
    PauseChannel false openedChannel w1 = Blocked openedChannel /\
    @gsOutgoingRequestHook unit demoCodec "B" pullRequest w1 = Ok tt w2 /\
    added (PauseChannel false openedChannel) w2 = [GsPauseRequest 7].
Proof.
  destruct (@open_channel_then_hook unit demoCodec readyWorld quietEvents "B" "root" None
              demoRequestMsg [1; 42; 1] "B" pullRequest tt
              eq_refl eq_refl eq_refl eq_refl eq_refl eq_refl)
    as (w1 & w2 & Hopen & _ & Hwait & Hhook & _ & _ & _ & _ & Hpause & _).
  exists w1, w2. split; [exact Hopen |]. split; [exact Hwait |].
  split; [exact Hhook | exact (Hpause false)].
Defined.


Lemma requester_close_is_silent_witness :
  added (@CloseChannel unit false openedChannel) openedWorld = [CancelContext openedChannel].
Proof.
  destruct (@requester_close_is_silent unit demoCodec openedWorld quietEvents openedChannel
              (mkKey 7 "A") [] eq_refl eq_refl eq_refl eq_refl) as [Hclose _].
  unfold added. rewrite (Hclose false). reflexivity.
Defined.

Lemma opened_channel_receives_blocks_witness :
  exists w1 rest,
    @gsOutgoingRequestHook unit demoCodec "B" pullRequest readyWorld = Ok tt w1 /\
    calls w1 = EvChannelOpened openedChannel :: rest /\
    added (@gsIncomingBlockHook unit "B" demoGsResponse demoBlock) w1
    = [EvDataReceived openedChannel "blk" 100].
Proof.
  destruct (@opened_channel_receives_blocks unit demoCodec readyWorld quietEvents "B"
              pullRequest demoRequestMsg tt "B" demoGsResponse demoBlock
              eq_refl eq_refl eq_refl eq_refl)
    as (w1 & rest & Hrun & Hcalls & Hblock).
  exists w1, rest. split; [exact Hrun |]. split; [exact Hcalls |].
  unfold added. rewrite Hblock. cbn. apply drop_app_length.
Defined.

Lemma outgoing_block_hook_follows_handler_witness :
  added (@gsOutgoingBlockHook unit demoCodec "B" pullRequest demoBlock) boundWorld
  = [EvDataSent pullChannel "blk" 100].
Proof.
  apply (@outgoing_block_hook_follows_handler unit demoCodec boundWorld quietEvents "B"
           pullRequest demoBlock pullChannel (mkProgress 0 0) None None tt);
    reflexivity.
Defined.

Lemma completion_of_one_key_breaks_the_other_witness :
  reachable (H:=demoCodec) restartedWorld /\
  exists w1,
    @gsCompletedResponseListener unit "B" pullRequest RequestCancelled restartedWorld
    = Ok tt w1 /\
    @gsOutgoingBlockHook unit demoCodec "B" restartRequest demoBlock w1 = Panic.
Proof.
  split.
  - exists "A", quietGs, tt, (cancelledOps ++ [DoReqRecdHook "B" restartRequest]).
    vm_compute. reflexivity.
  - destruct (@completion_of_one_key_breaks_the_other unit demoCodec restartedWorld
                quietEvents "B" pullRequest restartRequest RequestCancelled demoBlock
                pullChannel eq_refl eq_refl eq_refl)
      as (w1 & Hrun & _ & _ & Hpanic); [discriminate |].
    exists w1. split; [exact Hrun | exact Hpanic].
Defined.

Lemma incoming_request_hook_accepts_witness :
  exists w',
    @gsReqRecdHook unit demoCodec "B" pullRequest queuedWorld = Ok tt w' /\
    added (@gsReqRecdHook unit demoCodec "B" pullRequest) queuedWorld
    = [EvRequestReceived pullChannel (mkRequest "" [] [] "" false true 42);
       HaSendExtensionData (mkExt ExtensionDataTransfer [0; 42; 1; 0]);
       HaValidateRequest] /\
    requestorCancelledMap (tr w') !! pullChannel = None.
Proof.
  destruct (@incoming_request_hook_accepts unit demoCodec queuedWorld quietEvents "B"
              pullRequest demoRequestMsg
              (EvRequestReceived pullChannel (mkRequest "" [] [] "" false true 42))
              None None tt [] eq_refl eq_refl (conj eq_refl eq_refl) eq_refl
              (or_introl eq_refl))
    as (w' & Hrun & Hadded & _ & _ & Hflag & _).
  exists w'. split; [exact Hrun |]. split; [exact Hadded | exact Hflag].
Defined.

Lemma incoming_request_hook_rejects_witness :
  @gsReqRecdHook unit demoCodec "B" pullRequest failingWorld
  = Ok tt (mkWorld (tr failingWorld) tt
             [EvRequestReceived pullChannel (mkRequest "" [] [] "" false true 42);
              HaSendExtensionData (mkExt ExtensionDataTransfer [0; 42; 0; 0]);
              HaTerminateWithError (Some (ErrOther "not allowed"))]).
Proof.
  destruct (@incoming_request_hook_rejects unit demoCodec failingWorld failingEvents "B"
              pullRequest demoRequestMsg
              (EvRequestReceived pullChannel (mkRequest "" [] [] "" false true 42))
              (Some (mkResponse false false 42 None "")) (Some (ErrOther "not allowed")) tt
              eq_refl eq_refl (conj eq_refl eq_refl)) as [Hreject _].
  apply (Hreject [HaSendExtensionData (mkExt ExtensionDataTransfer [0; 42; 0; 0])]
                 (ErrOther "not allowed")).
  - exists (mkExt ExtensionDataTransfer [0; 42; 0; 0]). split; reflexivity.
  - reflexivity.
  - discriminate.
Defined.

Lemma resumed_messages_follow_the_restart_witness :
  exists w1 w2 w3,
    @ResumeChannel unit demoCodec false (Some demoResponseMsg) pullChannel cancelledWorld
    = Ok None w1 /\
    @ResumeChannel unit demoCodec false (Some demoRequestMsg) pullChannel w1 = Ok None w2 /\
    @gsReqRecdHook unit demoCodec "B" restartRequest w2 = Ok tt w3 /\
    added (@gsReqRecdHook unit demoCodec "B" restartRequest) w2
    = [EvRequestReceived pullChannel (mkRequest "" [] [] "" false true 42);
       HaSendExtensionData (mkExt ExtensionDataTransfer [0; 42; 1; 0]);
       HaSendExtensionData (mkExt ExtensionDataTransfer [1; 42; 1]);
       HaValidateRequest] /\
    added (PauseChannel false pullChannel) w3 = [GsPauseResponse "B" 8].
Proof.
  destruct (@resumed_messages_follow_the_restart unit demoCodec cancelledWorld quietEvents
              pullChannel (mkKey 7 "B")
              demoResponseMsg (mkExt ExtensionDataTransfer [0; 42; 1; 0])
              demoRequestMsg (mkExt ExtensionDataTransfer [1; 42; 1])
              "B" restartRequest demoRequestMsg
              (EvRequestReceived pullChannel (mkRequest "" [] [] "" false true 42)) tt
              eq_refl eq_refl)
    as (w1 & w2 & w3 & Hr1 & Hr2 & _ & Hrun & Hadded & _ & _ & Hpause);
    try reflexivity; try discriminate.
  { split; reflexivity. }
  exists w1, w2, w3. split; [exact (Hr1 false) |]. split; [exact (Hr2 false) |].
  split; [exact Hrun |]. split; [exact Hadded | exact (Hpause false)].
Defined.


Lemma requestor_cancelled_listener_only_flags_witness :
  let w1 := mkWorld (set_requestorCancelledMap <[pullChannel := tt]> (tr boundWorld))
                    (env boundWorld) (calls boundWorld) in
  @gsRequestorCancelledListener unit "B" pullRequest boundWorld = Ok tt w1 /\
  @gsRequestorCancelledListener unit "B" pullRequest w1 = Ok tt w1.
Proof.
  destruct (@requestor_cancelled_listener_only_flags unit boundWorld "B" pullRequest)
    as [_ Hhit].
  exact (Hhit pullChannel eq_refl).
Defined.

Lemma cleanup_channel_is_local_witness :
  exists w',
    @CleanupChannel unit pullChannel cancelledWorld = Ok tt w' /\
    channelEntries (tr w') pullChannel = (None, None, None, None, None, None) /\
    CleanupChannel pullChannel w' = Ok tt w'.
Proof.
  destruct (@cleanup_channel_is_local unit cancelledWorld pullChannel) as [_ Hhit].
  destruct (Hhit (mkKey 7 "B") eq_refl) as (w' & Hrun & _ & _ & Hgone & _ & _ & _ & Hagain).
  exists w'. split; [exact Hrun |]. split; [exact Hgone | exact Hagain].
Defined.

Lemma foreign_requests_are_ignored_witness :
  @gsReqRecdHook unit demoCodec "B" (mkRequestData 9 ∅) readyWorld = Ok tt readyWorld /\
  @gsOutgoingRequestHook unit demoCodec "B" (mkRequestData 9 ∅) readyWorld = Ok tt readyWorld.
Proof.
  destruct (@foreign_requests_are_ignored unit demoCodec readyWorld "B" (mkRequestData 9 ∅))
    as [Habsent _].
  exact (Habsent eq_refl).
Defined.

Lemma update_hooks_answer_witness :
  added (@gsRequestUpdatedHook unit demoCodec "B" pullRequest pullRequest) boundWorld
  = [EvRequestReceived pullChannel (mkRequest "" [] [] "" false true 42)].
Proof.
  destruct (@update_hooks_answer unit demoCodec boundWorld quietEvents "B" pullRequest
              pullRequest pullChannel) as [_ Hhit].
  destruct (Hhit eq_refl eq_refl) as (_ & _ & Hreq).
  exact (Hreq [1; 42; 1] (mkRequest "" [] [] "" false true 42) None None tt
              eq_refl eq_refl eq_refl eq_refl).
Defined.

Lemma incoming_response_hook_answers_witness :
  added (@gsIncomingResponseHook unit demoCodec "B" demoGsResponse) openedWorld
  = [EvResponseReceived openedChannel (mkResponse true false 42 None "")].
Proof.
  destruct (@incoming_response_hook_answers unit demoCodec openedWorld quietEvents "B"
              demoGsResponse openedChannel) as [_ Hhit].
  destruct (Hhit eq_refl eq_refl) as [Hresp _].
  exact (Hresp [0; 42; 1; 0] (mkResponse true false 42 None "") None tt
               eq_refl eq_refl eq_refl eq_refl).
Defined.

Lemma control_calls_are_forwarded_witness :
  @PauseChannel unit false pullChannel boundWorld
  = Ok None (mkWorld (tr boundWorld) tt (calls boundWorld ++ [GsPauseResponse "B" 7])) /\
  @PauseChannel unit false openedChannel openedWorld
  = Ok None (mkWorld (tr openedWorld) tt (calls openedWorld ++ [GsPauseRequest 7])).
Proof.
  split.
  - destruct (@control_calls_are_forwarded unit demoCodec boundWorld quietEvents pullChannel
                (mkKey 7 "B") eq_refl eq_refl) as [_ Hresponder].
    destruct (Hresponder ltac:(discriminate) eq_refl false) as [Hpause _].
    exact Hpause.
  - destruct (@control_calls_are_forwarded unit demoCodec openedWorld quietEvents
                openedChannel (mkKey 7 "A") eq_refl eq_refl) as [Hrequester _].
    destruct (Hrequester eq_refl false) as [Hpause _].
    exact Hpause.
Defined.

Lemma control_calls_without_binding_witness :
  @CloseChannel unit true openedChannel pendingWorld
  = Ok (Some ErrChannelNotFound) pendingWorld /\
  @CloseChannel unit false openedChannel pendingWorld = Blocked openedChannel.
Proof.
  destruct (@control_calls_without_binding unit demoCodec pendingWorld refusingEvents
              openedChannel eq_refl eq_refl None) as [_ Hpending].
  destruct (Hpending eq_refl) as (_ & _ & Hclose & _ & _ & Hwait).
  split; [exact Hclose | exact Hwait].
Defined.

Lemma receive_response_follows_handler_witness :
  @receiveResponse unit resumingManager "B" declinedResponse receiverWorld
  = Ok None (mkWorld tt tt [EvResponseReceived openedChannel declinedResponse;
                            TrResumeChannel None openedChannel]).
Proof.
  exact (@receive_response_follows_handler unit resumingManager "B" declinedResponse
           receiverWorld demoPauseable (Some ErrResume) tt eq_refl eq_refl).
Defined.

Lemma receive_request_resumes_witness :
  @receiveRequest unit demoCodec resumingManager "B" pushRequest receiverWorld
  = Ok None (mkWorld tt tt [EvRequestReceived pullChannel pushRequest;
                            TrResumeChannel (Some declinedResponse) pullChannel]).
Proof.
  exact (@receive_request_resumes unit demoCodec resumingManager "B" pushRequest
           receiverWorld demoPauseable (Some declinedResponse) tt eq_refl eq_refl).
Defined.

Lemma receive_request_result_witness :
  exists u',
    @receiveRequest unit demoCodec pausingManager "B" pushRequest receiverWorld
    = Ok (Some (ErrOther "stream reset")) u'.
Proof.
  destruct (@receive_request_result unit demoCodec pausingManager "B" pushRequest
              receiverWorld demoPauseable (Some declinedResponse) (Some ErrPause) tt
              eq_refl eq_refl ltac:(discriminate)) as (u' & Hrun & _).
  exists u'. exact Hrun.
Defined.

Lemma receiver_needs_pauseable_transport_witness :
  @receiveRequest unit demoCodec plainManager "B" pushRequest receiverWorld = Panic /\
  @receiveResponse unit plainManager "B" declinedResponse receiverWorld = Panic.
Proof.
  destruct (@receiver_needs_pauseable_transport unit demoCodec plainManager receiverWorld
              eq_refl) as (Hresp & _ & Hreq).
  split.
  - exact (Hreq "B" pushRequest tt eq_refl).
  - exact (Hresp "B" declinedResponse ErrPause tt eq_refl (or_introl eq_refl)).
Defined.

(** ** Examples for the first manager *)


Lemma register_voucher_types_commute_witness :
  exists w12,
    bind (graphsyncimpl.RegisterVoucherType dealType tt)
         (fun _ => graphsyncimpl.RegisterVoucherType receiptType tt) demoImplWorld
    = Ok None w12 /\
    bind (graphsyncimpl.RegisterVoucherType receiptType tt)
         (fun _ => graphsyncimpl.RegisterVoucherType dealType tt) demoImplWorld
    = Ok None w12.
Proof.
  destruct (register_voucher_types_commute demoImplWorld dealType tt receiptType tt
              "deal" "receipt" eq_refl eq_refl eq_refl eq_refl ltac:(discriminate)
              eq_refl eq_refl) as (w12 & H12 & H21 & _).
  exists w12. split; [exact H12 | exact H21].
Defined.

Lemma first_manager_hooks_need_a_known_channel_witness :
  graphsyncimpl.gsReqRecdHook demoDeps "C" (demoRequest [42]) demoImplWorld
  = Ok tt (saying demoImplWorld 0
             [graphsyncimpl.HaValidate;
              graphsyncimpl.HaSend (mkExt ExtensionDataTransfer [42])]) /\
  graphsyncimpl.gsReqRecdHook demoDeps "C" (demoRequest [43]) demoImplWorld
  = Ok tt (saying demoImplWorld 0 [graphsyncimpl.HaTerminate None]).
Proof.
  split.
  - destruct (first_manager_hooks_need_a_known_channel demoDeps demoImplWorld "C"
                (demoRequest [42]) RequestCompletedFull)
      as (l1 & l2 & Hrun & _ & _ & Hknown & Hsend & _).
    assert (In graphsyncimpl.HaValidate l1) as Hin.
    { apply Hknown. exists (mkChannelID "B" 42).
      split; [vm_compute; reflexivity | vm_compute; discriminate]. }
    rewrite Hrun, (Hsend Hin). reflexivity.
  - destruct (first_manager_hooks_need_a_known_channel demoDeps demoImplWorld "C"
                (demoRequest [43]) RequestCompletedFull)
      as (l1 & l2 & Hrun & _ & _ & _ & _ & _ & Hunknown).
    assert (l1 = [graphsyncimpl.HaTerminate None]) as ->.
    { apply Hunknown. exists (mkChannelID "B" 43).
      split; vm_compute; reflexivity. }
    exact Hrun.
Defined.


Lemma open_data_channel_orders_its_steps_witness :
  graphsyncimpl.OpenPullDataChannel demoDeps "B" demoVoucher "root" "sel" demoImplWorld
  = Ok (mkChannelID "A" 1, None)
       (saying demoImplWorld 1
          [graphsyncimpl.CounterNext;
           graphsyncimpl.NetSendRequest "B" 1 true "deal" [1; 2] "root" [5];
           graphsyncimpl.ChannelsCreateNew 1 "root" "sel" "deal" "A" "B" "A"]) /\
  graphsyncimpl.OpenPushDataChannel demoDeps "nobody" demoVoucher "root" "sel" demoImplWorld
  = Ok (mkChannelID "" 0, Some (ErrOther "no route"))
       (saying demoImplWorld 1
          [graphsyncimpl.CounterNext;
           graphsyncimpl.NetSendRequest "nobody" 1 false "deal" [1; 2] "root" [5]]).
Proof.
  split.
  - exact (open_data_channel_orders_its_steps demoDeps demoImplWorld true "B" demoVoucher
             "root" "sel" [5] [1; 2] 1 1 None 1 eq_refl eq_refl eq_refl eq_refl).
  - exact (open_data_channel_orders_its_steps demoDeps demoImplWorld false "nobody"
             demoVoucher "root" "sel" [5] [1; 2] 1 1 (Some (ErrOther "no route")) 1
             eq_refl eq_refl eq_refl eq_refl).
Defined.

Lemma send_gs_request_always_asks_witness :
  exists evt,
    graphsyncimpl.awaitCompletion demoDeps "B" 42 "A" [] demoImplWorld
    = Ok tt (saying demoImplWorld 0 [graphsyncimpl.Publish evt (Some "ongoing")]) /\
    graphsyncimpl.Code evt = graphsyncimpl.Complete.
Proof.
  destruct (send_gs_request_always_asks demoDeps demoImplWorld "B" 42 true "A" "root" "sel" [])
    as (_ & evt & Hrun & _ & Hcode & _).
  exists evt. split; [exact Hrun |].
  apply Hcode. split; [vm_compute; discriminate | reflexivity].
Defined.
